(** * reboot.py: the browser-fleet supervisor [BrowserManager]

    A shallow embedding of the supervision engine of [src/reboot.py]:
    the launch controller ([open_urls_in_tabs], [start_all_browsers]),
    the window locator and cascade layout, the process health monitor
    ([check_browser_processes]), the resource monitor
    ([monitor_resources]), the scheduled restart timer
    ([scheduled_restart]) and the restart sequence ([force_restart],
    [stop_all_browsers], [cleanup_chrome_processes]).

    Python methods become programs of a small resumption monad [Prog]
    whose instructions read and update the mutable fields of the manager,
    read the clock, log, call the operating system and sleep.  A program
    is run either alone ([run_seq], where a sleep advances the clock) or
    as one thread of a pool ([run_pool], where a sleep hands the processor
    to the thread that wakes first).  Time is counted in microseconds, the
    resolution of [datetime.now()], from 1970-01-01 00:00:00 of the local
    calendar. *)

From Stdlib Require Import ZArith List String Ascii Bool Lia QArith Arith.
Import ListNotations.
Local Open Scope string_scope.
Local Open Scope list_scope.
Local Open Scope Z_scope.

Set Implicit Arguments.

(** ** Strings: Python's [in] and [str.lower] on ASCII text

    A string is the UTF-8 encoding of the Python string. *)

Module Str.

(** [needle in hay]. *)
Fixpoint contains (needle hay : string) : bool :=
  if String.prefix needle hay then true
  else match hay with
       | EmptyString => false
       | String _ rest => contains needle rest
       end.

Definition lower_ascii (c : ascii) : ascii :=
  let n := nat_of_ascii c in
  if ((65 <=? n) && (n <=? 90))%nat then ascii_of_nat (n + 32) else c.

(** [s.lower()]; characters outside A-Z are left as they are. *)
Fixpoint lower (s : string) : string :=
  match s with
  | EmptyString => EmptyString
  | String c rest => String (lower_ascii c) (lower rest)
  end.

(** [' '.join(parts)]. *)
Fixpoint join_spaces (parts : list string) : string :=
  match parts with
  | [] => ""
  | [p] => p
  | p :: rest => (p ++ " " ++ join_spaces rest)%string
  end.

(** [value or ''] for a field that psutil may leave as [None]. *)
Definition or_empty (o : option string) : string :=
  match o with Some s => s | None => "" end.

(** Truthiness of an optional string: [None] and [''] are falsy. *)
Definition truthy (o : option string) : bool :=
  match o with
  | None => false
  | Some EmptyString => false
  | Some _ => true
  end.

(** A byte [10xxxxxx], which continues a character. *)
Definition is_continuation (c : ascii) : bool :=
  let n := nat_of_ascii c in ((128 <=? n) && (n <? 192))%nat.

(** [s[:n]]: the first [n] characters, each with all its bytes. *)
Fixpoint prefix_chars (n : nat) (s : string) : string :=
  match s with
  | EmptyString => EmptyString
  | String c rest =>
      if is_continuation c then String c (prefix_chars n rest)
      else match n with
           | O => EmptyString
           | S m => String c (prefix_chars m rest)
           end
  end.

End Str.

(** ** Constants of the module *)

Definition seconds (n : Z) : Z := n * 1000000.

Definition SCHEDULE_CHECK_INTERVAL : Z := seconds 60.
Definition START_DELAY : Z := 3500000.          (* 3.5 s *)
Definition STOP_DELAY : Z := seconds 15.
Definition STARTUP_PROTECTION_PERIOD : Z := seconds 90.
Definition RETRY_DELAY : Z := seconds 3.         (* time.sleep(3) in the locator *)
Definition RECOVERY_DELAY : Z := seconds 5.      (* time.sleep(5) in the health check *)
Definition CPU_SAMPLE_WINDOW : Z := seconds 1.   (* psutil.cpu_percent(interval=1) *)
Definition max_attempts : nat := 10.

(** ** Dates

    [datetime] holds the years 1 to 9999 and [timedelta] at most
    999999999 days either way; [timedelta(seconds=n)] and the sum of a
    date and a duration raise [OverflowError] outside. *)
Definition DATETIME_MIN : Z := -62135596800000000.   (* 0001-01-01 00:00:00 *)
Definition DATETIME_MAX : Z := 253402300799999999.   (* 9999-12-31 23:59:59.999999 *)
Definition TIMEDELTA_MAX_DAYS : Z := 999999999.

(** [timedelta(seconds=n)] for an integer [n], in microseconds. *)
Definition timedelta_seconds (n : Z) : option Z :=
  if (- TIMEDELTA_MAX_DAYS <=? n / 86400) && (n / 86400 <=? TIMEDELTA_MAX_DAYS)
  then Some (seconds n) else None.

(** [t + d] for a date [t] and a duration [d]. *)
Definition datetime_add (t d : Z) : option Z :=
  if (DATETIME_MIN <=? t + d) && (t + d <=? DATETIME_MAX)
  then Some (t + d) else None.

(** [t + timedelta(seconds=n)]; [None] when either step raises. *)
Definition deadline_after (t n : Z) : option Z :=
  match timedelta_seconds n with
  | Some d => datetime_add t d
  | None => None
  end.

(** The win32con constants passed to [SetWindowPos]. *)
Definition HWND_NOTOPMOST : Z := -2.
Definition SWP_NOSIZE : Z := 1.
Definition SWP_NOMOVE : Z := 2.
Definition SWP_NOZORDER : Z := 4.
Definition SWP_NOACTIVATE : Z := 16.
Definition SWP_SHOWWINDOW : Z := 64.

(** ** What the operating system shows *)

(** One entry of [psutil.process_iter(['pid','name','exe','cmdline'])];
    a field psutil could not read is [None]. *)
Record ProcInfo := mkProcInfo {
  pi_pid : Z;
  pi_name : option string;
  pi_exe : option string;
  pi_cmdline : option (list string)
}.

(** One top-level window as [EnumWindows] presents it. *)
Record Window := mkWindow {
  w_hwnd : Z;
  w_class : string;
  w_visible : bool;
  w_enabled : bool;
  w_pid : Z;
  w_title : string
}.

Inductive PopenResult :=
| Spawned (pid : Z)
| PopenFileNotFound
| PopenFailed.

(** The host at each instant.  Every field is what the corresponding
    call returns when it is made at the given time.

    - [os_popen]: the outcome of [subprocess.Popen], a handle or one of
      the two exceptions the launch loop tells apart.
    - [os_EnumWindows]: the top-level windows handed to the callback, in
      order, with the attributes the callbacks read.  A handle that dies
      during the enumeration makes [GetClassName] raise in the first
      callback and [IsWindowVisible] answer no in the second, so both skip
      it as they skip a window that is not visible.
    - [os_SetWindowPos_ok]: [false] when the call raises.
    - [os_process_iter]: the processes the iterator yields; name, path or
      command line that psutil could not read are [None].
    - [os_terminate_ok]: [false] when [terminate] raises [NoSuchProcess]
      or [AccessDenied], which the clean-up loop passes over.
    - [os_cpu_percent], [os_memory_percent]: the samples of psutil.
    - [os_sleep_max]: the longest sleep, in seconds, that [time.sleep]
      accepts; it raises [OverflowError] above it (the capacity of the
      interpreter's time type, and of the system call on older
      interpreters) and [ValueError] below zero.  The constant sleeps of
      the module, a minute at most, are accepted everywhere; the limit
      matters for [monitor_interval] alone.

    Only sleeps, and the one-second sampling of the processor, take
    time. *)
Record OS := mkOS {
  os_getpid : Z;
  os_popen : Z -> list string -> PopenResult;
  os_win32gui : bool;                       (* import win32gui succeeds *)
  os_EnumWindows : Z -> list Window;
  os_SetWindowPos_ok : Z -> Z -> bool;      (* time, handle *)
  os_process_iter : Z -> list ProcInfo;
  os_terminate_ok : Z -> Z -> bool;         (* time, pid *)
  os_cpu_percent : Z -> Q;
  os_memory_percent : Z -> Q;
  os_sleep_max : Z
}.

(** ** Configuration and runtime state of the manager *)

Record Group := mkGroup {
  g_name : string;
  g_urls : list string
}.

(** The fields [__init__] sets and no method assigns afterwards. *)
Record Config := mkConfig {
  restart_seconds : Z;
  max_cpu_percent : Q;
  max_memory_percent : Q;
  monitor_interval : Z;
  browser_path : option string;
  window_offset_x : Z;
  window_offset_y : Z;
  browser_configs : list Group
}.

(** An element of [self.browser_processes]: a [Popen] handle or the
    placeholder class of [check_browser_processes]. *)
Inductive Proc :=
| Popen (pid : Z)
| DummyProcess.

(** An element of [self.browser_profiles]. *)
Record Profile := mkProfile {
  pr_pid : Z;
  pr_hwnd : Z;
  pr_window_idx : nat;
  pr_profile_idx : nat;
  pr_url : string;
  pr_start_time : Z
}.

Record Runtime := mkRuntime {
  browser_processes : list Proc;
  browser_profiles : list Profile;
  is_running : bool;
  last_start_time : option Z
}.

Definition set_processes (ps : list Proc) (s : Runtime) : Runtime :=
  mkRuntime ps (browser_profiles s) (is_running s) (last_start_time s).

Definition set_profiles (ws : list Profile) (s : Runtime) : Runtime :=
  mkRuntime (browser_processes s) ws (is_running s) (last_start_time s).

Definition set_last_start_time (t : Z) (s : Runtime) : Runtime :=
  mkRuntime (browser_processes s) (browser_profiles s) (is_running s) (Some t).

Definition set_running (b : bool) (s : Runtime) : Runtime :=
  mkRuntime (browser_processes s) (browser_profiles s) b (last_start_time s).

(** ** Observable events *)

Inductive Reason :=
| CpuTooHigh
| MemoryTooHigh
| Scheduled.

(** A window the locator collected: [(hwnd, class_name, pid)]. *)
Definition Found : Type := Z * string * Z.

(** A spawned process: [(window_idx, process, url)]. *)
Definition Started : Type := nat * Z * string.

Inductive Event :=
(* operating-system calls *)
| EvPopen (args : list string)
| EvEnumWindows
| EvSetWindowPos (hwnd insert_after x y cx cy flags : Z)
| EvTerminate (pid : Z)
| EvSleep (d : Z)
(* log lines *)
| LogEmptyUrls (profile_idx : nat)
| LogOpening (profile_idx n : nat)
| LogLaunching (url : string)
| LogWindowStarted (pid : Z)
| LogPathMissing (url : string)
| LogOpenFailed (url : string)
| LogAllLaunched
| LogOurPids (pids : list Z)
| LogAttempt (attempt found required : nat)
| LogFoundEnough (found : nat)
| LogRetry
| LogPositioned (x y hwnd pid : Z)
| LogNotEnough (found required : nat)
| LogDumpHeader
| LogDumpEntry (hwnd : Z) (class_name : string) (pid : Z) (title : string)
| LogImportError
| LogLayoutFailed
| LogResources (cpu mem : Q)
| LogProtected (elapsed : Z)
| LogCpuHigh (cpu : Q)
| LogMemoryHigh (mem : Q)
| LogAllExited
| LogMonitorError
| LogMonitorStack
| LogForceRestart (reason : Reason)
| LogStopping
| LogSkipCleanup
| LogCleaned (pid : Z) (name : string)
| LogStartAll (n : nat)
| LogOpenGroup (name : string) (urls : list string)
| LogPlanned (deadline : Z)
| LogScheduledFire
| LogNextPlanned (deadline : Z).

Definition Trace : Type := list (Z * Event).

(** ** Programs *)

Inductive Prog (A : Type) : Type :=
| Ret (a : A)
| Get (k : Runtime -> Prog A)
| Modify (f : Runtime -> Runtime) (k : Prog A)
| Now (k : Z -> Prog A)
| Emit (e : Event) (k : Prog A)
| Sleep (d : Z) (k : Prog A).

Arguments Ret {A} a.
Arguments Get {A} k.
Arguments Modify {A} f k.
Arguments Now {A} k.
Arguments Emit {A} e k.
Arguments Sleep {A} d k.

Fixpoint bind {A B : Type} (p : Prog A) (f : A -> Prog B) : Prog B :=
  match p with
  | Ret a => f a
  | Get k => Get (fun s => bind (k s) f)
  | Modify g k => Modify g (bind k f)
  | Now k => Now (fun t => bind (k t) f)
  | Emit e k => Emit e (bind k f)
  | Sleep d k => Sleep d (bind k f)
  end.

Declare Scope prog_scope.
Delimit Scope prog_scope with prog.
Notation "x <- p ;; q" := (bind p (fun x => q))
  (at level 61, p at next level, right associativity) : prog_scope.
Notation "p ;; q" := (bind p (fun _ => q))
  (at level 61, right associativity) : prog_scope.
Local Open Scope prog_scope.

Definition get : Prog Runtime := Get (fun s => Ret s).
Definition modify (f : Runtime -> Runtime) : Prog unit := Modify f (Ret tt).
Definition now : Prog Z := Now (fun t => Ret t).
Definition emit (e : Event) : Prog unit := Emit e (Ret tt).
Definition sleep (d : Z) : Prog unit := Sleep d (Ret tt).

(** *** Running one program alone *)

Record Res (A : Type) := mkRes {
  val : A;
  clock : Z;
  rt : Runtime;
  out : Trace
}.

Definition logged {A} (ev : Z * Event) (r : Res A) : Res A :=
  mkRes (val r) (clock r) (rt r) (ev :: out r).

Fixpoint run_seq {A : Type} (p : Prog A) (t : Z) (s : Runtime) : Res A :=
  match p with
  | Ret a => mkRes a t s []
  | Get k => run_seq (k s) t s
  | Modify f k => run_seq k t (f s)
  | Now k => run_seq (k t) t s
  | Emit e k => logged (t, e) (run_seq k t s)
  | Sleep d k => logged (t, EvSleep d) (run_seq k (t + d) s)
  end.

(** *** Running a pool of threads

    A thread runs until its next sleep; the thread that wakes first runs
    next, the lowest index first among threads waking at the same time. *)

Record Slice := mkSlice {
  sl_rt : Runtime;
  sl_out : Trace;
  sl_next : option (Z * Prog unit)
}.

Fixpoint resume (p : Prog unit) (t : Z) (s : Runtime) : Slice :=
  match p with
  | Ret _ => mkSlice s [] None
  | Get k => resume (k s) t s
  | Modify f k => resume k t (f s)
  | Now k => resume (k t) t s
  | Emit e k =>
      let r := resume k t s in mkSlice (sl_rt r) ((t, e) :: sl_out r) (sl_next r)
  | Sleep d k => mkSlice s [(t, EvSleep d)] (Some (t + d, k))
  end.

Definition Thread : Type := option (Z * Prog unit).

(** Index of the thread that wakes first, if any thread is left. *)
Fixpoint earliest (pool : list Thread) : option (nat * Z) :=
  match pool with
  | [] => None
  | th :: rest =>
      let later :=
        match earliest rest with
        | Some (i, w) => Some (S i, w)
        | None => None
        end in
      match th with
      | None => later
      | Some (w, _) =>
          match later with
          | Some (j, w') => if w' <? w then Some (j, w') else Some (O, w)
          | None => Some (O, w)
          end
      end
  end.

Fixpoint set_nth {A} (i : nat) (x : A) (l : list A) : list A :=
  match l, i with
  | [], _ => []
  | _ :: rest, O => x :: rest
  | y :: rest, S j => y :: set_nth j x rest
  end.

Record PoolState := mkPool {
  ps_rt : Runtime;
  ps_threads : list Thread;
  ps_out : Trace
}.

Definition pool_step (st : PoolState) : option PoolState :=
  match earliest (ps_threads st) with
  | None => None
  | Some (i, w) =>
      match nth i (ps_threads st) None with
      | None => None
      | Some (_, p) =>
          let r := resume p w (ps_rt st) in
          Some (mkPool (sl_rt r) (set_nth i (sl_next r) (ps_threads st))
                       (ps_out st ++ sl_out r))
      end
  end.

Fixpoint run_pool (fuel : nat) (st : PoolState) : PoolState :=
  match fuel with
  | O => st
  | S n =>
      match pool_step st with
      | None => st
      | Some st' => run_pool n st'
      end
  end.

Definition all_done (st : PoolState) : bool :=
  forallb (fun th => match th with None => true | Some _ => false end)
          (ps_threads st).

(** ** The manager *)

Inductive Exn :=
| FileNotFoundError
| OtherError.

(** [a > b] on percentages. *)
Definition Qgtb (a b : Q) : bool := negb (Qle_bool a b).

Definition null {A} (l : list A) : bool :=
  match l with [] => true | _ => false end.

Section Manager.

Variable cfg : Config.
Variable os : OS.

(** *** Launch controller *)

Definition create_browser_args (url : string) : Exn + list string :=
  if negb (Str.truthy (browser_path cfg)) then inl FileNotFoundError
  else inr [Str.or_empty (browser_path cfg); "--new-window"; url].

(** The body of [for window_idx, url in enumerate(urls)] with its two
    handlers; the inter-launch sleep is inside the [try]. *)
Fixpoint spawn_loop (window_idx : nat) (urls : list string)
         (started_processes : list Started) : Prog (list Started) :=
  match urls with
  | [] => Ret started_processes
  | url :: rest =>
      match create_browser_args url with
      | inl _ =>
          emit (LogPathMissing url);;
          spawn_loop (S window_idx) rest started_processes
      | inr args =>
          emit (LogLaunching url);;
          emit (EvPopen args);;
          t <- now;;
          match os_popen os t args with
          | Spawned pid =>
              modify (fun s =>
                set_processes (browser_processes s ++ [Popen pid]) s);;
              emit (LogWindowStarted pid);;
              sleep START_DELAY;;
              spawn_loop (S window_idx) rest
                (started_processes ++ [(window_idx, pid, url)])
          | PopenFileNotFound =>
              emit (LogPathMissing url);;
              spawn_loop (S window_idx) rest started_processes
          | PopenFailed =>
              emit (LogOpenFailed url);;
              spawn_loop (S window_idx) rest started_processes
          end
      end
  end.

(** *** Window locator *)

Definition is_browser_class (class_name : string) : bool :=
  Str.contains "Chrome_WidgetWin" class_name
  || Str.contains "Edge_WidgetWin" class_name.

(** The callback [find_our_browser_windows] applied by [EnumWindows]
    to every top-level window, in order. *)
Definition find_our_browser_windows (ws : list Window) : list Found :=
  map (fun w => (w_hwnd w, w_class w, w_pid w))
      (filter (fun w => w_visible w && w_enabled w
                        && is_browser_class (w_class w)) ws).

(** [while attempt < max_attempts], by the attempts that remain. *)
Fixpoint locate_loop (remaining attempt required : nat)
         (found_windows : list Found) : Prog (list Found) :=
  match remaining with
  | O => Ret found_windows
  | S n =>
      let attempt := S attempt in
      emit EvEnumWindows;;
      t <- now;;
      let found_windows := find_our_browser_windows (os_EnumWindows os t) in
      emit (LogAttempt attempt (List.length found_windows) required);;
      if (required <=? List.length found_windows)%nat then
        emit (LogFoundEnough (List.length found_windows));;
        Ret found_windows
      else
        emit LogRetry;;
        sleep RETRY_DELAY;;
        locate_loop n attempt required found_windows
  end.

(** *** Cascade layout *)

Definition layout_flags : Z :=
  Z.lor (Z.lor (Z.lor SWP_SHOWWINDOW SWP_NOZORDER) SWP_NOACTIVATE) SWP_NOSIZE.

(** [for idx in range(required_windows)], from [idx] for [count] more
    windows; [false] when a call raised, which leaves the loop. *)
Fixpoint layout_loop (profile_idx : nat) (found_windows : list Found)
         (started_processes : list Started) (idx count : nat) : Prog bool :=
  match count with
  | O => Ret true
  | S n =>
      match nth_error found_windows idx, nth_error started_processes idx with
      | Some (hwnd, _, pid), Some (_, _, url) =>
          let pos_x := Z.of_nat idx * window_offset_x cfg in
          let pos_y := Z.of_nat idx * window_offset_y cfg in
          emit (EvSetWindowPos hwnd HWND_NOTOPMOST pos_x pos_y 0 0 layout_flags);;
          t <- now;;
          if os_SetWindowPos_ok os t hwnd then
            emit (LogPositioned pos_x pos_y hwnd pid);;
            modify (fun s =>
              set_profiles
                (browser_profiles s
                   ++ [mkProfile pid hwnd idx profile_idx url t]) s);;
            layout_loop profile_idx found_windows started_processes (S idx) n
          else Ret false
      | _, _ => Ret false
      end
  end.

(** *** Diagnostic dump *)

Definition find_all_browser_windows (ws : list Window)
  : list (Z * string * Z * string) :=
  map (fun w => (w_hwnd w, w_class w, w_pid w, w_title w))
      (filter (fun w => w_visible w && is_browser_class (w_class w)) ws).

Fixpoint log_dump (entries : list (Z * string * Z * string)) : Prog unit :=
  match entries with
  | [] => Ret tt
  | (hwnd, class_name, pid, title) :: rest =>
      emit (LogDumpEntry hwnd class_name pid (Str.prefix_chars 30 title));;
      log_dump rest
  end.

Definition dump_browser_windows : Prog unit :=
  emit EvEnumWindows;;
  t <- now;;
  log_dump (find_all_browser_windows (os_EnumWindows os t)).

(** *** [open_urls_in_tabs] *)

Definition locate_and_layout (profile_idx : nat)
           (started_processes : list Started) : Prog unit :=
  if os_win32gui os then
    emit (LogOurPids (map (fun sp => snd (fst sp)) started_processes));;
    let required_windows := List.length started_processes in
    found_windows <- locate_loop max_attempts 0 required_windows [];;
    ok <- (if (required_windows <=? List.length found_windows)%nat then
             layout_loop profile_idx found_windows started_processes
                         0 required_windows
           else
             emit (LogNotEnough (List.length found_windows) required_windows);;
             emit LogDumpHeader;;
             Ret true);;
    if ok : bool then dump_browser_windows else emit LogLayoutFailed
  else emit LogImportError.

Definition open_urls_in_tabs (profile_idx : nat) (urls : list string)
  : Prog unit :=
  if null urls then emit (LogEmptyUrls profile_idx)
  else
    emit (LogOpening profile_idx (List.length urls));;
    started_processes <- spawn_loop 0 urls [];;
    emit LogAllLaunched;;
    locate_and_layout profile_idx started_processes.

(** *** [start_all_browsers] *)

Fixpoint open_groups (idx : nat) (configs : list Group) : Prog unit :=
  match configs with
  | [] => Ret tt
  | config :: rest =>
      emit (LogOpenGroup (g_name config) (g_urls config));;
      open_urls_in_tabs (S idx) (g_urls config);;
      sleep START_DELAY;;
      open_groups (S idx) rest
  end.

Definition start_all_browsers : Prog unit :=
  emit (LogStartAll (List.length (browser_configs cfg)));;
  t <- now;;
  modify (set_last_start_time t);;
  modify (set_processes []);;
  modify (set_profiles []);;
  open_groups 0 (browser_configs cfg).

(** *** Termination step *)

(** The test that sets [is_browser] in [cleanup_chrome_processes]. *)
Definition is_browser (name exe cmdline : string) : bool :=
  let browser_path_lower := Str.lower (Str.or_empty (browser_path cfg)) in
  if Str.contains "chrome" browser_path_lower then
    Str.contains "chrome" (Str.lower name)
    && negb (Str.contains "steam" (Str.lower name))
    && (Str.contains "chrome" (Str.lower exe)
        || Str.contains "chrome" (Str.lower cmdline))
    && (negb (Str.contains "steam" (Str.lower exe))
        && negb (Str.contains "steam" (Str.lower cmdline)))
  else if Str.contains "msedge" browser_path_lower then
    Str.contains "msedge.exe" (Str.lower name)
    && (Str.contains "msedge" (Str.lower exe)
        || Str.contains "edge" (Str.lower exe)
        || Str.contains "msedge" (Str.lower cmdline))
    && (negb (Str.contains "steam" (Str.lower exe))
        && negb (Str.contains "steam" (Str.lower cmdline)))
  else false.

(** Whether the loop body reaches [proc.terminate()] for [proc]. *)
Definition to_terminate (proc : ProcInfo) : bool :=
  if pi_pid proc =? os_getpid os then false
  else
    let name := Str.or_empty (pi_name proc) in
    if Str.contains "msedgewebview2.exe" (Str.lower name) then false
    else
      let exe := Str.or_empty (pi_exe proc) in
      let cmdline :=
        Str.join_spaces (match pi_cmdline proc with Some l => l | None => [] end) in
      is_browser name exe cmdline.

Fixpoint cleanup_loop (procs : list ProcInfo) : Prog unit :=
  match procs with
  | [] => Ret tt
  | proc :: rest =>
      (if to_terminate proc then
         emit (EvTerminate (pi_pid proc));;
         t <- now;;
         if os_terminate_ok os t (pi_pid proc) then
           emit (LogCleaned (pi_pid proc) (Str.or_empty (pi_name proc)))
         else Ret tt
       else Ret tt);;
      cleanup_loop rest
  end.

Definition cleanup_chrome_processes : Prog unit :=
  if negb (Str.truthy (browser_path cfg)) then emit LogSkipCleanup
  else
    t <- now;;
    cleanup_loop (os_process_iter os t).

Definition stop_all_browsers : Prog unit :=
  emit LogStopping;;
  cleanup_chrome_processes;;
  modify (set_profiles []);;
  modify (set_processes []).

Definition force_restart (reason : Reason) : Prog unit :=
  emit (LogForceRestart reason);;
  stop_all_browsers;;
  sleep STOP_DELAY;;
  start_all_browsers.

(** *** Process health monitor *)

(** The test that sets [browser_running] in [check_browser_processes]. *)
Definition family_running (proc : ProcInfo) : bool :=
  let name := Str.or_empty (pi_name proc) in
  let exe := Str.or_empty (pi_exe proc) in
  let browser_path_lower := Str.lower (Str.or_empty (browser_path cfg)) in
  if Str.contains "chrome" browser_path_lower then
    Str.contains "chrome.exe" (Str.lower name)
    && Str.contains "chrome" (Str.lower exe)
  else if Str.contains "msedge" browser_path_lower then
    Str.contains "msedge.exe" (Str.lower name)
    && Str.contains "msedge" (Str.lower exe)
  else false.

Definition check_browser_processes : Prog unit :=
  if negb (Str.truthy (browser_path cfg)) then modify (set_processes [])
  else
    t <- now;;
    let browser_running := existsb family_running (os_process_iter os t) in
    if negb browser_running then modify (set_processes [])
    else
      s <- get;;
      if null (browser_processes s) then
        modify (fun s =>
          set_processes (browser_processes s ++ [DummyProcess]) s)
      else Ret tt.

(** The health check of the monitor tick: reconcile, then recover when
    the process list came back empty. *)
Definition health_check : Prog unit :=
  check_browser_processes;;
  s <- get;;
  if null (browser_processes s) && negb (null (browser_configs cfg)) then
    emit LogAllExited;;
    stop_all_browsers;;
    sleep RECOVERY_DELAY;;
    start_all_browsers
  else Ret tt.

(** *** Resource monitor *)

(** The threshold comparisons of one tick on the samples taken. *)
Definition check_thresholds (cpu_percent memory_percent : Q) : Prog unit :=
  emit (LogResources cpu_percent memory_percent);;
  s <- get;;
  t <- now;;
  in_startup_protection <-
    match last_start_time s with
    | Some started =>
        let elapsed := t - started in
        if elapsed <? STARTUP_PROTECTION_PERIOD then
          emit (LogProtected elapsed);; Ret true
        else Ret false
    | None => Ret false
    end;;
  (if negb in_startup_protection && Qgtb cpu_percent (max_cpu_percent cfg) then
     emit (LogCpuHigh cpu_percent);;
     force_restart CpuTooHigh
   else Ret tt);;
  if Qgtb memory_percent (max_memory_percent cfg) then
    emit (LogMemoryHigh memory_percent);;
    force_restart MemoryTooHigh
  else Ret tt.

(** [time.sleep(n)] returns for an integer [n] of seconds. *)
Definition sleep_accepts (n : Z) : bool :=
  (0 <=? n) && (n <=? os_sleep_max os).

(** One iteration of [while self.is_running]; sampling the processor
    blocks for one second.  [true] when the loop goes on.  When the sleep
    that ends the body raises, the last handler logs the error and the
    stack, and its own sleep raises again: the exception leaves the loop
    and the thread ends. *)
Definition monitor_tick : Prog bool :=
  sleep CPU_SAMPLE_WINDOW;;
  t <- now;;
  check_thresholds (os_cpu_percent os t) (os_memory_percent os t);;
  health_check;;
  if sleep_accepts (monitor_interval cfg) then
    sleep (seconds (monitor_interval cfg));;
    Ret true
  else
    emit LogMonitorError;;
    emit LogMonitorStack;;
    Ret false.

Fixpoint monitor_resources (fuel : nat) : Prog unit :=
  match fuel with
  | O => Ret tt
  | S n =>
      s <- get;;
      if is_running s then
        go_on <- monitor_tick;;
        if go_on : bool then monitor_resources n else Ret tt
      else Ret tt
  end.

(** *** Scheduled restart timer *)

(** [datetime.now() + timedelta(seconds=self.restart_seconds)] at time
    [t]; [None] when it raises [OverflowError], which nothing catches: the
    thread ends. *)
Definition next_deadline (t : Z) : option Z :=
  deadline_after t (restart_seconds cfg).

Fixpoint scheduled_loop (fuel : nat) (next_restart : Z) : Prog unit :=
  match fuel with
  | O => Ret tt
  | S n =>
      s <- get;;
      if is_running s then
        current_time <- now;;
        planned <-
          (if next_restart <=? current_time then
             emit LogScheduledFire;;
             force_restart Scheduled;;
             t <- now;;
             match next_deadline t with
             | Some next_restart =>
                 emit (LogNextPlanned next_restart);;
                 Ret (Some next_restart)
             | None => Ret None
             end
           else Ret (Some next_restart));;
        match planned with
        | Some next_restart =>
            sleep SCHEDULE_CHECK_INTERVAL;;
            scheduled_loop n next_restart
        | None => Ret tt
        end
      else Ret tt
  end.

Definition scheduled_restart (fuel : nat) : Prog unit :=
  t <- now;;
  match next_deadline t with
  | Some next_restart =>
      emit (LogPlanned next_restart);;
      scheduled_loop fuel next_restart
  | None => Ret tt
  end.

(** *** [run] *)

Definition initial_runtime : Runtime := mkRuntime [] [] false None.

(** The main thread up to the start of the two daemon threads. *)
Definition run_startup : Prog unit :=
  modify (set_running true);;
  start_all_browsers.

(** [run] from time [t0]: the fleet is started, then the monitor thread
    and the restart thread run side by side for [fuel] slices. *)
Definition run (fuel : nat) (t0 : Z) : PoolState :=
  let r := run_seq run_startup t0 initial_runtime in
  run_pool fuel
    (mkPool (rt r)
            [Some (clock r, monitor_resources fuel);
             Some (clock r, scheduled_restart fuel)]
            (out r)).

End Manager.

Arguments max_attempts : simpl never.
Arguments locate_and_layout : simpl never.
Arguments dump_browser_windows : simpl never.
Arguments open_urls_in_tabs : simpl never.
Arguments start_all_browsers : simpl never.
Arguments cleanup_chrome_processes : simpl never.
Arguments stop_all_browsers : simpl never.
Arguments force_restart : simpl never.
Arguments check_browser_processes : simpl never.
Arguments health_check : simpl never.
Arguments check_thresholds : simpl never.
Arguments monitor_tick : simpl never.
Arguments scheduled_restart : simpl never.
Arguments run_startup : simpl never.

(** ** Reading traces *)

Definition events (tr : Trace) : list Event := map snd tr.

(** The reasons of the forced restarts a trace requests, in order. *)
Fixpoint restart_reasons (tr : Trace) : list Reason :=
  match tr with
  | [] => []
  | (_, LogForceRestart r) :: rest => r :: restart_reasons rest
  | _ :: rest => restart_reasons rest
  end.

(** Total weight of a trace under a weight on events. *)
Definition cost (w : Event -> nat) (tr : Trace) : nat :=
  list_sum (map (fun te => w (snd te)) tr).

(** The weight that counts the events satisfying a test. *)
Definition indicator (q : Event -> bool) (e : Event) : nat :=
  if q e then 1%nat else 0%nat.

(** Number of events of a trace that satisfy a test. *)
Definition count (q : Event -> bool) (tr : Trace) : nat :=
  cost (indicator q) tr.

(** Times at which the events satisfying a test occur. *)
Definition times_of (q : Event -> bool) (tr : Trace) : list Z :=
  map fst (filter (fun te => q (snd te)) tr).

Definition is_stop (e : Event) : bool :=
  match e with LogStopping => true | _ => false end.

Definition is_start (e : Event) : bool :=
  match e with LogStartAll _ => true | _ => false end.

Definition is_settle (e : Event) : bool :=
  match e with EvSleep d => d =? STOP_DELAY | _ => false end.

Definition is_sleep (e : Event) : bool :=
  match e with EvSleep _ => true | _ => false end.

Definition is_popen (e : Event) : bool :=
  match e with EvPopen _ => true | _ => false end.

Definition is_set_window_pos (e : Event) : bool :=
  match e with EvSetWindowPos _ _ _ _ _ _ _ => true | _ => false end.

Definition is_enum_windows (e : Event) : bool :=
  match e with EvEnumWindows => true | _ => false end.

Definition is_scheduled_restart (e : Event) : bool :=
  match e with LogForceRestart Scheduled => true | _ => false end.

Definition is_force_restart (e : Event) : bool :=
  match e with LogForceRestart _ => true | _ => false end.

Definition is_negative_sleep (e : Event) : bool :=
  match e with EvSleep d => d <? 0 | _ => false end.

(** Log lines and system calls of the spawning loop. *)
Definition spawn_event (e : Event) : bool :=
  match e with
  | EvPopen _ | LogEmptyUrls _ | LogOpening _ _ | LogLaunching _
  | LogWindowStarted _ | LogPathMissing _ | LogOpenFailed _ | LogAllLaunched
  | LogOpenGroup _ _ => true
  | _ => false
  end.

(** Log lines and system calls of the window locator, the layout and the
    diagnostic dump. *)
Definition locate_event (e : Event) : bool :=
  match e with
  | EvEnumWindows | EvSetWindowPos _ _ _ _ _ _ _ | LogOurPids _
  | LogAttempt _ _ _ | LogFoundEnough _ | LogRetry | LogPositioned _ _ _ _
  | LogNotEnough _ _ | LogDumpHeader | LogDumpEntry _ _ _ _
  | LogImportError | LogLayoutFailed => true
  | _ => false
  end.

(** Events of the launch phase other than its sleeps. *)
Definition launch_event (e : Event) : bool :=
  spawn_event e || locate_event e.

(** Events of the termination step. *)
Definition cleanup_event (e : Event) : bool :=
  match e with
  | EvTerminate _ | LogCleaned _ _ | LogSkipCleanup => true
  | _ => false
  end.

(** ** Bounds that hold on every path of a program

    [Costs w p b]: whatever the state and the clock at each instruction,
    the events [p] produces weigh at most [b] in total. *)

Inductive Costs (w : Event -> nat) {A : Type} : Prog A -> nat -> Prop :=
| Costs_Ret a b : Costs w (Ret a) b
| Costs_Get k b : (forall s, Costs w (k s) b) -> Costs w (Get k) b
| Costs_Modify f k b : Costs w k b -> Costs w (Modify f k) b
| Costs_Now k b : (forall t, Costs w (k t) b) -> Costs w (Now k) b
| Costs_Emit e k b b' :
    Costs w k b -> (w e + b <= b')%nat -> Costs w (Emit e k) b'
| Costs_Sleep d k b b' :
    Costs w k b -> (w (EvSleep d) + b <= b')%nat -> Costs w (Sleep d k) b'.

(** [Weighs w p n]: on every path the events of [p] weigh exactly [n]. *)

Inductive Weighs (w : Event -> nat) {A : Type} : Prog A -> nat -> Prop :=
| Weighs_Ret a : Weighs w (Ret a) 0
| Weighs_Get k n : (forall s, Weighs w (k s) n) -> Weighs w (Get k) n
| Weighs_Modify f k n : Weighs w k n -> Weighs w (Modify f k) n
| Weighs_Now k n : (forall t, Weighs w (k t) n) -> Weighs w (Now k) n
| Weighs_Emit e k n n' :
    Weighs w k n -> n' = (w e + n)%nat -> Weighs w (Emit e k) n'
| Weighs_Sleep d k n n' :
    Weighs w k n -> n' = (w (EvSleep d) + n)%nat -> Weighs w (Sleep d k) n'.

(** What is known of one thread of a pool: the weight it has yet to
    produce and a bound on the slices it still needs. *)
Inductive ThreadSpec (w : Event -> nat) : Thread -> nat -> nat -> Prop :=
| TS_done : ThreadSpec w None 0 0
| TS_alive t p n b :
    Weighs w p n -> Costs (indicator is_sleep) p b ->
    ThreadSpec w (Some (t, p)) n (S b).

Inductive PoolSpec (w : Event -> nat) : list Thread -> nat -> nat -> Prop :=
| PS_nil : PoolSpec w [] 0 0
| PS_cons th rest n b N B :
    ThreadSpec w th n b -> PoolSpec w rest N B ->
    PoolSpec w (th :: rest) (n + N) (b + B).

(** Sleeps of one launch of the whole fleet, at most. *)
Definition launch_sleeps (configs : list Group) : nat :=
  list_sum (map (fun g => List.length (g_urls g) + max_attempts + 1)%nat configs).

(** Whether a tick that compares at time [t] is inside the startup
    protection period. *)
Definition in_startup_protection (t : Z) (s : Runtime) : bool :=
  match last_start_time s with
  | Some started => t - started <? STARTUP_PROTECTION_PERIOD
  | None => false
  end.

(** The line the diagnostic dump logs for one window. *)
Definition dump_entry (x : Z * string * Z * string) : Event :=
  let '(hwnd, class_name, pid, title) := x in
  LogDumpEntry hwnd class_name pid (Str.prefix_chars 30 title).

(** What the diagnostic dump does at time [t]: one enumeration, then one
    line for every visible browser window. *)
Definition dump_events (os : OS) (t : Z) : list Event :=
  EvEnumWindows :: map dump_entry (find_all_browser_windows (os_EnumWindows os t)).

(** Stamp a list of events with one time. *)
Definition at_time (t : Z) (es : list Event) : Trace :=
  map (fun e => (t, e)) es.

(** The [SetWindowPos] calls of a trace, in order. *)
Definition calls (tr : Trace) : list Event :=
  filter is_set_window_pos (events tr).

Definition hwnd_at (found_windows : list Found) (idx : nat) : Z :=
  fst (fst (nth idx found_windows (0, "", 0))).

(** The call the cascade makes for the window at index [idx]. *)
Definition cascade_call (cfg : Config) (found_windows : list Found) (idx : nat)
  : Event :=
  EvSetWindowPos (hwnd_at found_windows idx) HWND_NOTOPMOST
                 (Z.of_nat idx * window_offset_x cfg)
                 (Z.of_nat idx * window_offset_y cfg)
                 0 0 layout_flags.

(** Number of calls made on a list of handles when the loop is left at the
    first call that fails. *)
Fixpoint calls_made (ok : Z -> bool) (hwnds : list Z) : nat :=
  match hwnds with
  | [] => 0
  | h :: rest => if ok h then S (calls_made ok rest) else 1
  end.

(** *** The documented effect of [SetWindowPos]

    Geometry and stacking of one window, and what a call does to them
    according to the flags: [SWP_NOMOVE] keeps the position, [SWP_NOSIZE]
    the size, [SWP_NOZORDER] the place in the Z order, [SWP_NOACTIVATE]
    the activation; [SWP_SHOWWINDOW] shows the window. *)

Record WinGeom := mkWinGeom {
  geo_x : Z;
  geo_y : Z;
  geo_width : Z;
  geo_height : Z;
  geo_insert_after : Z;
  geo_active : bool;
  geo_shown : bool
}.

Definition has_flag (flags flag : Z) : bool := negb (Z.land flags flag =? 0).

Definition SetWindowPos_effect (insert_after x y cx cy flags : Z) (g : WinGeom)
  : WinGeom :=
  mkWinGeom
    (if has_flag flags SWP_NOMOVE then geo_x g else x)
    (if has_flag flags SWP_NOMOVE then geo_y g else y)
    (if has_flag flags SWP_NOSIZE then geo_width g else cx)
    (if has_flag flags SWP_NOSIZE then geo_height g else cy)
    (if has_flag flags SWP_NOZORDER then geo_insert_after g else insert_after)
    (if has_flag flags SWP_NOACTIVATE then geo_active g else true)
    (if has_flag flags SWP_SHOWWINDOW then true else geo_shown g).

Definition call_effect (e : Event) (g : WinGeom) : WinGeom :=
  match e with
  | EvSetWindowPos _ insert_after x y cx cy flags =>
      SetWindowPos_effect insert_after x y cx cy flags g
  | _ => g
  end.

(** What the locator collects at its attempt number [k], counted from 0,
    when the first attempt is made at time [t]. *)
Definition found_at (os : OS) (t : Z) (k : nat) : list Found :=
  find_our_browser_windows (os_EnumWindows os (t + Z.of_nat k * RETRY_DELAY)).

(** The three strings the termination step looks at, lower-cased. *)
Definition lower_name (proc : ProcInfo) : string :=
  Str.lower (Str.or_empty (pi_name proc)).

Definition lower_exe (proc : ProcInfo) : string :=
  Str.lower (Str.or_empty (pi_exe proc)).

Definition lower_cmdline (proc : ProcInfo) : string :=
  Str.lower (Str.join_spaces
               (match pi_cmdline proc with Some l => l | None => [] end)).

Definition lower_path (cfg : Config) : string :=
  Str.lower (Str.or_empty (browser_path cfg)).

(** One thread per restart request, each waking at its own time. *)
Definition restart_threads (cfg : Config) (os : OS) (requests : list (Z * Reason))
  : list Thread :=
  map (fun r => Some (fst r, force_restart cfg os (snd r))) requests.

(** The steps of restart sequences in a trace: the request, the stop, the
    settle sleep and the start. *)
Definition restart_steps (tr : Trace) : Trace :=
  filter (fun te => is_force_restart (snd te) || is_stop (snd te)
                    || is_settle (snd te) || is_start (snd te)) tr.

(** Whether a time lies in the poll window that opens at [deadline]. *)
Definition in_window (deadline : Z) (t : Z) : bool :=
  (deadline <=? t) && (t <? deadline + SCHEDULE_CHECK_INTERVAL).

(** Times of the scheduled restarts of a trace. *)
Definition scheduled_fires (tr : Trace) : list Z :=
  times_of is_scheduled_restart tr.

(** Number of polls the timer makes before the one that meets a deadline
    [restart] seconds ahead: the interval rounded up to whole minutes. *)
Definition polls_before_fire (restart : Z) : nat :=
  Z.to_nat ((restart + 59) / 60).

(** ** Concrete hosts and configurations *)

Module Scenario.

Definition chrome_path : string :=
  "C:\Program Files\Google\Chrome\Application\chrome.exe".

Definition edge_path : string :=
  "C:\Program Files (x86)\Microsoft\Edge\Application\msedge.exe".

(** The default group of [__init__]. *)
Definition default_group : Group :=
  mkGroup "G1" ["https://www.4399.com"; "https://www.acfun.cn";
                "https://live.bilibili.com"].

(** The default thresholds and offsets with a restart interval in
    seconds. *)
Definition config (restart : Z) (path : option string) : Config :=
  mkConfig restart (80 # 1) (85 # 1) 60 path 120 75 [default_group].

Definition chrome_window (hwnd : Z) : Window :=
  mkWindow hwnd "Chrome_WidgetWin_1" true true (1000 + hwnd) "tab".

Definition chrome_proc : ProcInfo :=
  mkProcInfo 77 (Some "chrome.exe") (Some chrome_path) (Some [chrome_path]).

Definition steady (q : Q) : Z -> Q := fun _ => q.

(** The longest sleep of an interpreter whose time type counts
    nanoseconds in 64 bits. *)
Definition sleep_max : Z := 9223372036.

(** A host where every launch succeeds, three browser windows are on
    screen and one browser process is alive. *)
Definition host (cpu mem : Z -> Q) : OS :=
  mkOS 1
       (fun t _ => Spawned (2000 + t / 1000000))
       true
       (fun _ => [chrome_window 1; chrome_window 2; chrome_window 3])
       (fun _ _ => true)
       (fun _ => [chrome_proc])
       (fun _ _ => true)
       cpu mem sleep_max.

(** The same host when [SetWindowPos] fails on the window of handle 2. *)
Definition stuck_host : OS :=
  mkOS 1
       (fun t _ => Spawned (2000 + t / 1000000))
       true
       (fun _ => [chrome_window 1; chrome_window 2; chrome_window 3])
       (fun _ hwnd => negb (hwnd =? 2))
       (fun _ => [chrome_proc])
       (fun _ _ => true)
       (steady (10 # 1)) (steady (50 # 1))
       sleep_max.

Definition calm_host : OS := host (steady (10 # 1)) (steady (50 # 1)).

Definition two_urls : list string := ["https://a.example"; "https://b.example"].

(** A host on which no process at all is listed. *)
Definition dead_host : OS :=
  mkOS 1
       (fun t _ => Spawned (2000 + t / 1000000))
       true
       (fun _ => [chrome_window 1; chrome_window 2; chrome_window 3])
       (fun _ _ => true)
       (fun _ => [])
       (fun _ _ => true)
       (steady (10 # 1)) (steady (50 # 1))
       sleep_max.

(** The WebDriver server for Chrome, a program of its own. *)
Definition chromedriver_proc : ProcInfo :=
  mkProcInfo 4242 (Some "chromedriver.exe")
             (Some "C:\Tools\chromedriver.exe")
             (Some ["C:\Tools\chromedriver.exe"; "--port=9515"]).

(** An image tool whose name happens to end in [chrome.exe]. *)
Definition monochrome_proc : ProcInfo :=
  mkProcInfo 4343 (Some "monochrome.exe")
             (Some "C:\Tools\Monochrome\monochrome.exe")
             (Some ["C:\Tools\Monochrome\monochrome.exe"]).

(** A host running the browser, the WebDriver server and the image
    tool. *)
Definition shared_host : OS :=
  mkOS 1
       (fun t _ => Spawned (2000 + t / 1000000))
       true
       (fun _ => [chrome_window 1; chrome_window 2; chrome_window 3])
       (fun _ _ => true)
       (fun _ => [chrome_proc; chromedriver_proc; monochrome_proc])
       (fun _ _ => true)
       (steady (10 # 1)) (steady (50 # 1))
       sleep_max.

(** A generation with one placed window. *)
Definition one_window : Runtime :=
  mkRuntime [Popen 2000]
            [mkProfile 1001 1 0 1 "https://www.4399.com" 0]
            true (Some 0).

(** The same host with the processor at 95% from the hundredth second
    on. *)
Definition busy_host : OS :=
  host (fun t => if seconds 100 <? t then 95 # 1 else 10 # 1) (steady (50 # 1)).

(** The runtime state of a generation that started at time 0. *)
Definition started_at_zero : Runtime :=
  mkRuntime [Popen 2000] [] true (Some 0).

End Scenario.

(** ** Browser detection, construction and [main]

    The part of the program that runs once, before the fleet is started:
    [detect_browser_path], [BrowserManager.__init__] and the resolution of
    the settings in [main].  Log lines are left out: these functions are
    read for what they return. *)

Definition DEFAULT_RESTART_SECONDS : Z := 3600.
Definition DEFAULT_MAX_CPU : Z := 80.
Definition DEFAULT_MAX_MEMORY : Z := 85.
Definition DEFAULT_MONITOR_INTERVAL : Z := 60.
Definition DEFAULT_CLEAN_CACHE : bool := false.

Definition DEFAULT_CHROME_PATHS : list string :=
  ["C:\Program Files\Google\Chrome\Application\chrome.exe";
   "C:\Program Files (x86)\Google\Chrome\Application\chrome.exe"].

Definition DEFAULT_EDGE_PATHS : list string :=
  ["C:\Program Files (x86)\Microsoft\Edge\Application\msedge.exe";
   "C:\Program Files\Microsoft\Edge\Application\msedge.exe"].

(** What the machine answers at start-up: the platform, which paths exist
    and the two [App Paths] registry values ([None] when opening the key or
    reading the value raises). *)
Record Machine := mkMachine {
  mc_win32 : bool;
  mc_exists : string -> bool;
  mc_reg_msedge : option string;
  mc_reg_chrome : option string
}.

(** [os.path.exists]; the empty path never exists. *)
Definition path_exists (mc : Machine) (p : string) : bool :=
  match p with
  | EmptyString => false
  | _ => mc_exists mc p
  end.

Definition detect_edge (mc : Machine) : option string :=
  match find (path_exists mc) DEFAULT_EDGE_PATHS with
  | Some edge_path => Some edge_path
  | None =>
      match mc_reg_msedge mc with
      | Some reg_path => if path_exists mc reg_path then Some reg_path else None
      | None => None
      end
  end.

Definition detect_chrome (mc : Machine) : option string :=
  match find (path_exists mc) DEFAULT_CHROME_PATHS with
  | Some chrome_path => Some chrome_path
  | None =>
      match mc_reg_chrome mc with
      | Some reg_path => if path_exists mc reg_path then Some reg_path else None
      | None => None
      end
  end.

(** Edge first, then Chrome: the automatic order. *)
Definition detect_auto (mc : Machine) : option string :=
  match detect_edge mc with
  | Some edge_path => Some edge_path
  | None => detect_chrome mc
  end.

Definition detect_browser_path (mc : Machine) (custom_browser_path : option string)
           (browser_type : Z) : option string :=
  if Str.truthy custom_browser_path
     && path_exists mc (Str.or_empty custom_browser_path)
  then custom_browser_path
  else if browser_type =? 0 then detect_auto mc
  else if browser_type =? 1 then detect_edge mc
  else if browser_type =? 2 then detect_chrome mc
  else detect_auto mc.

(** The [browser_settings] dictionary: each offset is there or not. *)
Record WindowSettings := mkWindowSettings {
  ws_window_offset_x : option Z;
  ws_window_offset_y : option Z
}.

Definition or_default (o : option Z) (d : Z) : Z :=
  match o with Some z => z | None => d end.

(** The group [__init__] and [main] fall back on. *)
Definition builtin_group : Group :=
  mkGroup "默认组1"
          ["https://www.4399.com"; "https://www.acfun.cn";
           "https://live.bilibili.com"].

(** A constructed manager: its configuration, the browser type it ended
    with, and the two arguments it only stores. *)
Record Manager := mkManager {
  mg_config : Config;
  mg_browser_type : Z;
  mg_clean_cache_on_exit : bool;
  mg_custom_browser_path : option string
}.

(** [BrowserManager.__init__]; [None] is [sys.exit(1)]. *)
Definition BrowserManager_init (mc : Machine)
           (restart_seconds max_cpu_percent max_memory_percent : Z)
           (browser_configs : option (list Group))
           (monitor_interval : Z) (clean_cache_on_exit : bool)
           (custom_browser_path : option string)
           (window_settings : option WindowSettings)
           (browser_type : Z) : option Manager :=
  let window_offset_x :=
    match window_settings with
    | Some ws => or_default (ws_window_offset_x ws) 120
    | None => 120
    end in
  let window_offset_y :=
    match window_settings with
    | Some ws => or_default (ws_window_offset_y ws) 75
    | None => 75
    end in
  let browser_configs :=
    match browser_configs with
    | Some (g :: rest) => g :: rest
    | _ => [builtin_group]
    end in
  if negb (mc_win32 mc) then None
  else
    let browser_path := detect_browser_path mc custom_browser_path browser_type in
    let retry := negb (Str.truthy browser_path) && negb (browser_type =? 0) in
    let browser_type := if retry then 0 else browser_type in
    let browser_path :=
      if retry then detect_browser_path mc custom_browser_path 0
      else browser_path in
    if negb (Str.truthy browser_path) then None
    else
      Some (mkManager
              (mkConfig restart_seconds
                        (inject_Z max_cpu_percent) (inject_Z max_memory_percent)
                        monitor_interval browser_path
                        window_offset_x window_offset_y browser_configs)
              browser_type clean_cache_on_exit custom_browser_path).

(** The command line after [argparse]. *)
Record Args := mkArgs {
  arg_restart_seconds : Z;
  arg_max_cpu : Z;
  arg_max_memory : Z;
  arg_clean_cache : bool;
  arg_monitor_interval : Z;
  arg_browser_path : option string
}.

(** The configuration file as a dictionary: every key is there or not.
    Numbers are integers, as [argparse] makes those of the command line;
    [browser_path] may be there with the value [null]. *)
Record ConfigFile := mkConfigFile {
  cf_restart_minutes : option Z;
  cf_restart_seconds : option Z;
  cf_restart_hours : option Z;
  cf_max_cpu : option Z;
  cf_max_memory : option Z;
  cf_monitor_minutes : option Z;
  cf_monitor_interval : option Z;
  cf_clean_cache : option bool;
  cf_browser_path : option (option string);
  cf_browser_type : option Z;
  cf_browsers : option (list Group);
  cf_browser_settings : option WindowSettings
}.

(** The dictionary [main] writes when there is no file. *)
Definition default_config : ConfigFile :=
  mkConfigFile (Some 60) None None (Some 80) (Some 85) (Some 1) None
               (Some false) None (Some 0) (Some [builtin_group])
               (Some (mkWindowSettings (Some 120) (Some 75))).

(** What [main] finds at the configuration path: no file, and whether
    writing the default one succeeded; a file that cannot be read or
    decoded; a dictionary. *)
Inductive ConfigSource :=
| Missing (created : bool)
| Unreadable
| Loaded (config : ConfigFile).

(** The local variables of [main] when the manager is constructed. *)
Record Settings := mkSettings {
  st_restart_seconds : Z;
  st_max_cpu : Z;
  st_max_memory : Z;
  st_monitor_interval : Z;
  st_clean_cache_on_exit : bool;
  st_custom_browser_path : option string;
  st_browser_type : Z;
  st_browser_configs : option (list Group);
  st_window_settings : option WindowSettings
}.

(** The values before the file is read. *)
Definition initial_settings (args : Args) : Settings :=
  mkSettings (arg_restart_seconds args) (arg_max_cpu args) (arg_max_memory args)
             (arg_monitor_interval args) (arg_clean_cache args)
             (arg_browser_path args) 0 None None.

(** The body of [with open(args.config) as f], on the decoded dictionary. *)
Definition read_config (args : Args) (config : ConfigFile) : Settings :=
  let restart_seconds :=
    match cf_restart_minutes config with
    | Some m => m * 60
    | None =>
        match cf_restart_seconds config with
        | Some s => s
        | None =>
            match cf_restart_hours config with
            | Some h => h * 3600
            | None => arg_restart_seconds args
            end
        end
    end in
  let max_cpu := or_default (cf_max_cpu config) (arg_max_cpu args) in
  let max_memory := or_default (cf_max_memory config) (arg_max_memory args) in
  let monitor_interval :=
    match cf_monitor_minutes config with
    | Some m => m * 60
    | None => or_default (cf_monitor_interval config) (arg_monitor_interval args)
    end in
  let clean_cache_on_exit :=
    match cf_clean_cache config with
    | Some b => b
    | None => arg_clean_cache args
    end in
  let custom_browser_path :=
    match cf_browser_path config with
    | Some p => p
    | None => arg_browser_path args
    end in
  mkSettings restart_seconds max_cpu max_memory monitor_interval
             clean_cache_on_exit custom_browser_path
             (or_default (cf_browser_type config) 0)
             (cf_browsers config) (cf_browser_settings config).

(** The four checks under "验证配置合理性". *)
Definition validate (st : Settings) : Settings :=
  mkSettings
    (if st_restart_seconds st <=? 0 then DEFAULT_RESTART_SECONDS
     else st_restart_seconds st)
    (if (st_max_cpu st <=? 0) || (100 <? st_max_cpu st) then DEFAULT_MAX_CPU
     else st_max_cpu st)
    (if (st_max_memory st <=? 0) || (100 <? st_max_memory st)
     then DEFAULT_MAX_MEMORY else st_max_memory st)
    (if st_monitor_interval st <=? 0 then DEFAULT_MONITOR_INTERVAL
     else st_monitor_interval st)
    (st_clean_cache_on_exit st) (st_custom_browser_path st)
    (st_browser_type st) (st_browser_configs st) (st_window_settings st).

(** The settings [main] constructs the manager from. *)
Definition main_settings (args : Args) (source : ConfigSource) : Settings :=
  validate
    match source with
    | Missing true => read_config args default_config
    | Missing false => initial_settings args
    | Unreadable => initial_settings args
    | Loaded config => read_config args config
    end.

(** [main] up to [manager.run()]. *)
Definition main_manager (mc : Machine) (args : Args) (source : ConfigSource)
  : option Manager :=
  let st := main_settings args source in
  BrowserManager_init mc
    (st_restart_seconds st) (st_max_cpu st) (st_max_memory st)
    (st_browser_configs st) (st_monitor_interval st)
    (st_clean_cache_on_exit st) (st_custom_browser_path st)
    (st_window_settings st) (st_browser_type st).

(** The command line with no option given. *)
Definition default_args : Args :=
  mkArgs DEFAULT_RESTART_SECONDS DEFAULT_MAX_CPU DEFAULT_MAX_MEMORY
         DEFAULT_CLEAN_CACHE DEFAULT_MONITOR_INTERVAL None.

(** ** Frames

    [Keeps f p]: no update made by [p] changes what [f] reads of the
    runtime state. *)

Inductive Keeps {X : Type} (f : Runtime -> X) {A : Type} : Prog A -> Prop :=
| Keeps_Ret a : Keeps f (Ret a)
| Keeps_Get k : (forall s, Keeps f (k s)) -> Keeps f (Get k)
| Keeps_Modify g k : (forall s, f (g s) = f s) -> Keeps f k -> Keeps f (Modify g k)
| Keeps_Now k : (forall t, Keeps f (k t)) -> Keeps f (Now k)
| Keeps_Emit e k : Keeps f k -> Keeps f (Emit e k)
| Keeps_Sleep d k : Keeps f k -> Keeps f (Sleep d k).

(** Every thread still to run keeps [f]. *)
Definition pool_keeps {X : Type} (f : Runtime -> X) (threads : list Thread) : Prop :=
  Forall (fun th : Thread =>
            match th with
            | Some (_, p) => Keeps f p
            | None => True
            end) threads.

Definition is_window_started (e : Event) : bool :=
  match e with LogWindowStarted _ => true | _ => false end.

Definition is_all_exited (e : Event) : bool :=
  match e with LogAllExited => true | _ => false end.

Definition is_terminate (e : Event) : bool :=
  match e with EvTerminate _ => true | _ => false end.

(** The process identifiers a trace reports as started, in order. *)
Fixpoint started_pids (tr : Trace) : list Z :=
  match tr with
  | [] => []
  | (_, LogWindowStarted pid) :: rest => pid :: started_pids rest
  | _ :: rest => started_pids rest
  end.

(** The handle kept for a spawned process. *)
Definition handle_of (sp : Started) : Proc := Popen (snd (fst sp)).

(** The record the layout appends for the window at index [idx]. *)
Definition placed_profile (profile_idx : nat) (found_windows : list Found)
           (started_processes : list Started) (t : Z) (idx : nat) : Profile :=
  mkProfile (snd (nth idx found_windows (0, "", 0)))
            (hwnd_at found_windows idx)
            idx profile_idx
            (snd (nth idx started_processes (0%nat, 0, "")))
            t.

(** Number of windows the layout records: the calls that succeed before
    the first one that fails. *)
Fixpoint placed (ok : Z -> bool) (hwnds : list Z) : nat :=
  match hwnds with
  | [] => 0
  | h :: rest => if ok h then S (placed ok rest) else 0
  end.

(** Settings that pass the four checks of [main]. *)
Definition in_range (st : Settings) : Prop :=
  0 < st_restart_seconds st
  /\ 0 < st_max_cpu st <= 100
  /\ 0 < st_max_memory st <= 100
  /\ 0 < st_monitor_interval st.

(** A custom path that the detection can use. *)
Definition usable (mc : Machine) (custom_browser_path : option string) : bool :=
  Str.truthy custom_browser_path
  && path_exists mc (Str.or_empty custom_browser_path).

(** [main] to the end of [manager.run()], the two threads running for
    [fuel] slices from time [t0]; [None] when the constructor exits, before
    anything is started. *)
Definition main_run (mc : Machine) (args : Args) (source : ConfigSource)
           (os : OS) (fuel : nat) (t0 : Z) : option PoolState :=
  match main_manager mc args source with
  | Some mg => Some (run (mg_config mg) os fuel t0)
  | None => None
  end.

Module Startup.

(** A machine with Chrome in its first default place and nothing else. *)
Definition chrome_only : Machine :=
  mkMachine true
            (fun p => String.eqb p "C:\Program Files\Google\Chrome\Application\chrome.exe")
            None None.

(** A machine with no browser at all. *)
Definition bare : Machine := mkMachine true (fun _ => false) None None.

(** A file that names its interval three ways. *)
Definition three_ways : ConfigFile :=
  mkConfigFile (Some 30) (Some 45) (Some 2) None None None (Some 120)
               None None None None None.

(** The manager built on [chrome_only] with the default thresholds, groups
    and offsets. *)
Definition chrome_manager (restart_seconds monitor_interval browser_type : Z)
  : Manager :=
  mkManager
    (mkConfig restart_seconds (inject_Z 80) (inject_Z 85) monitor_interval
              (Some "C:\Program Files\Google\Chrome\Application\chrome.exe")
              120 75 [builtin_group])
    browser_type false None.

End Startup.

Module Fleet.

(** A browser that is neither Chrome nor Edge, given as custom path. *)
Definition qq_path : string :=
  "C:\Program Files\Tencent\QQBrowser\QQBrowser.exe".

Definition qq_proc : ProcInfo :=
  mkProcInfo 88 (Some "QQBrowser.exe") (Some qq_path) (Some [qq_path]).

(** A host on which that browser runs. *)
Definition qq_host : OS :=
  mkOS 1
       (fun t _ => Spawned (2000 + t / 1000000))
       true
       (fun _ => [])
       (fun _ _ => true)
       (fun _ => [qq_proc])
       (fun _ _ => true)
       (Scenario.steady (10 # 1)) (Scenario.steady (50 # 1))
       Scenario.sleep_max.

(** A machine on which that browser is installed, and no other. *)
Definition qq_machine : Machine :=
  mkMachine true (fun p => String.eqb p qq_path) None None.

Definition edge_proc : ProcInfo :=
  mkProcInfo 78 (Some "msedge.exe") (Some Scenario.edge_path)
             (Some [Scenario.edge_path]).

(** The WebDriver server for Edge. *)
Definition msedgedriver_proc : ProcInfo :=
  mkProcInfo 4444 (Some "msedgedriver.exe")
             (Some "C:\Tools\msedgedriver.exe")
             (Some ["C:\Tools\msedgedriver.exe"; "--port=9515"]).

(** A host running Edge and its WebDriver server. *)
Definition edge_host : OS :=
  mkOS 1
       (fun t _ => Spawned (2000 + t / 1000000))
       true
       (fun _ => [])
       (fun _ _ => true)
       (fun _ => [edge_proc; msedgedriver_proc])
       (fun _ _ => true)
       (Scenario.steady (10 # 1)) (Scenario.steady (50 # 1))
       Scenario.sleep_max.

(** A host with the processor at 95% and the memory at 97%. *)
Definition overloaded_host : OS :=
  Scenario.host (Scenario.steady (95 # 1)) (Scenario.steady (97 # 1)).

End Fleet.

(** * Facts about programs and their runs *)

Unset Implicit Arguments.

(** Unfold the monad and the run of the instructions in sight, and no
    method. *)
Ltac prog_simpl :=
  cbn [bind emit get now modify sleep run_seq logged out val clock rt].

Lemma Costs_mono {A : Type} w (p : Prog A) b b' :
  Costs w p b -> (b <= b')%nat -> Costs w p b'.
Proof.
  intros H; revert b'; induction H; intros c Hc.
  - constructor.
  - constructor; auto.
  - constructor; auto.
  - constructor; auto.
  - econstructor; [eassumption | lia].
  - econstructor; [eassumption | lia].
Qed.

Section ProgFacts.

Context {A B : Type}.

Lemma run_seq_bind (p : Prog A) (f : A -> Prog B) t s :
  run_seq (bind p f) t s =
  let r := run_seq p t s in
  let r' := run_seq (f (val r)) (clock r) (rt r) in
  mkRes (val r') (clock r') (rt r') (out r ++ out r').
Proof.
  revert t s; induction p as [a|k IH|g k IH|k IH|e k IH|d k IH];
    intros t s; simpl.
  - destruct (run_seq (f a) t s); reflexivity.
  - apply IH.
  - apply IH.
  - apply IH.
  - rewrite IH; reflexivity.
  - rewrite IH; reflexivity.
Qed.

Lemma out_bind (p : Prog A) (f : A -> Prog B) t s :
  out (run_seq (bind p f) t s) =
  (out (run_seq p t s)
   ++ out (run_seq (f (val (run_seq p t s)))
                   (clock (run_seq p t s)) (rt (run_seq p t s)))).
Proof. rewrite run_seq_bind; reflexivity. Qed.

Lemma rt_bind (p : Prog A) (f : A -> Prog B) t s :
  rt (run_seq (bind p f) t s) =
  rt (run_seq (f (val (run_seq p t s)))
              (clock (run_seq p t s)) (rt (run_seq p t s))).
Proof. rewrite run_seq_bind; reflexivity. Qed.

Lemma clock_bind (p : Prog A) (f : A -> Prog B) t s :
  clock (run_seq (bind p f) t s) =
  clock (run_seq (f (val (run_seq p t s)))
                 (clock (run_seq p t s)) (rt (run_seq p t s))).
Proof. rewrite run_seq_bind; reflexivity. Qed.

Lemma val_bind (p : Prog A) (f : A -> Prog B) t s :
  val (run_seq (bind p f) t s) =
  val (run_seq (f (val (run_seq p t s)))
               (clock (run_seq p t s)) (rt (run_seq p t s))).
Proof. rewrite run_seq_bind; reflexivity. Qed.

Variable w : Event -> nat.

Lemma Costs_bind (p : Prog A) (f : A -> Prog B) a b c :
  Costs w p a -> (forall x, Costs w (f x) b) -> (a + b <= c)%nat ->
  Costs w (bind p f) c.
Proof.
  intros H Hf; revert c; induction H; intros c Hc; simpl.
  - apply Costs_mono with (b := b); [apply Hf | lia].
  - constructor; auto.
  - constructor; auto.
  - constructor; auto.
  - apply Costs_Emit with (b := (b0 + b)%nat); [apply IHCosts; lia | lia].
  - apply Costs_Sleep with (b := (b0 + b)%nat); [apply IHCosts; lia | lia].
Qed.

Lemma Weighs_bind (p : Prog A) (f : A -> Prog B) a b c :
  Weighs w p a -> (forall x, Weighs w (f x) b) -> c = (a + b)%nat ->
  Weighs w (bind p f) c.
Proof.
  intros H Hf; revert c; induction H; intros c Hc; simpl; subst.
  - apply Hf.
  - constructor; auto.
  - constructor; auto.
  - constructor; auto.
  - apply Weighs_Emit with (n := (n + b)%nat); [apply IHWeighs; lia | lia].
  - apply Weighs_Sleep with (n := (n + b)%nat); [apply IHWeighs; lia | lia].
Qed.

Lemma Costs_zero_Weighs (p : Prog A) :
  Costs w p 0 -> Weighs w p 0.
Proof.
  intros H; remember 0%nat as z eqn:Hz; induction H; subst.
  - constructor.
  - constructor; auto.
  - constructor; auto.
  - constructor; auto.
  - assert (b = 0%nat) by lia; subst.
    apply Weighs_Emit with (n := 0%nat); [auto | lia].
  - assert (b = 0%nat) by lia; subst.
    apply Weighs_Sleep with (n := 0%nat); [auto | lia].
Qed.

Lemma Weighs_Costs (p : Prog A) n :
  Weighs w p n -> Costs w p n.
Proof.
  induction 1; subst.
  - constructor.
  - constructor; auto.
  - constructor; auto.
  - constructor; auto.
  - econstructor; [eassumption | lia].
  - econstructor; [eassumption | lia].
Qed.

Lemma Costs_run_seq (p : Prog A) b t s :
  Costs w p b -> (cost w (out (run_seq p t s)) <= b)%nat.
Proof.
  intros H; revert t s; induction H; intros t s; simpl.
  - unfold cost; simpl; lia.
  - auto.
  - auto.
  - auto.
  - unfold cost in *; simpl. specialize (IHCosts t s). lia.
  - unfold cost in *; simpl. specialize (IHCosts (t + d) s). lia.
Qed.

Lemma Weighs_run_seq (p : Prog A) n t s :
  Weighs w p n -> cost w (out (run_seq p t s)) = n.
Proof.
  intros H; revert t s; induction H; intros t s; simpl; subst.
  - reflexivity.
  - auto.
  - auto.
  - auto.
  - unfold cost in *; simpl. rewrite IHWeighs; reflexivity.
  - unfold cost in *; simpl. rewrite IHWeighs; reflexivity.
Qed.

End ProgFacts.

Lemma cost_app w (tr tr' : Trace) :
  cost w (tr ++ tr') = (cost w tr + cost w tr')%nat.
Proof.
  unfold cost; rewrite map_app, list_sum_app; reflexivity.
Qed.

Lemma cost_cons w te (tr : Trace) :
  cost w (te :: tr) = (w (snd te) + cost w tr)%nat.
Proof. reflexivity. Qed.

(** A trace that weighs nothing holds no event of positive weight. *)
Lemma cost_zero_Forall w (tr : Trace) :
  cost w tr = 0%nat -> Forall (fun te => w (snd te) = 0%nat) tr.
Proof.
  induction tr as [|te tr IH]; intros H; constructor;
    rewrite cost_cons in H.
  - lia.
  - apply IH; lia.
Qed.

Lemma times_of_app q (tr tr' : Trace) :
  times_of q (tr ++ tr') = (times_of q tr ++ times_of q tr').
Proof.
  unfold times_of; rewrite filter_app, map_app; reflexivity.
Qed.

Lemma restart_reasons_app (tr tr' : Trace) :
  restart_reasons (tr ++ tr') = (restart_reasons tr ++ restart_reasons tr').
Proof.
  induction tr as [|[t e] tr IH]; simpl; [reflexivity|].
  destruct e; simpl; rewrite ?IH; reflexivity.
Qed.

(** No forced restart is requested in a trace without a restart line. *)
Lemma restart_reasons_none (tr : Trace) :
  count is_force_restart tr = 0%nat -> restart_reasons tr = [].
Proof.
  induction tr as [|[t e] tr IH]; intros H; [reflexivity|].
  unfold count, indicator in *; rewrite cost_cons in H; simpl in *.
  destruct e; simpl in *; try (apply IH; lia); lia.
Qed.

Lemma times_of_none q (tr : Trace) :
  count q tr = 0%nat -> times_of q tr = [].
Proof.
  induction tr as [|[t e] tr IH]; intros H; [reflexivity|].
  unfold count, indicator in *; rewrite cost_cons in H; unfold times_of in *; simpl in *.
  destruct (q e); [lia | apply IH; lia].
Qed.

(** *** Slices *)

Section SliceFacts.

Variable w : Event -> nat.

Lemma Weighs_resume (p : Prog unit) n t s :
  Weighs w p n ->
  exists n', (cost w (sl_out (resume p t s)) + n')%nat = n /\
    match sl_next (resume p t s) with
    | None => n' = 0%nat
    | Some (_, k) => Weighs w k n'
    end.
Proof.
  intros H; revert t s; induction H; intros t s; simpl; subst.
  - exists 0%nat; split; reflexivity.
  - auto.
  - auto.
  - auto.
  - destruct (IHWeighs t s) as [n' [Hc Hk]].
    exists n'; split; [rewrite cost_cons; simpl; lia | exact Hk].
  - exists n; split; [unfold cost; simpl; lia | assumption].
Qed.

Lemma Costs_resume (p : Prog unit) b t s :
  Costs (indicator is_sleep) p b ->
  match sl_next (resume p t s) with
  | None => True
  | Some (_, k) =>
      exists b', Costs (indicator is_sleep) k b'
                 /\ (b' < b)%nat
  end.
Proof.
  intros H; revert t s;
    induction H as [a b|k b H IH|f k b H IH|k b H IH|e k b b' H IH Hb
                   |d k b b' H IH Hb];
    intros t s; simpl.
  - exact I.
  - apply IH.
  - apply IH.
  - apply IH.
  - specialize (IH t s).
    destruct (sl_next (resume k t s)) as [[? ?]|]; [|exact I].
    destruct IH as [b1 [H1 H2]]; exists b1; split; [assumption | lia].
  - exists b; split; [assumption | simpl in *; lia].
Qed.

End SliceFacts.

(** * What each method can emit

    The weight of every method of the manager under a weight [w] that
    ignores the log lines and system calls of the launch phase and of the
    termination step, and charges at most [c] for a launch-phase sleep. *)

Ltac psimpl := cbn [bind emit sleep now modify get].

Section LocateFootprint.

Variable cfg : Config.
Variable os : OS.
Variable w : Event -> nat.
Variable c : nat.

Hypothesis Hlocate : forall e, locate_event e = true -> w e = 0%nat.
Hypothesis Hretry_delay : (w (EvSleep RETRY_DELAY) <= c)%nat.

Lemma Costs_quiet {A} e (k : Prog A) b :
  locate_event e = true -> Costs w k b -> Costs w (Emit e k) b.
Proof.
  intros H Hk; apply Costs_Emit with (b := b); auto.
  rewrite (Hlocate _ H); lia.
Qed.

Ltac quiet := apply Costs_quiet; [reflexivity | ].

Lemma Costs_locate_loop remaining : forall attempt required found_windows,
  Costs w (locate_loop os remaining attempt required found_windows)
        (c * remaining).
Proof.
  induction remaining as [|n IH]; intros attempt required found; simpl.
  - constructor.
  - quiet; constructor; intros t; simpl; quiet.
    destruct (required <=? _)%nat; simpl.
    + quiet; constructor.
    + quiet.
      apply Costs_Sleep with (b := (c * n)%nat); [apply IH | lia].
Qed.

Lemma Costs_layout_loop profile_idx found_windows started_processes count :
  forall idx,
    Costs w (layout_loop cfg os profile_idx found_windows started_processes
                         idx count) 0.
Proof.
  induction count as [|n IH]; intros idx; simpl.
  - constructor.
  - destruct (nth_error found_windows idx) as [[[hwnd cl] pid]|];
      [|constructor].
    destruct (nth_error started_processes idx) as [[[wi p] url]|];
      [|constructor].
    simpl; quiet; constructor; intros t.
    destruct (os_SetWindowPos_ok os t hwnd); simpl; [|constructor].
    quiet; constructor; apply IH.
Qed.

Lemma Costs_log_dump entries : Costs w (log_dump entries) 0.
Proof.
  induction entries as [|[[[hwnd cl] pid] title] rest IH]; simpl.
  - constructor.
  - quiet; exact IH.
Qed.

Lemma Costs_dump_browser_windows : Costs w (dump_browser_windows os) 0.
Proof.
  unfold dump_browser_windows; psimpl.
  quiet; constructor; intros t; apply Costs_log_dump.
Qed.

Lemma Costs_locate_and_layout profile_idx started_processes :
  Costs w (locate_and_layout cfg os profile_idx started_processes)
        (c * max_attempts).
Proof.
  unfold locate_and_layout.
  destruct (os_win32gui os); psimpl; [|quiet; constructor].
  quiet.
  eapply Costs_bind with (b := 0%nat); [apply Costs_locate_loop | | lia].
  intros found.
  eapply Costs_bind with (a := 0%nat) (b := 0%nat); [| |lia].
  - destruct (_ <=? _)%nat; psimpl.
    + apply Costs_layout_loop.
    + quiet; quiet; constructor.
  - intros [|]; psimpl.
    + apply Costs_dump_browser_windows.
    + quiet; constructor.
Qed.

End LocateFootprint.

Section SpawnFootprint.

Variable cfg : Config.
Variable os : OS.
Variable w : Event -> nat.
Variable c : nat.

Hypothesis Hspawn : forall e, spawn_event e = true -> w e = 0%nat.
Hypothesis Hstart_delay : (w (EvSleep START_DELAY) <= c)%nat.

Lemma Costs_mute {A} e (k : Prog A) b :
  spawn_event e = true -> Costs w k b -> Costs w (Emit e k) b.
Proof.
  intros H Hk; apply Costs_Emit with (b := b); auto.
  rewrite (Hspawn _ H); lia.
Qed.

Ltac mute := apply Costs_mute; [reflexivity | ].

Lemma Costs_spawn_loop urls : forall window_idx started_processes,
  Costs w (spawn_loop cfg os window_idx urls started_processes)
        (c * List.length urls).
Proof.
  induction urls as [|url rest IH]; intros window_idx started; simpl.
  - constructor.
  - assert (Hrest : forall i st,
               Costs w (spawn_loop cfg os i rest st)
                     (c * S (List.length rest))).
    { intros; eapply Costs_mono; [apply IH | lia]. }
    destruct (create_browser_args cfg url) as [e|args]; simpl.
    + mute; apply Hrest.
    + mute; mute; constructor; intros t.
      destruct (os_popen os t args); simpl.
      * constructor; mute.
        apply Costs_Sleep with (b := (c * List.length rest)%nat);
          [apply IH | lia].
      * mute; apply Hrest.
      * mute; apply Hrest.
Qed.

End SpawnFootprint.

Section Footprint.

Variable cfg : Config.
Variable os : OS.
Variable w : Event -> nat.
Variable c : nat.

Hypothesis Hlaunch : forall e, launch_event e = true -> w e = 0%nat.
Hypothesis Hcleanup : forall e, cleanup_event e = true -> w e = 0%nat.
Hypothesis Hstart_delay : (w (EvSleep START_DELAY) <= c)%nat.
Hypothesis Hretry_delay : (w (EvSleep RETRY_DELAY) <= c)%nat.

Lemma locate_weightless e : locate_event e = true -> w e = 0%nat.
Proof.
  intros H; apply Hlaunch; unfold launch_event; rewrite H.
  apply orb_true_r.
Qed.

Lemma spawn_weightless e : spawn_event e = true -> w e = 0%nat.
Proof.
  intros H; apply Hlaunch; unfold launch_event; rewrite H; reflexivity.
Qed.

Lemma Costs_free {A} e (k : Prog A) b :
  launch_event e = true \/ cleanup_event e = true ->
  Costs w k b -> Costs w (Emit e k) b.
Proof.
  intros [H|H] Hk; apply Costs_Emit with (b := b); auto;
    [rewrite (Hlaunch _ H) | rewrite (Hcleanup _ H)]; lia.
Qed.

Ltac free := apply Costs_free; [auto; fail | ].

Lemma Costs_open_urls_in_tabs profile_idx urls :
  Costs w (open_urls_in_tabs cfg os profile_idx urls)
        (c * (List.length urls + max_attempts)).
Proof.
  unfold open_urls_in_tabs.
  destruct (null urls); psimpl; [free; constructor|].
  free.
  eapply Costs_bind with (b := (c * max_attempts)%nat);
    [apply Costs_spawn_loop with (c := c); [exact spawn_weightless | exact Hstart_delay]
    | | lia].
  intros started; psimpl; free.
  apply Costs_locate_and_layout; [exact locate_weightless | exact Hretry_delay].
Qed.

Lemma Costs_open_groups configs : forall idx,
  Costs w (open_groups cfg os idx configs) (c * launch_sleeps configs).
Proof.
  induction configs as [|g rest IH]; intros idx; simpl.
  - constructor.
  - free.
    eapply Costs_bind; [apply Costs_open_urls_in_tabs | | ].
    + intros _; psimpl.
      apply Costs_Sleep with (b := (c * launch_sleeps rest)%nat);
        [apply IH | apply Nat.le_refl].
    + unfold launch_sleeps; simpl; fold (launch_sleeps rest).
      assert (H := Hstart_delay). nia.
Qed.

Lemma Costs_start_all_browsers :
  Costs w (start_all_browsers cfg os)
        (w (LogStartAll (List.length (browser_configs cfg)))
         + c * launch_sleeps (browser_configs cfg)).
Proof.
  unfold start_all_browsers; psimpl.
  eapply Costs_Emit; [|apply Nat.le_refl].
  constructor; intros t; repeat constructor.
  apply Costs_open_groups.
Qed.

Lemma Costs_cleanup_loop procs : Costs w (cleanup_loop cfg os procs) 0.
Proof.
  induction procs as [|proc rest IH]; simpl.
  - constructor.
  - destruct (to_terminate cfg os proc); simpl; [|exact IH].
    free; constructor; intros t.
    destruct (os_terminate_ok os t (pi_pid proc)); simpl;
      [free; exact IH | exact IH].
Qed.

Lemma Costs_cleanup_chrome_processes :
  Costs w (cleanup_chrome_processes cfg os) 0.
Proof.
  unfold cleanup_chrome_processes.
  destruct (negb _); psimpl.
  - free; constructor.
  - constructor; intros t; apply Costs_cleanup_loop.
Qed.

Lemma Costs_stop_all_browsers :
  Costs w (stop_all_browsers cfg os) (w LogStopping).
Proof.
  unfold stop_all_browsers; psimpl.
  apply Costs_Emit with (b := 0%nat); [|lia].
  eapply Costs_bind with (b := 0%nat); [apply Costs_cleanup_chrome_processes | | lia].
  intros _; psimpl; repeat constructor.
Qed.

Lemma Costs_force_restart reason :
  Costs w (force_restart cfg os reason)
        (w (LogForceRestart reason) + w LogStopping + w (EvSleep STOP_DELAY)
         + w (LogStartAll (List.length (browser_configs cfg)))
         + c * launch_sleeps (browser_configs cfg)).
Proof.
  unfold force_restart; psimpl.
  apply Costs_Emit
    with (b := (w LogStopping + w (EvSleep STOP_DELAY)
                + w (LogStartAll (List.length (browser_configs cfg)))
                + c * launch_sleeps (browser_configs cfg))%nat); [|lia].
  eapply Costs_bind
    with (b := (w (EvSleep STOP_DELAY)
                + (w (LogStartAll (List.length (browser_configs cfg)))
                   + c * launch_sleeps (browser_configs cfg)))%nat);
    [apply Costs_stop_all_browsers | | lia].
  intros _; psimpl.
  eapply Costs_Sleep; [apply Costs_start_all_browsers | lia].
Qed.

Lemma Costs_check_browser_processes :
  Costs w (check_browser_processes cfg os) 0.
Proof.
  unfold check_browser_processes.
  destruct (negb (Str.truthy _)); psimpl; [repeat constructor|].
  constructor; intros t.
  destruct (negb (existsb _ _)); psimpl; [repeat constructor|].
  constructor; intros s; destruct (null _); repeat constructor.
Qed.

Lemma Costs_health_check :
  Costs w (health_check cfg os)
        (w LogAllExited + w LogStopping + w (EvSleep RECOVERY_DELAY)
         + w (LogStartAll (List.length (browser_configs cfg)))
         + c * launch_sleeps (browser_configs cfg)).
Proof.
  unfold health_check.
  eapply Costs_bind with (a := 0%nat);
    [apply Costs_check_browser_processes | | apply Nat.le_refl].
  intros _; psimpl; constructor; intros s.
  destruct (_ && _); psimpl; [|constructor].
  apply Costs_Emit
    with (b := (w LogStopping + w (EvSleep RECOVERY_DELAY)
                + w (LogStartAll (List.length (browser_configs cfg)))
                + c * launch_sleeps (browser_configs cfg))%nat); [|lia].
  eapply Costs_bind
    with (b := (w (EvSleep RECOVERY_DELAY)
                + (w (LogStartAll (List.length (browser_configs cfg)))
                   + c * launch_sleeps (browser_configs cfg)))%nat);
    [apply Costs_stop_all_browsers | | lia].
  intros _; psimpl.
  eapply Costs_Sleep; [apply Costs_start_all_browsers | lia].
Qed.

End Footprint.

(** * Resource monitor *)

Lemma Qgtb_lt (a b : Q) : Qgtb a b = true <-> (b < a)%Q.
Proof.
  unfold Qgtb; rewrite negb_true_iff; split; intros H.
  - apply Qnot_le_lt; intros Hle.
    apply Qle_bool_iff in Hle; congruence.
  - destruct (Qle_bool a b) eqn:E; [|reflexivity].
    apply Qle_bool_iff in E; exfalso; revert E; apply Qlt_not_le; exact H.
Qed.

Section ResourceMonitor.

Variable cfg : Config.
Variable os : OS.

(** The stop, settle and start steps log no forced-restart line of
    their own. *)
Ltac no_force := try (intros [] E; (discriminate E || reflexivity)); try apply Nat.le_refl.

(** The stop, settle and start steps log no forced-restart line of
    their own. *)
Lemma force_restart_reasons reason t s :
  restart_reasons (out (run_seq (force_restart cfg os reason) t s)) = [reason].
Proof.
  unfold force_restart; prog_simpl; cbn [restart_reasons].
  f_equal; apply restart_reasons_none, Nat.le_0_r, Costs_run_seq.
  eapply Costs_bind with (a := 0%nat) (b := 0%nat); [| |lia].
  - apply Costs_stop_all_browsers with (c := 0%nat); no_force.
  - intros _; cbn [bind sleep].
    apply Costs_Sleep with (b := 0%nat); [|reflexivity].
    eapply Costs_mono;
      [apply Costs_start_all_browsers with (c := 0%nat); no_force
      | simpl; lia].
Qed.

Lemma health_check_reasons t s :
  restart_reasons (out (run_seq (health_check cfg os) t s)) = [].
Proof.
  apply restart_reasons_none, Nat.le_0_r, Costs_run_seq.
  eapply Costs_mono;
    [apply Costs_health_check with (c := 0%nat); no_force
    | simpl; lia].
Qed.

Lemma check_thresholds_reasons cpu mem t s :
  restart_reasons (out (run_seq (check_thresholds cfg os cpu mem) t s)) =
  (if negb (in_startup_protection t s) && Qgtb cpu (max_cpu_percent cfg)
   then [CpuTooHigh] else [])
  ++ (if Qgtb mem (max_memory_percent cfg) then [MemoryTooHigh] else []).
Proof.
  unfold check_thresholds, in_startup_protection.
  assert (Hmem :
    restart_reasons
      (out (run_seq (if Qgtb mem (max_memory_percent cfg)
                     then emit (LogMemoryHigh mem);;
                          force_restart cfg os MemoryTooHigh
                     else Ret tt) t s)) =
    if Qgtb mem (max_memory_percent cfg) then [MemoryTooHigh] else []).
  { destruct (Qgtb mem _);
      prog_simpl; cbn [restart_reasons]; [|reflexivity].
    apply force_restart_reasons. }
  assert (Hboth : forall b : bool,
    restart_reasons
      (out (run_seq
              ((if negb b && Qgtb cpu (max_cpu_percent cfg)
                then emit (LogCpuHigh cpu);; force_restart cfg os CpuTooHigh
                else Ret tt);;
               (if Qgtb mem (max_memory_percent cfg)
                then emit (LogMemoryHigh mem);;
                     force_restart cfg os MemoryTooHigh
                else Ret tt)) t s)) =
    (if negb b && Qgtb cpu (max_cpu_percent cfg) then [CpuTooHigh] else [])
    ++ (if Qgtb mem (max_memory_percent cfg) then [MemoryTooHigh] else [])).
  { intros b. destruct (negb b && Qgtb cpu _).
    - prog_simpl; cbn [restart_reasons].
      rewrite out_bind, restart_reasons_app, force_restart_reasons.
      f_equal.
      destruct (Qgtb mem _);
        prog_simpl; cbn [restart_reasons]; [|reflexivity].
      apply force_restart_reasons.
    - cbn [bind]. exact Hmem. }
  prog_simpl; cbn [restart_reasons].
  destruct (last_start_time s) as [started|];
    [destruct (t - started <? STARTUP_PROTECTION_PERIOD)|];
    prog_simpl; cbn [restart_reasons].
  - exact (Hboth true).
  - exact (Hboth false).
  - exact (Hboth false).
Qed.

Lemma monitor_tick_reasons t s :
  restart_reasons (out (run_seq (monitor_tick cfg os) t s)) =
  restart_reasons
    (out (run_seq (check_thresholds cfg os
                     (os_cpu_percent os (t + CPU_SAMPLE_WINDOW))
                     (os_memory_percent os (t + CPU_SAMPLE_WINDOW)))
                  (t + CPU_SAMPLE_WINDOW) s)).
Proof.
  unfold monitor_tick.
  prog_simpl; cbn [restart_reasons].
  rewrite out_bind, restart_reasons_app, out_bind, restart_reasons_app.
  rewrite health_check_reasons.
  destruct (sleep_accepts os (monitor_interval cfg));
    prog_simpl; cbn [restart_reasons app];
    rewrite app_nil_r; reflexivity.
Qed.

End ResourceMonitor.



(** * Launch controller, window locator and layout *)

Lemma events_app (tr tr' : Trace) : events (tr ++ tr') = events tr ++ events tr'.
Proof. apply map_app. Qed.

Lemma events_at_time t es : events (at_time t es) = es.
Proof.
  unfold events, at_time; rewrite map_map; simpl; apply map_id.
Qed.

Lemma count_at_time q t es :
  (forall e, In e es -> q e = false) -> count q (at_time t es) = 0%nat.
Proof.
  induction es as [|e es IH]; intros H; [reflexivity|].
  unfold count, indicator, at_time in *; simpl; rewrite cost_cons; simpl.
  rewrite (H e (or_introl eq_refl)); simpl.
  apply IH; intros e' He'; apply H; right; exact He'.
Qed.

Section Launch.

Variable cfg : Config.
Variable os : OS.

Lemma log_dump_run entries t s :
  run_seq (log_dump entries) t s = mkRes tt t s (at_time t (map dump_entry entries)).
Proof.
  induction entries as [|[[[hwnd cl] pid] title] rest IH]; simpl.
  - reflexivity.
  - rewrite IH; reflexivity.
Qed.

Lemma dump_browser_windows_run t s :
  run_seq (dump_browser_windows os) t s = mkRes tt t s (at_time t (dump_events os t)).
Proof.
  unfold dump_browser_windows; prog_simpl.
  rewrite log_dump_run; reflexivity.
Qed.

(** With no browser path every URL is refused before its spawn, and the
    loop goes on to the next URL. *)
Lemma spawn_loop_no_path urls :
  Str.truthy (browser_path cfg) = false ->
  forall window_idx started t s,
    run_seq (spawn_loop cfg os window_idx urls started) t s =
    mkRes started t s (at_time t (map LogPathMissing urls)).
Proof.
  intros Hp; induction urls as [|url rest IH]; intros i started t s; simpl.
  - reflexivity.
  - unfold create_browser_args; rewrite Hp; simpl.
    rewrite IH; reflexivity.
Qed.

(** With nothing spawned the locator is satisfied by its first
    enumeration, the layout has nothing to place, and the state and the
    clock are left as they were. *)
Lemma locate_and_layout_nothing_started profile_idx t s :
  rt (run_seq (locate_and_layout cfg os profile_idx []) t s) = s
  /\ clock (run_seq (locate_and_layout cfg os profile_idx []) t s) = t.
Proof.
  unfold locate_and_layout.
  destruct (os_win32gui os); [|split; reflexivity].
  unfold max_attempts; simpl.
  rewrite log_dump_run; split; reflexivity.
Qed.

Lemma locate_and_layout_no_popen profile_idx started t s :
  count is_popen (out (run_seq (locate_and_layout cfg os profile_idx started) t s))
  = 0%nat.
Proof.
  apply Nat.le_0_r.
  eapply Nat.le_trans; [|apply (Nat.eq_le_incl _ _ (Nat.mul_0_l max_attempts))].
  apply Costs_run_seq, Costs_locate_and_layout.
  - intros [] E; (discriminate E || reflexivity).
  - apply Nat.le_refl.
Qed.

Lemma open_urls_in_tabs_out profile_idx urls t s :
  urls <> [] ->
  let sp := run_seq (spawn_loop cfg os 0 urls []) t s in
  let r := run_seq (locate_and_layout cfg os profile_idx (val sp))
                   (clock sp) (rt sp) in
  run_seq (open_urls_in_tabs cfg os profile_idx urls) t s =
  mkRes tt (clock r) (rt r)
        ((t, LogOpening profile_idx (List.length urls))
           :: out sp ++ (clock sp, LogAllLaunched) :: out r).
Proof.
  intros Hne sp r; subst sp r.
  unfold open_urls_in_tabs.
  destruct urls as [|u us]; [contradiction|].
  cbn [null]; prog_simpl.
  rewrite run_seq_bind; prog_simpl.
  destruct (run_seq (locate_and_layout _ _ _ _) _ _) as [[] c' s' o'].
  reflexivity.
Qed.

End Launch.

(** Without a browser path the launch of a group spawns nothing:
    argument construction raises for every URL in turn, and the operation
    goes on to the window-location step with nothing to locate. *)
Lemma open_urls_in_tabs_no_path
        (cfg : Config) (os : OS) (profile_idx : nat) (urls : list string)
        (t : Z) (s : Runtime) :
  Str.truthy (browser_path cfg) = false ->
  urls <> [] ->
  let r := run_seq (open_urls_in_tabs cfg os profile_idx urls) t s in
  count is_popen (out r) = 0%nat
  /\ events (out r) =
     LogOpening profile_idx (List.length urls)
       :: map LogPathMissing urls
       ++ LogAllLaunched
       :: events (out (run_seq (locate_and_layout cfg os profile_idx []) t s))
  /\ rt r = s
  /\ clock r = t.
Proof.
  intros Hp Hne r; subst r.
  rewrite (open_urls_in_tabs_out cfg os profile_idx urls t s Hne).
  rewrite (spawn_loop_no_path cfg os urls Hp); cbn [val clock rt out].
  destruct (locate_and_layout_nothing_started cfg os profile_idx t s) as [Hs Hc].
  repeat split; try assumption.
  - unfold count; rewrite cost_cons, cost_app, cost_cons; cbn [snd is_popen indicator].
    fold (count is_popen (at_time t (map LogPathMissing urls))).
    rewrite count_at_time.
    + apply (locate_and_layout_no_popen cfg os profile_idx [] t s).
    + intros e He; apply in_map_iff in He; destruct He as [u [<- _]].
      reflexivity.
  - unfold events at 1; cbn [map snd]; f_equal.
    fold (events (at_time t (map LogPathMissing urls)
                  ++ (t, LogAllLaunched)
                  :: out (run_seq (locate_and_layout cfg os profile_idx []) t s))).
    rewrite events_app, events_at_time; reflexivity.
Qed.

(** ** The locator's retry loop *)

Lemma count_cons q te (tr : Trace) :
  count q (te :: tr) = ((if q (snd te) then 1 else 0) + count q tr)%nat.
Proof. reflexivity. Qed.

Lemma count_app q (tr tr' : Trace) :
  count q (tr ++ tr') = (count q tr + count q tr')%nat.
Proof. apply cost_app. Qed.

Lemma count_filter q (tr : Trace) :
  count q tr = List.length (filter q (events tr)).
Proof.
  induction tr as [|[t e] tr IH]; [reflexivity|].
  rewrite count_cons; unfold events in *; simpl.
  destruct (q e); simpl; rewrite IH; reflexivity.
Qed.

Lemma calls_app (tr tr' : Trace) : calls (tr ++ tr') = calls tr ++ calls tr'.
Proof. unfold calls; rewrite events_app, filter_app; reflexivity. Qed.

Lemma calls_at_time t es :
  (forall e, In e es -> is_set_window_pos e = false) -> calls (at_time t es) = [].
Proof.
  intros H; unfold calls; rewrite events_at_time.
  induction es as [|e es IH]; [reflexivity|]; simpl.
  rewrite (H e (or_introl eq_refl)).
  apply IH; intros e' He'; apply H; right; exact He'.
Qed.

Lemma dump_events_no_calls os t e :
  In e (dump_events os t) -> is_set_window_pos e = false.
Proof.
  intros [<-|H]; [reflexivity|].
  apply in_map_iff in H; destruct H as [[[[h c] p] ti] [<- _]]; reflexivity.
Qed.

Lemma found_at_shift os t k :
  found_at os (t + RETRY_DELAY) k = found_at os t (S k).
Proof.
  unfold found_at; do 2 f_equal; rewrite Nat2Z.inj_succ; lia.
Qed.

Lemma found_at_zero os t :
  find_our_browser_windows (os_EnumWindows os t) = found_at os t 0.
Proof.
  unfold found_at; do 2 f_equal; simpl; lia.
Qed.

Section Locator.

Variable os : OS.
Variable required : nat.

(** The attempt number [k] is the first to see enough windows. *)
Lemma locate_loop_hit k : forall remaining attempt found0 t s,
  (k < remaining)%nat ->
  (forall j, (j < k)%nat -> (List.length (found_at os t j) < required)%nat) ->
  (required <= List.length (found_at os t k))%nat ->
  let r := run_seq (locate_loop os remaining attempt required found0) t s in
  val r = found_at os t k
  /\ clock r = t + Z.of_nat k * RETRY_DELAY
  /\ rt r = s
  /\ count is_enum_windows (out r) = S k
  /\ count is_sleep (out r) = k
  /\ calls (out r) = [].
Proof.
  induction k as [|k IH]; intros remaining attempt found0 t s Hk Hshort Hhit;
    (destruct remaining as [|n]; [lia|]); simpl.
  - rewrite found_at_zero.
    apply Nat.leb_le in Hhit; rewrite Hhit; simpl.
    repeat split; lia.
  - rewrite found_at_zero.
    assert (H0 : (required <=? List.length (found_at os t 0))%nat = false).
    { apply Nat.leb_gt, Hshort; lia. }
    rewrite H0; simpl.
    destruct (IH n (S attempt) (found_at os t 0) (t + RETRY_DELAY) s)
      as [Hv [Hc [Hs [He [Hsl Hca]]]]].
    + lia.
    + intros j Hj; rewrite found_at_shift; apply Hshort; lia.
    + rewrite found_at_shift; exact Hhit.
    + rewrite found_at_shift in Hv.
      repeat split; try assumption.
      * rewrite Hc; unfold RETRY_DELAY, seconds; lia.
      * rewrite !count_cons; simpl; rewrite He; reflexivity.
      * rewrite !count_cons; simpl; rewrite Hsl; reflexivity.
Qed.

(** No attempt sees enough windows. *)
Lemma locate_loop_miss remaining : forall attempt found0 t s,
  (forall j, (j < remaining)%nat ->
             (List.length (found_at os t j) < required)%nat) ->
  let r := run_seq (locate_loop os remaining attempt required found0) t s in
  val r = match remaining with
          | O => found0
          | S n => found_at os t n
          end
  /\ clock r = t + Z.of_nat remaining * RETRY_DELAY
  /\ rt r = s
  /\ count is_enum_windows (out r) = remaining
  /\ calls (out r) = [].
Proof.
  induction remaining as [|n IH]; intros attempt found0 t s Hshort; simpl.
  - repeat split; lia.
  - rewrite found_at_zero.
    assert (H0 : (required <=? List.length (found_at os t 0))%nat = false).
    { apply Nat.leb_gt, Hshort; lia. }
    rewrite H0; simpl.
    destruct (IH (S attempt) (found_at os t 0) (t + RETRY_DELAY) s)
      as [Hv [Hc [Hs [He Hca]]]].
    { intros j Hj; rewrite found_at_shift; apply Hshort; lia. }
    repeat split; try assumption.
    + rewrite Hv; destruct n; [reflexivity | apply found_at_shift].
    + rewrite Hc; unfold RETRY_DELAY, seconds; lia.
    + rewrite !count_cons; simpl; rewrite He; reflexivity.
Qed.

Lemma locate_loop_bounded remaining : forall attempt found0 t s,
  let r := run_seq (locate_loop os remaining attempt required found0) t s in
  (count is_enum_windows (out r) <= remaining)%nat
  /\ rt r = s /\ calls (out r) = [].
Proof.
  induction remaining as [|n IH]; intros attempt found0 t s; simpl.
  - repeat split; unfold count, indicator, cost; simpl; lia.
  - destruct (required <=? _)%nat; simpl.
    + repeat split; unfold count, indicator, cost; simpl; lia.
    + destruct (IH (S attempt)
                   (find_our_browser_windows (os_EnumWindows os t))
                   (t + RETRY_DELAY) s) as [He [Hs Hca]].
      repeat split; try assumption.
      rewrite !count_cons; simpl; lia.
Qed.

End Locator.

Lemma find_our_browser_windows_spec ws hwnd class_name pid :
  In (hwnd, class_name, pid) (find_our_browser_windows ws) <->
  exists w, In w ws /\ w_visible w = true /\ w_enabled w = true
            /\ is_browser_class (w_class w) = true
            /\ (w_hwnd w, w_class w, w_pid w) = (hwnd, class_name, pid).
Proof.
  unfold find_our_browser_windows; rewrite in_map_iff; split.
  - intros [w [Heq Hin]]; apply filter_In in Hin; destruct Hin as [Hin Hf].
    apply andb_true_iff in Hf; destruct Hf as [Hf Hc].
    apply andb_true_iff in Hf; destruct Hf as [Hv He].
    exists w; auto.
  - intros [w [Hin [Hv [He [Hc Heq]]]]]; exists w; split; [exact Heq|].
    apply filter_In; split; [exact Hin|].
    rewrite Hv, He, Hc; reflexivity.
Qed.

(** ** The cascade *)

Section Layout.

Variable cfg : Config.
Variable os : OS.
Variable profile_idx : nat.
Variable found_windows : list Found.
Variable started_processes : list Started.
Variable t : Z.

Lemma layout_loop_run count : forall idx s,
  (idx + count <= List.length found_windows)%nat ->
  (idx + count <= List.length started_processes)%nat ->
  let r := run_seq (layout_loop cfg os profile_idx found_windows
                                started_processes idx count) t s in
  let ok := os_SetWindowPos_ok os t in
  let hwnds := map (hwnd_at found_windows) (seq idx count) in
  clock r = t
  /\ calls (out r) =
     firstn (calls_made ok hwnds) (map (cascade_call cfg found_windows) (seq idx count))
  /\ val r = forallb ok hwnds.
Proof.
  induction count as [|n IH]; intros idx s Hf Hs; simpl.
  - repeat split.
  - destruct (nth_error found_windows idx) as [[[hwnd cl] pid]|] eqn:Ef;
      [|apply nth_error_None in Ef; lia].
    destruct (nth_error started_processes idx) as [[[wi p] url]|] eqn:Es;
      [|apply nth_error_None in Es; lia].
    assert (Hh : hwnd_at found_windows idx = hwnd).
    { unfold hwnd_at; rewrite (nth_error_nth _ _ _ Ef); reflexivity. }
    rewrite Hh; simpl.
    destruct (os_SetWindowPos_ok os t hwnd) eqn:Eok; simpl.
    + destruct (IH (S idx)
                   (set_profiles
                      (browser_profiles s
                         ++ [mkProfile pid hwnd idx profile_idx url t]) s))
        as [Hc [Hca Hv]]; try lia.
      repeat split; try assumption.
      unfold calls in *; simpl; rewrite Hca.
      unfold cascade_call at 2; rewrite Hh; reflexivity.
    + repeat split.
      unfold calls; simpl. unfold cascade_call; rewrite Hh; reflexivity.
Qed.

End Layout.

Lemma calls_made_all ok hwnds :
  forallb ok hwnds = true -> calls_made ok hwnds = List.length hwnds.
Proof.
  induction hwnds as [|h l IH]; [reflexivity|]; simpl; intros H.
  apply andb_true_iff in H; destruct H as [H1 H2].
  rewrite H1, (IH H2); reflexivity.
Qed.

(** The flags of the cascade keep size, Z order and activation, and put
    the corner where the call says. *)
Lemma cascade_call_effect cfg found_windows idx g :
  let g' := call_effect (cascade_call cfg found_windows idx) g in
  geo_x g' = Z.of_nat idx * window_offset_x cfg
  /\ geo_y g' = Z.of_nat idx * window_offset_y cfg
  /\ geo_width g' = geo_width g
  /\ geo_height g' = geo_height g
  /\ geo_insert_after g' = geo_insert_after g
  /\ geo_active g' = geo_active g.
Proof.
  repeat split.
Qed.

(** ** The two outcomes of [locate_and_layout] *)

Section Outcomes.

Variable cfg : Config.
Variable os : OS.
Variable profile_idx : nat.
Variable started_processes : list Started.
Variable t : Z.
Variable s : Runtime.

Hypothesis Hwin32 : os_win32gui os = true.

(** Too few windows: no layout, the warning, the dump. *)
Lemma locate_and_layout_short :
  let required := List.length started_processes in
  let loc := run_seq (locate_loop os max_attempts 0 required []) t s in
  let pids := map (fun sp : Started => snd (fst sp)) started_processes in
  (List.length (val loc) < required)%nat ->
  run_seq (locate_and_layout cfg os profile_idx started_processes) t s =
  mkRes tt (clock loc) (rt loc)
        ((t, LogOurPids pids)
           :: out loc
           ++ at_time (clock loc)
                (LogNotEnough (List.length (val loc)) required
                   :: LogDumpHeader :: dump_events os (clock loc))).
Proof.
  intros required loc pids Hshort.
  unfold locate_and_layout; rewrite Hwin32; prog_simpl.
  rewrite run_seq_bind; fold required; fold loc; cbn zeta.
  apply Nat.leb_gt in Hshort; rewrite Hshort; prog_simpl.
  rewrite dump_browser_windows_run; reflexivity.
Qed.

(** Enough windows: the layout, then the dump unless a call raised. *)
Lemma locate_and_layout_enough :
  let required := List.length started_processes in
  let loc := run_seq (locate_loop os max_attempts 0 required []) t s in
  let pids := map (fun sp : Started => snd (fst sp)) started_processes in
  (required <= List.length (val loc))%nat ->
  let lay := run_seq (layout_loop cfg os profile_idx (val loc)
                                  started_processes 0 required)
                     (clock loc) (rt loc) in
  run_seq (locate_and_layout cfg os profile_idx started_processes) t s =
  mkRes tt (clock lay) (rt lay)
        ((t, LogOurPids pids)
           :: out loc ++ out lay
           ++ (if val lay
               then at_time (clock lay) (dump_events os (clock lay))
               else [(clock lay, LogLayoutFailed)])).
Proof.
  intros required loc pids Henough lay.
  unfold locate_and_layout; rewrite Hwin32; prog_simpl.
  rewrite run_seq_bind; fold required; fold loc; cbn zeta.
  apply Nat.leb_le in Henough; rewrite Henough.
  rewrite run_seq_bind; fold lay; cbn zeta.
  destruct (val lay); prog_simpl.
  - rewrite dump_browser_windows_run; cbn [val clock rt out].
    rewrite app_assoc; reflexivity.
  - rewrite app_assoc; reflexivity.
Qed.

End Outcomes.

(** C6 (as amended).  Once at least [required] windows are located, the
    cascade places the window at index [i], for [i] below [required] and in
    order, by a call that sets its corner to
    [(i * window_offset_x, i * window_offset_y)], not clamped, and keeps
    its size, Z order and activation; located windows beyond the first
    [required] get no call; the first call that fails ends the loop, so
    the windows after it are not placed. *)
Theorem C6_cascade_layout
        (cfg : Config) (os : OS) (profile_idx : nat)
        (found_windows : list Found) (started_processes : list Started)
        (t : Z) (s : Runtime) :
  (List.length started_processes <= List.length found_windows)%nat ->
  let required := List.length started_processes in
  let r := run_seq (layout_loop cfg os profile_idx found_windows
                                started_processes 0 required) t s in
  let hwnds := map (hwnd_at found_windows) (seq 0 required) in
  let planned := map (cascade_call cfg found_windows) (seq 0 required) in
  calls (out r) = firstn (calls_made (os_SetWindowPos_ok os t) hwnds) planned
  /\ val r = forallb (os_SetWindowPos_ok os t) hwnds
  /\ (forallb (os_SetWindowPos_ok os t) hwnds = true -> calls (out r) = planned)
  /\ (forall idx g,
         let g' := call_effect (cascade_call cfg found_windows idx) g in
         geo_x g' = Z.of_nat idx * window_offset_x cfg
         /\ geo_y g' = Z.of_nat idx * window_offset_y cfg
         /\ geo_width g' = geo_width g
         /\ geo_height g' = geo_height g
         /\ geo_insert_after g' = geo_insert_after g
         /\ geo_active g' = geo_active g).
Proof.
  intros Hlen required r hwnds planned.
  destruct (layout_loop_run cfg os profile_idx found_windows started_processes
                            t required 0 s) as [_ [Hcalls Hval]];
    [simpl; exact Hlen | simpl; apply Nat.le_refl |].
  fold r in Hcalls, Hval; fold hwnds in Hcalls, Hval; fold planned in Hcalls.
  split; [exact Hcalls|]; split; [exact Hval|]; split.
  - intros Hall; rewrite Hcalls.
    rewrite (calls_made_all _ _ Hall).
    unfold hwnds, planned; rewrite length_map, <- (length_map (cascade_call cfg found_windows)).
    apply firstn_all.
  - intros idx g; apply cascade_call_effect.
Qed.

Lemma C6_cascade_layout_witness :
  calls (out (run_seq
                (layout_loop (Scenario.config 3600 (Some Scenario.chrome_path))
                             Scenario.calm_host 1
                             [(1, "Chrome_WidgetWin_1", 1001);
                              (2, "Chrome_WidgetWin_1", 1002);
                              (3, "Chrome_WidgetWin_1", 1003)]
                             [(0%nat, 2000, "https://a.example");
                              (1%nat, 2003, "https://b.example")]
                             0 2)
                0 initial_runtime))
  = [EvSetWindowPos 1 (-2) 0 0 0 0 85; EvSetWindowPos 2 (-2) 120 75 0 0 85].
Proof.
  refine (proj1 (C6_cascade_layout
                   (Scenario.config 3600 (Some Scenario.chrome_path))
                   Scenario.calm_host 1
                   [(1, "Chrome_WidgetWin_1", 1001);
                    (2, "Chrome_WidgetWin_1", 1002);
                    (3, "Chrome_WidgetWin_1", 1003)]
                   [(0%nat, 2000, "https://a.example");
                    (1%nat, 2003, "https://b.example")]
                   0 initial_runtime _)).
  simpl; lia.
Defined.

(** C6, the claim as stated, fails: three windows are launched and
    located, the call on the second one fails, and the third one is not
    placed; the failure is logged once for the layout as a whole. *)
Lemma C6_counterexample_failure_aborts_layout :
  let tr := out (run_seq
                   (open_urls_in_tabs
                      (Scenario.config 3600 (Some Scenario.chrome_path))
                      Scenario.stuck_host 1 (g_urls Scenario.default_group))
                   0 initial_runtime) in
  calls tr = [EvSetWindowPos 1 (-2) 0 0 0 0 85; EvSetWindowPos 2 (-2) 120 75 0 0 85]
  /\ In (LogAttempt 1 3 3) (events tr)
  /\ In LogLayoutFailed (events tr)
  /\ ~ (exists x y cx cy flags,
           In (EvSetWindowPos 3 HWND_NOTOPMOST x y cx cy flags) (events tr)).
Proof.
  vm_compute; repeat split.
  - auto 20.
  - auto 30.
  - intros [x [y [cx [cy [flags H]]]]].
    repeat (destruct H as [H|H]; [discriminate H|]); exact H.
Qed.

(** C7.  The locator collects exactly the visible, enabled top-level
    windows whose class contains [Chrome_WidgetWin] or [Edge_WidgetWin],
    whatever process owns them; it enumerates at most ten times, three
    seconds apart, and stops at the first attempt that sees at least
    [required] windows; when no attempt does, it returns what the tenth
    attempt saw, fewer than [required], and then the layout is skipped (no
    window is placed, no window is recorded) and the warning is followed by
    the dump of the visible browser windows. *)
Theorem C7_window_locator
        (cfg : Config) (os : OS) (profile_idx : nat)
        (started_processes : list Started) (t : Z) (s : Runtime) :
  let required := List.length started_processes in
  let loc := run_seq (locate_loop os max_attempts 0 required []) t s in
  (forall ws hwnd class_name pid,
      In (hwnd, class_name, pid) (find_our_browser_windows ws) <->
      exists w, In w ws /\ w_visible w = true /\ w_enabled w = true
                /\ is_browser_class (w_class w) = true
                /\ (w_hwnd w, w_class w, w_pid w) = (hwnd, class_name, pid))
  /\ (count is_enum_windows (out loc) <= max_attempts)%nat
  /\ (forall k,
         (k < max_attempts)%nat ->
         (forall j, (j < k)%nat -> (List.length (found_at os t j) < required)%nat) ->
         (required <= List.length (found_at os t k))%nat ->
         val loc = found_at os t k
         /\ count is_enum_windows (out loc) = S k
         /\ count is_sleep (out loc) = k
         /\ clock loc = t + Z.of_nat k * RETRY_DELAY)
  /\ ((forall j, (j < max_attempts)%nat ->
                 (List.length (found_at os t j) < required)%nat) ->
      val loc = found_at os t 9
      /\ (List.length (val loc) < required)%nat
      /\ count is_enum_windows (out loc) = max_attempts
      /\ (os_win32gui os = true ->
          let r := run_seq (locate_and_layout cfg os profile_idx started_processes)
                           t s in
          calls (out r) = []
          /\ browser_profiles (rt r) = browser_profiles s
          /\ exists before,
               events (out r) =
               before ++ LogNotEnough (List.length (val loc)) required
                      :: LogDumpHeader :: dump_events os (clock r))).
Proof.
  intros required loc.
  split; [apply find_our_browser_windows_spec|].
  split; [apply (locate_loop_bounded os required max_attempts 0 [] t s)|].
  split.
  - intros k Hk Hshort Hhit.
    destruct (locate_loop_hit os required k max_attempts 0 [] t s Hk Hshort Hhit)
      as [Hv [Hc [_ [He [Hs _]]]]].
    repeat split; assumption.
  - intros Hshort.
    destruct (locate_loop_miss os required max_attempts 0 [] t s Hshort)
      as [Hv [Hc [Hs [He Hca]]]].
    fold loc in Hv, Hc, Hs, He, Hca.
    change (match max_attempts with O => [] | S n => found_at os t n end)
      with (found_at os t 9) in Hv.
    assert (Hlt : (List.length (val loc) < required)%nat).
    { rewrite Hv; apply Hshort; unfold max_attempts; lia. }
    split; [exact Hv|]; split; [exact Hlt|]; split; [exact He|].
    intros Hwin r; subst r.
    rewrite (locate_and_layout_short cfg os profile_idx started_processes
                                     t s Hwin Hlt).
    fold required; fold loc; cbn [out rt clock].
    split; [|split].
    + change ((t, LogOurPids (map (fun sp : Started => snd (fst sp)) started_processes))
                :: out loc ++ at_time (clock loc)
                     (LogNotEnough (List.length (val loc)) required
                        :: LogDumpHeader :: dump_events os (clock loc)))
        with ([(t, LogOurPids (map (fun sp : Started => snd (fst sp)) started_processes))]
                ++ out loc ++ at_time (clock loc)
                     (LogNotEnough (List.length (val loc)) required
                        :: LogDumpHeader :: dump_events os (clock loc))).
      rewrite !calls_app, Hca, calls_at_time; [reflexivity|].
      intros e [<-|[<-|He']]; try reflexivity.
      eapply dump_events_no_calls; exact He'.
    + rewrite Hs; reflexivity.
    + exists (LogOurPids (map (fun sp : Started => snd (fst sp)) started_processes)
                :: events (out loc)).
      unfold events at 1; cbn [map snd]; f_equal.
      fold (events (out loc ++ at_time (clock loc)
                      (LogNotEnough (List.length (val loc)) required
                         :: LogDumpHeader :: dump_events os (clock loc)))).
      rewrite events_app, events_at_time; reflexivity.
Qed.

(** A host that shows no browser window at all. *)
Lemma C7_window_locator_witness :
  let os := mkOS 1 (fun _ _ => PopenFailed) true (fun _ => []) (fun _ _ => true)
                 (fun _ => []) (fun _ _ => true)
                 (Scenario.steady (10 # 1)) (Scenario.steady (50 # 1))
                 Scenario.sleep_max in
  let loc := run_seq (locate_loop os max_attempts 0 1 []) 0 initial_runtime in
  val loc = [] /\ count is_enum_windows (out loc) = max_attempts.
Proof.
  intros os loc.
  destruct (C7_window_locator (Scenario.config 3600 (Some Scenario.chrome_path))
                              os 1 [(0%nat, 2000, "https://a.example")]
                              0 initial_runtime)
    as [_ [_ [_ Hmiss]]].
  destruct Hmiss as [Hv [_ [He _]]].
  - intros j _; simpl; lia.
  - split; [exact Hv | exact He].
Defined.

(** C10.  On every launch-and-locate pass that spawns for a non-empty URL
    list with win32gui importable and no exception caught in the layout,
    the run ends with the diagnostic dump: one enumeration and one line for
    every visible browser window; this holds whether or not enough windows
    were located, and when enough were located every one of the [required]
    windows was placed before the dump. *)
Theorem C10_dump_runs_unconditionally
        (cfg : Config) (os : OS) (profile_idx : nat) (urls : list string)
        (t : Z) (s : Runtime) :
  urls <> [] ->
  os_win32gui os = true ->
  let r := run_seq (open_urls_in_tabs cfg os profile_idx urls) t s in
  let sp := run_seq (spawn_loop cfg os 0 urls []) t s in
  let required := List.length (val sp) in
  let loc := run_seq (locate_loop os max_attempts 0 required [])
                     (clock sp) (rt sp) in
  ~ In LogLayoutFailed (events (out r)) ->
  (exists before, events (out r) = before ++ dump_events os (clock r))
  /\ ((required <= List.length (val loc))%nat ->
      calls (out r) = map (cascade_call cfg (val loc)) (seq 0 required)).
Proof.
  intros Hne Hwin r sp required loc; subst r.
  rewrite (open_urls_in_tabs_out cfg os profile_idx urls t s Hne).
  fold sp; cbn [out clock].
  destruct (Nat.le_gt_cases required (List.length (val loc))) as [He|Hs].
  - (* enough windows: layout, then dump *)
    rewrite (locate_and_layout_enough cfg os profile_idx (val sp)
                                      (clock sp) (rt sp) Hwin He).
    fold required; fold loc.
    set (lay := run_seq (layout_loop cfg os profile_idx (val loc) (val sp)
                                     0 required) (clock loc) (rt loc)).
    destruct (layout_loop_run cfg os profile_idx (val loc) (val sp) (clock loc)
                              required 0 (rt loc))
      as [Hc [Hcalls Hval]]; [simpl; exact He | simpl; apply Nat.le_refl|].
    fold lay in Hc, Hcalls, Hval.
    destruct (val lay) eqn:Elay; cbn [out clock]; intros Hquiet.
    + symmetry in Hval.
      split.
      * exists (LogOpening profile_idx (List.length urls)
                  :: events (out sp)
                  ++ LogAllLaunched
                  :: LogOurPids (map (fun x : Started => snd (fst x)) (val sp))
                  :: events (out loc) ++ events (out lay)).
        unfold events at 1; cbn [map snd]; f_equal.
        fold (events (out sp ++ (clock sp, LogAllLaunched)
                        :: (clock sp, LogOurPids
                                        (map (fun x : Started => snd (fst x)) (val sp)))
                        :: out loc ++ out lay
                        ++ at_time (clock lay) (dump_events os (clock lay)))).
        rewrite events_app; unfold events at 2; cbn [map snd].
        fold (events (out loc ++ out lay
                        ++ at_time (clock lay) (dump_events os (clock lay)))).
        rewrite !events_app, events_at_time.
        repeat (rewrite <- app_comm_cons || rewrite <- app_assoc); reflexivity.
      * intros _.
        assert (Hsp : calls (out sp) = []).
        { unfold calls; rewrite <- (length_zero_iff_nil _), <- count_filter.
          apply Nat.le_0_r.
          eapply Nat.le_trans;
            [|apply (Nat.eq_le_incl _ _ (Nat.mul_0_l (List.length urls)))].
          apply Costs_run_seq, Costs_spawn_loop with (c := 0%nat);
            [intros [] E; (discriminate E || reflexivity) | apply Nat.le_refl]. }
        change ((t, LogOpening profile_idx (List.length urls))
                  :: out sp ++ (clock sp, LogAllLaunched)
                  :: (clock sp, LogOurPids
                                  (map (fun x : Started => snd (fst x)) (val sp)))
                  :: out loc ++ out lay
                  ++ at_time (clock lay) (dump_events os (clock lay)))
          with ([(t, LogOpening profile_idx (List.length urls))]
                  ++ out sp ++ [(clock sp, LogAllLaunched);
                                (clock sp, LogOurPids
                                   (map (fun x : Started => snd (fst x)) (val sp)))]
                  ++ out loc ++ out lay
                  ++ at_time (clock lay) (dump_events os (clock lay))).
        rewrite !calls_app, Hsp, Hcalls.
        destruct (locate_loop_bounded os required max_attempts 0 [] (clock sp) (rt sp))
          as [_ [_ Hloc]].
        fold loc in Hloc; rewrite Hloc.
        rewrite calls_at_time by (intros e; apply dump_events_no_calls).
        cbn [app calls events map filter snd is_set_window_pos].
        rewrite app_nil_r, (calls_made_all _ _ Hval), length_map.
        rewrite <- (length_map (cascade_call cfg (val loc))).
        apply firstn_all.
    + (* a call raised: the handler logged it *)
      exfalso; apply Hquiet.
      unfold events; rewrite in_map_iff.
      exists (clock lay, LogLayoutFailed); split; [reflexivity|].
      right; apply in_or_app; right; right; right.
      apply in_or_app; right; apply in_or_app; right; left; reflexivity.
  - (* too few windows: warning, then dump *)
    rewrite (locate_and_layout_short cfg os profile_idx (val sp)
                                     (clock sp) (rt sp) Hwin Hs).
    fold required; fold loc; cbn [out clock]; intros _.
    split; [|intros He; lia].
    exists (LogOpening profile_idx (List.length urls)
              :: events (out sp)
              ++ LogAllLaunched
              :: LogOurPids (map (fun x : Started => snd (fst x)) (val sp))
              :: events (out loc)
              ++ [LogNotEnough (List.length (val loc)) required; LogDumpHeader]).
    unfold events at 1; cbn [map snd]; f_equal.
    fold (events (out sp ++ (clock sp, LogAllLaunched)
                    :: (clock sp, LogOurPids
                                    (map (fun x : Started => snd (fst x)) (val sp)))
                    :: out loc
                    ++ at_time (clock loc)
                         (LogNotEnough (List.length (val loc)) required
                            :: LogDumpHeader :: dump_events os (clock loc)))).
    rewrite events_app; unfold events at 2; cbn [map snd].
    fold (events (out loc
                    ++ at_time (clock loc)
                         (LogNotEnough (List.length (val loc)) required
                            :: LogDumpHeader :: dump_events os (clock loc)))).
    rewrite events_app, events_at_time.
    repeat (rewrite <- app_comm_cons || rewrite <- app_assoc); reflexivity.
Qed.

Lemma C10_dump_runs_witness :
  let cfg := Scenario.config 3600 (Some Scenario.chrome_path) in
  let r := run_seq (open_urls_in_tabs cfg Scenario.calm_host 1
                                      (g_urls Scenario.default_group))
                   0 initial_runtime in
  exists before, events (out r) = before ++ dump_events Scenario.calm_host (clock r).
Proof.
  intros cfg r.
  refine (proj1 (C10_dump_runs_unconditionally
                   cfg Scenario.calm_host 1 (g_urls Scenario.default_group)
                   0 initial_runtime _ _ _)).
  - discriminate.
  - reflexivity.
  - vm_compute; intros H.
    repeat (destruct H as [H|H]; [discriminate H|]); exact H.
Defined.

(** * Process health monitor and termination step *)

Section Health.

Variable cfg : Config.
Variable os : OS.

Lemma cleanup_loop_run procs t s :
  rt (run_seq (cleanup_loop cfg os procs) t s) = s
  /\ clock (run_seq (cleanup_loop cfg os procs) t s) = t.
Proof.
  induction procs as [|proc rest IH]; simpl; [split; reflexivity|].
  destruct (to_terminate cfg os proc); simpl; [|exact IH].
  destruct (os_terminate_ok os t (pi_pid proc)); simpl; exact IH.
Qed.

Lemma cleanup_chrome_processes_run t s :
  rt (run_seq (cleanup_chrome_processes cfg os) t s) = s
  /\ clock (run_seq (cleanup_chrome_processes cfg os) t s) = t.
Proof.
  unfold cleanup_chrome_processes.
  destruct (negb _); prog_simpl; [split; reflexivity|].
  apply cleanup_loop_run.
Qed.

(** Stop-all empties both sets and takes no time. *)
Lemma stop_all_browsers_run t s :
  rt (run_seq (stop_all_browsers cfg os) t s)
  = set_processes [] (set_profiles [] s)
  /\ clock (run_seq (stop_all_browsers cfg os) t s) = t.
Proof.
  unfold stop_all_browsers; prog_simpl.
  rewrite run_seq_bind; prog_simpl.
  destruct (cleanup_chrome_processes_run t s) as [-> ->].
  split; reflexivity.
Qed.

(** What reconcile leaves, by whether a process of the family is seen. *)
Lemma check_browser_processes_run t s :
  run_seq (check_browser_processes cfg os) t s =
  mkRes tt t
        (if Str.truthy (browser_path cfg)
            && existsb (family_running cfg) (os_process_iter os t)
         then if null (browser_processes s)
              then set_processes (browser_processes s ++ [DummyProcess]) s
              else s
         else set_processes [] s)
        [].
Proof.
  unfold check_browser_processes.
  destruct (Str.truthy (browser_path cfg)); simpl; [|reflexivity].
  destruct (existsb _ _); simpl; [|reflexivity].
  destruct (null (browser_processes s)); reflexivity.
Qed.

(** With no browser path no process passes the family test. *)
Lemma family_running_no_path proc :
  Str.truthy (browser_path cfg) = false -> family_running cfg proc = false.
Proof.
  unfold family_running, Str.truthy.
  destruct (browser_path cfg) as [[|c p]|]; intros H;
    try discriminate H; reflexivity.
Qed.

End Health.

(** After reconcile with a browser path set, the active-process set is
    non-empty exactly when a listed process passes the family test of the
    code: it is emptied when none does, a placeholder is inserted when one
    does and the set was empty, and it is left alone otherwise; and while
    one does, the health check of the tick does nothing. *)
Lemma reconcile_follows_family_test
        (cfg : Config) (os : OS) (t : Z) (s : Runtime) :
  Str.truthy (browser_path cfg) = true ->
  let alive := existsb (family_running cfg) (os_process_iter os t) in
  let s' := rt (run_seq (check_browser_processes cfg os) t s) in
  (browser_processes s' <> [] <->
   exists proc, In proc (os_process_iter os t) /\ family_running cfg proc = true)
  /\ (alive = false -> browser_processes s' = [])
  /\ (alive = true -> browser_processes s = [] ->
      browser_processes s' = [DummyProcess])
  /\ (alive = true -> browser_processes s <> [] -> s' = s)
  /\ (alive = true -> out (run_seq (health_check cfg os) t s) = []).
Proof.
  intros Hp alive s'; subst s'.
  rewrite check_browser_processes_run, Hp; cbn [andb rt]. fold alive.
  split; [|split; [|split; [|split]]].
  - rewrite <- existsb_exists; fold alive.
    destruct alive; [|split; [intros H; contradiction | discriminate]].
    split; [reflexivity|intros _].
    destruct (browser_processes s) as [|p ps] eqn:E; simpl; [discriminate|].
    rewrite E; discriminate.
  - intros ->; reflexivity.
  - intros -> E; rewrite E; reflexivity.
  - intros -> Hne.
    destruct (browser_processes s); [contradiction | reflexivity].
  - intros Ha; unfold health_check.
    rewrite out_bind, check_browser_processes_run, Hp; cbn [andb]; fold alive.
    rewrite Ha; prog_simpl; cbn [app].
    destruct (browser_processes s) as [|p ps] eqn:E; simpl; [reflexivity|].
    rewrite E; reflexivity.
Qed.

(** C9.  The claim fails on a browser the family test does not know.
    A custom path to QQ Browser is accepted by the constructor; with that
    browser running, under the very path the manager was given, reconcile
    empties the active-process set, and the health check that follows logs
    that every browser has exited, terminates nothing and launches the
    whole fleet again, beside the windows that are still open. *)
Theorem C9_unknown_family_alive_yet_cleared :
  let cfg := Scenario.config 3600 (Some Fleet.qq_path) in
  let s' := rt (run_seq (check_browser_processes cfg Fleet.qq_host)
                        0 Scenario.one_window) in
  let checked := out (run_seq (health_check cfg Fleet.qq_host)
                              0 Scenario.one_window) in
  option_map (fun mg => browser_path (mg_config mg))
             (BrowserManager_init Fleet.qq_machine 3600 80 85 None 60 false
                                  (Some Fleet.qq_path) None 0)
  = Some (browser_path cfg)
  /\ In Fleet.qq_proc (os_process_iter Fleet.qq_host 0)
  /\ pi_exe Fleet.qq_proc = browser_path cfg
  /\ browser_processes Scenario.one_window = [Popen 2000]
  /\ browser_processes s' = []
  /\ hd_error checked = Some (0, LogAllExited)
  /\ count is_terminate checked = 0%nat
  /\ count is_popen checked = 3%nat.
Proof.
  vm_compute; repeat split; auto.
Qed.

(** C4 (as amended).  When reconcile finds no process of the family it
    empties the active-process set and leaves the active-window set as it
    was; with a non-empty group list the tick then logs the exit and runs
    stop-all, which empties both sets, sleeps five seconds (not the fifteen
    of a forced restart) and runs start-all, requesting no forced
    restart. *)
Theorem C4_total_exit_recovery
        (cfg : Config) (os : OS) (t : Z) (s : Runtime) :
  existsb (family_running cfg) (os_process_iter os t) = false ->
  let s1 := rt (run_seq (check_browser_processes cfg os) t s) in
  browser_processes s1 = []
  /\ browser_profiles s1 = browser_profiles s
  /\ (browser_configs cfg <> [] ->
      let stopped := run_seq (stop_all_browsers cfg os) t s1 in
      let tr := out (run_seq (health_check cfg os) t s) in
      browser_processes (rt stopped) = []
      /\ browser_profiles (rt stopped) = []
      /\ tr = (t, LogAllExited)
                :: out stopped
                ++ (t, EvSleep RECOVERY_DELAY)
                :: out (run_seq (start_all_browsers cfg os)
                                (t + RECOVERY_DELAY) (rt stopped))
      /\ RECOVERY_DELAY = seconds 5
      /\ STOP_DELAY = seconds 15
      /\ restart_reasons tr = []).
Proof.
  intros Hdead s1; subst s1.
  rewrite check_browser_processes_run, Hdead, andb_false_r; cbn [rt].
  split; [reflexivity|]; split; [reflexivity|].
  intros Hcfg.
  destruct (stop_all_browsers_run cfg os t (set_processes [] s)) as [Hs Hc].
  set (stopped := run_seq (stop_all_browsers cfg os) t (set_processes [] s)) in *.
  split; [rewrite Hs; reflexivity|]; split; [rewrite Hs; reflexivity|].
  split; [|split; [reflexivity|split; [reflexivity|]]].
  - unfold health_check.
    rewrite out_bind, check_browser_processes_run, Hdead, andb_false_r.
    prog_simpl; cbn [app browser_processes set_processes null andb].
    destruct (browser_configs cfg); [contradiction|].
    cbn [null negb]; prog_simpl.
    rewrite out_bind; fold stopped; prog_simpl.
    rewrite Hc; reflexivity.
  - apply health_check_reasons.
Qed.

Lemma C4_total_exit_recovery_witness :
  browser_profiles
    (rt (run_seq (stop_all_browsers
                    (Scenario.config 3600 (Some Scenario.chrome_path))
                    Scenario.dead_host)
                 0
                 (rt (run_seq (check_browser_processes
                                 (Scenario.config 3600 (Some Scenario.chrome_path))
                                 Scenario.dead_host)
                              0 Scenario.one_window)))) = [].
Proof.
  refine (proj1 (proj2 (proj2 (proj2 (C4_total_exit_recovery
                                        (Scenario.config 3600 (Some Scenario.chrome_path))
                                        Scenario.dead_host 0 Scenario.one_window _))
                              _))).
  - reflexivity.
  - discriminate.
Defined.

(** C4, the claim as stated, fails: reconcile on a generation with one
    recorded window and no live browser process empties the process set
    and keeps the window record. *)
Lemma C4_counterexample_reconcile_keeps_windows :
  let s' := rt (run_seq (check_browser_processes
                           (Scenario.config 3600 (Some Scenario.chrome_path))
                           Scenario.dead_host)
                        0 Scenario.one_window) in
  browser_processes s' = []
  /\ browser_profiles s' = [mkProfile 1001 1 0 1 "https://www.4399.com" 0]
  /\ browser_profiles s' <> [].
Proof.
  vm_compute; repeat split; discriminate.
Qed.

Section Cleanup.

Variable cfg : Config.
Variable os : OS.

Lemma cleanup_loop_terminates procs t s pid :
  In (EvTerminate pid) (events (out (run_seq (cleanup_loop cfg os procs) t s)))
  <-> exists proc, In proc procs /\ pi_pid proc = pid
                   /\ to_terminate cfg os proc = true.
Proof.
  induction procs as [|proc rest IH]; cbn [cleanup_loop].
  - simpl; split; [intros [] | intros [p [[] _]]].
  - assert (Hrest :
      (pi_pid proc = pid /\ to_terminate cfg os proc = true)
      \/ In (EvTerminate pid)
            (events (out (run_seq (cleanup_loop cfg os rest) t s)))
      <-> exists p, In p (proc :: rest) /\ pi_pid p = pid
                    /\ to_terminate cfg os p = true).
    { rewrite IH; split.
      - intros [[Hp Ht]|[p [Hp [Hq Ht]]]].
        + exists proc; simpl; auto.
        + exists p; simpl; auto.
      - intros [p [[<-|Hp] [Hq Ht]]].
        + left; auto.
        + right; exists p; auto. }
    rewrite <- Hrest; clear Hrest.
    destruct (to_terminate cfg os proc) eqn:E; prog_simpl.
    + destruct (os_terminate_ok os t (pi_pid proc)); prog_simpl;
        unfold events; cbn [map snd In];
        fold (events (out (run_seq (cleanup_loop cfg os rest) t s)));
        split; intros H.
      * destruct H as [H|[H|H]]; [injection H as ->; auto | discriminate H | auto].
      * destruct H as [[-> _]|H]; auto.
      * destruct H as [H|H]; [injection H as ->; auto | auto].
      * destruct H as [[-> _]|H]; auto.
    + split; [auto | intros [[_ H]|H]; [discriminate H | exact H]].
Qed.

Lemma stop_all_browsers_terminates t s pid :
  In (EvTerminate pid) (events (out (run_seq (stop_all_browsers cfg os) t s)))
  <-> Str.truthy (browser_path cfg) = true
      /\ exists proc, In proc (os_process_iter os t) /\ pi_pid proc = pid
                      /\ to_terminate cfg os proc = true.
Proof.
  unfold stop_all_browsers; prog_simpl.
  rewrite out_bind; prog_simpl; rewrite app_nil_r.
  unfold cleanup_chrome_processes.
  destruct (Str.truthy (browser_path cfg)); cbn [negb]; prog_simpl.
  - unfold events at 1; cbn [map snd In].
    fold (events (out (run_seq (cleanup_loop cfg os (os_process_iter os t)) t s))).
    rewrite cleanup_loop_terminates.
    split; [intros [H|H]; [discriminate H | auto] | intros [_ H]; auto].
  - simpl; split; [intros [H|[H|[]]]; discriminate H | intros [H _]; discriminate H].
Qed.

(** What the tests of the loop body require of a terminated process. *)
Lemma to_terminate_requires proc :
  to_terminate cfg os proc = true ->
  pi_pid proc <> os_getpid os
  /\ Str.contains "msedgewebview2.exe" (lower_name proc) = false
  /\ Str.contains "steam" (lower_exe proc) = false
  /\ Str.contains "steam" (lower_cmdline proc) = false
  /\ (if Str.contains "chrome" (lower_path cfg)
      then Str.contains "chrome" (lower_name proc) = true
           /\ Str.contains "steam" (lower_name proc) = false
      else Str.contains "msedge" (lower_path cfg) = true
           /\ Str.contains "msedge.exe" (lower_name proc) = true).
Proof.
  unfold to_terminate, is_browser.
  fold (lower_name proc); fold (lower_exe proc); fold (lower_cmdline proc);
    fold (lower_path cfg).
  destruct (pi_pid proc =? os_getpid os) eqn:Epid; [discriminate|].
  apply Z.eqb_neq in Epid.
  destruct (Str.contains "msedgewebview2.exe" (lower_name proc));
    [discriminate|].
  destruct (Str.contains "chrome" (lower_path cfg)).
  - intros H.
    apply andb_true_iff in H; destruct H as [H Hsteam].
    apply andb_true_iff in H; destruct H as [H _].
    apply andb_true_iff in H; destruct H as [Hname Hns].
    apply andb_true_iff in Hsteam; destruct Hsteam as [He Hc].
    apply negb_true_iff in Hns, He, Hc.
    repeat split; assumption.
  - destruct (Str.contains "msedge" (lower_path cfg)); [|discriminate].
    intros H.
    apply andb_true_iff in H; destruct H as [H Hsteam].
    apply andb_true_iff in H; destruct H as [Hname _].
    apply andb_true_iff in Hsteam; destruct Hsteam as [He Hc].
    apply negb_true_iff in He, Hc.
    repeat split; assumption.
Qed.

End Cleanup.

(** Every process the termination step terminates is a listed process
    other than the supervisor itself that passes the substring tests of
    the branch the browser path selects. *)
Lemma terminated_passes_family_tests
        (cfg : Config) (os : OS) (t : Z) (s : Runtime) (pid : Z) :
  In (EvTerminate pid) (events (out (run_seq (stop_all_browsers cfg os) t s))) ->
  (exists proc,
      In proc (os_process_iter os t)
      /\ pi_pid proc = pid
      /\ pid <> os_getpid os
      /\ Str.contains "msedgewebview2.exe" (lower_name proc) = false
      /\ Str.contains "steam" (lower_exe proc) = false
      /\ Str.contains "steam" (lower_cmdline proc) = false
      /\ (if Str.contains "chrome" (lower_path cfg)
          then Str.contains "chrome" (lower_name proc) = true
               /\ Str.contains "steam" (lower_name proc) = false
          else Str.contains "msedge" (lower_path cfg) = true
               /\ Str.contains "msedge.exe" (lower_name proc) = true))
  /\ (forall proc,
         lower_name proc = "msedge.exe" ->
         Str.contains "chrome" (lower_path cfg) = true ->
         to_terminate cfg os proc = false)
  /\ (forall proc,
         lower_name proc = "chrome.exe" ->
         Str.contains "chrome" (lower_path cfg) = false ->
         to_terminate cfg os proc = false).
Proof.
  intros Hin; split; [|split].
  - apply stop_all_browsers_terminates in Hin.
    destruct Hin as [_ [proc [Hp [Hpid Ht]]]].
    exists proc; split; [exact Hp|]; split; [exact Hpid|].
    rewrite <- Hpid; apply to_terminate_requires; exact Ht.
  - intros proc Hn Hc.
    destruct (to_terminate cfg os proc) eqn:E; [|reflexivity].
    apply to_terminate_requires in E.
    destruct E as [_ [_ [_ [_ E]]]]; rewrite Hc, Hn in E.
    destruct E as [E _]; discriminate E.
  - intros proc Hn Hc.
    destruct (to_terminate cfg os proc) eqn:E; [|reflexivity].
    apply to_terminate_requires in E.
    destruct E as [_ [_ [_ [_ E]]]]; rewrite Hc, Hn in E.
    destruct E as [_ E]; discriminate E.
Qed.

(** C8.  The claim fails under Chrome.  On a host that runs the browser,
    the WebDriver server [chromedriver.exe] and an image tool
    [monochrome.exe], the termination step terminates all three: the name
    test of the Chrome branch is the substring [chrome], where the family
    test of the health monitor asks for [chrome.exe] and does not count the
    WebDriver server as the browser.  The Edge branch asks for
    [msedge.exe]: on a host that runs Edge and [msedgedriver.exe] it
    terminates the browser alone. *)
Theorem C8_bystanders_terminated_under_chrome :
  let cfg := Scenario.config 3600 (Some Scenario.chrome_path) in
  let es := events (out (run_seq (stop_all_browsers cfg Scenario.shared_host)
                                 0 Scenario.started_at_zero)) in
  let edge := Scenario.config 3600 (Some Scenario.edge_path) in
  es = [LogStopping;
        EvTerminate 77; LogCleaned 77 "chrome.exe";
        EvTerminate 4242; LogCleaned 4242 "chromedriver.exe";
        EvTerminate 4343; LogCleaned 4343 "monochrome.exe"]
  /\ pi_exe Scenario.chromedriver_proc = Some "C:\Tools\chromedriver.exe"
  /\ pi_exe Scenario.monochrome_proc = Some "C:\Tools\Monochrome\monochrome.exe"
  /\ family_running cfg Scenario.chromedriver_proc = false
  /\ events (out (run_seq (stop_all_browsers edge Fleet.edge_host)
                          0 Scenario.started_at_zero))
     = [LogStopping; EvTerminate 78; LogCleaned 78 "msedge.exe"].
Proof.
  vm_compute; repeat split; auto.
Qed.

(** * Threads side by side *)

Section PoolFacts.

Variable w : Event -> nat.

Lemma earliest_none pool :
  earliest pool = None -> Forall (fun th => th = None) pool.
Proof.
  induction pool as [|th rest IH]; simpl; intros H; [constructor|].
  destruct th as [[wk p]|].
  - destruct (earliest rest) as [[j wk']|]; [|discriminate].
    destruct (wk' <? wk); discriminate.
  - destruct (earliest rest) as [[j wk']|]; [discriminate|].
    constructor; auto.
Qed.

Lemma earliest_some pool i wk :
  earliest pool = Some (i, wk) -> exists p, nth i pool None = Some (wk, p).
Proof.
  revert i wk; induction pool as [|th rest IH]; simpl; intros i wk H;
    [discriminate|].
  destruct (earliest rest) as [[j wk']|] eqn:E.
  - destruct (IH j wk' eq_refl) as [p Hp].
    destruct th as [[wk0 p0]|].
    + destruct (wk' <? wk0); injection H as <- <-; eauto.
    + injection H as <- <-; eauto.
  - destruct th as [[wk0 p0]|]; [|discriminate].
    injection H as <- <-; eauto.
Qed.

Lemma PoolSpec_all_done pool N B :
  PoolSpec w pool N B -> Forall (fun th => th = None) pool ->
  N = 0%nat /\ forallb (fun th : Thread =>
                          match th with None => true | Some _ => false end)
                       pool = true.
Proof.
  induction 1 as [|th rest n b N B Hth Hrest IH]; intros Hall;
    [split; reflexivity|].
  inversion Hall as [|? ? Hnone Hall']; subst.
  inversion Hth; subst.
  destruct (IH Hall') as [-> Hf]; simpl; rewrite Hf; split; reflexivity.
Qed.

Lemma PoolSpec_no_budget pool N :
  PoolSpec w pool N 0 -> Forall (fun th => th = None) pool.
Proof.
  intros H; remember 0%nat as z eqn:Hz; revert Hz.
  induction H as [|th rest n b N B Hth Hrest IH]; intros Hz; [constructor|].
  assert (b = 0%nat) by lia; assert (B = 0%nat) by lia; subst.
  constructor; [inversion Hth; reflexivity | apply IH; reflexivity].
Qed.

(** Replacing one thread of a pool by what a slice leaves of it. *)
Lemma PoolSpec_update pool N B :
  PoolSpec w pool N B ->
  forall i wk p, nth i pool None = Some (wk, p) ->
  exists n b,
    ThreadSpec w (Some (wk, p)) n b
    /\ forall th' n' b',
         ThreadSpec w th' n' b' ->
         exists N' B', PoolSpec w (set_nth i th' pool) N' B'
                       /\ (N' + n = N + n')%nat /\ (B' + b = B + b')%nat.
Proof.
  induction 1 as [|th rest n b N B Hth Hrest IH]; intros i wk p Hnth.
  - destruct i; discriminate.
  - destruct i as [|i]; simpl in Hnth.
    + subst th; exists n, b; split; [exact Hth|].
      intros th' n' b' Hth'.
      exists (n' + N)%nat, (b' + B)%nat; split; [|lia].
      simpl; constructor; assumption.
    + destruct (IH i wk p Hnth) as [n0 [b0 [H0 Hupd]]].
      exists n0, b0; split; [exact H0|].
      intros th' n' b' Hth'.
      destruct (Hupd th' n' b' Hth') as [N' [B' [Hp [HN HB]]]].
      exists (n + N')%nat, (b + B')%nat; split; [|lia].
      simpl; constructor; assumption.
Qed.

Lemma pool_step_spec st st' N B :
  PoolSpec w (ps_threads st) N B ->
  pool_step st = Some st' ->
  exists N' B',
    PoolSpec w (ps_threads st') N' B'
    /\ (cost w (ps_out st') + N' = cost w (ps_out st) + N)%nat
    /\ (B' < B)%nat.
Proof.
  intros Hspec Hstep; unfold pool_step in Hstep.
  destruct (earliest (ps_threads st)) as [[i wk]|] eqn:E; [|discriminate].
  destruct (earliest_some _ _ _ E) as [p Hnth].
  rewrite Hnth in Hstep; injection Hstep as <-; cbn [ps_threads ps_out].
  destruct (PoolSpec_update _ _ _ Hspec i wk p Hnth) as [n [b [Hth Hupd]]].
  inversion Hth as [|? ? ? b0 Hw Hc]; subst.
  destruct (Weighs_resume w p n wk (ps_rt st) Hw) as [n' [Hcost Hnext]].
  pose proof (Costs_resume p b0 wk (ps_rt st) Hc) as Hbound.
  rewrite cost_app.
  destruct (sl_next (resume p wk (ps_rt st))) as [[wk' k]|].
  - destruct Hbound as [b' [Hk Hlt]].
    destruct (Hupd (Some (wk', k)) n' (S b')) as [N' [B' [Hp [HN HB]]]];
      [constructor; assumption|].
    exists N', B'; split; [exact Hp|]; lia.
  - subst n'.
    destruct (Hupd None 0%nat 0%nat) as [N' [B' [Hp [HN HB]]]];
      [constructor|].
    exists N', B'; split; [exact Hp|]; lia.
Qed.

(** With fuel for every slice the pool runs to the end, and the trace
    has gained exactly the weight the threads had yet to produce. *)
Lemma run_pool_spec fuel : forall st N B,
  PoolSpec w (ps_threads st) N B -> (B <= fuel)%nat ->
  all_done (run_pool fuel st) = true
  /\ cost w (ps_out (run_pool fuel st)) = (cost w (ps_out st) + N)%nat.
Proof.
  induction fuel as [|fuel IH]; intros st N B Hspec Hfuel; simpl.
  - assert (B = 0%nat) by lia; subst.
    destruct (PoolSpec_all_done _ _ _ Hspec (PoolSpec_no_budget _ _ Hspec))
      as [-> Hdone].
    split; [exact Hdone | lia].
  - destruct (pool_step st) as [st'|] eqn:Estep.
    + destruct (pool_step_spec _ _ _ _ Hspec Estep) as [N' [B' [Hp [HN HB]]]].
      destruct (IH st' N' B' Hp) as [Hdone Hcost]; [lia|].
      split; [exact Hdone | lia].
    + unfold pool_step in Estep.
      destruct (earliest (ps_threads st)) as [[i wk]|] eqn:E.
      * destruct (earliest_some _ _ _ E) as [p Hnth].
        rewrite Hnth in Estep; discriminate.
      * destruct (PoolSpec_all_done _ _ _ Hspec (earliest_none _ E))
          as [-> Hdone].
        split; [exact Hdone | lia].
Qed.

End PoolFacts.

(** ** Forced restarts requested side by side *)

Section RestartWeight.

Variable cfg : Config.
Variable os : OS.
Variable w : Event -> nat.

Hypothesis Hlaunch : forall e, launch_event e = true -> w e = 0%nat.
Hypothesis Hcleanup : forall e, cleanup_event e = true -> w e = 0%nat.
Hypothesis Hstart_delay : w (EvSleep START_DELAY) = 0%nat.
Hypothesis Hretry_delay : w (EvSleep RETRY_DELAY) = 0%nat.

Lemma Weighs_stop_all_browsers :
  Weighs w (stop_all_browsers cfg os) (w LogStopping).
Proof.
  unfold stop_all_browsers; psimpl.
  apply Weighs_Emit with (n := 0%nat); [|lia].
  eapply Weighs_bind with (a := 0%nat) (b := 0%nat); [| |reflexivity].
  - apply Costs_zero_Weighs.
    apply Costs_cleanup_chrome_processes with (c := 0%nat); auto; lia.
  - intros _; psimpl; repeat constructor.
Qed.

Lemma Weighs_start_all_browsers :
  Weighs w (start_all_browsers cfg os)
         (w (LogStartAll (List.length (browser_configs cfg)))).
Proof.
  unfold start_all_browsers; psimpl.
  apply Weighs_Emit with (n := 0%nat); [|lia].
  constructor; intros t; repeat constructor.
  apply Costs_zero_Weighs.
  eapply Costs_mono;
    [apply Costs_open_groups with (c := 0%nat); auto; lia | simpl; lia].
Qed.

(** Whatever the state it finds and whatever other threads do between
    its slices, a forced restart logs its reason, stops, settles and
    starts, once each. *)
Lemma Weighs_force_restart reason :
  Weighs w (force_restart cfg os reason)
         (w (LogForceRestart reason) + w LogStopping + w (EvSleep STOP_DELAY)
          + w (LogStartAll (List.length (browser_configs cfg)))).
Proof.
  unfold force_restart; psimpl.
  apply Weighs_Emit
    with (n := (w LogStopping + w (EvSleep STOP_DELAY)
                + w (LogStartAll (List.length (browser_configs cfg))))%nat);
    [|lia].
  eapply Weighs_bind; [apply Weighs_stop_all_browsers | | ].
  - intros _; psimpl.
    eapply Weighs_Sleep; [apply Weighs_start_all_browsers | reflexivity].
  - lia.
Qed.

End RestartWeight.

Section RestartPool.

Variable cfg : Config.
Variable os : OS.

(** A forced restart sleeps at most once to settle and, in its launch,
    once per URL, per locator attempt and per group. *)
Lemma force_restart_slices reason :
  Costs (indicator is_sleep) (force_restart cfg os reason)
        (1 + launch_sleeps (browser_configs cfg)).
Proof.
  eapply Costs_mono;
    [apply Costs_force_restart with (c := 1%nat) | simpl; lia];
    try (intros [] E; (discriminate E || reflexivity)); apply Nat.le_refl.
Qed.

Lemma restart_threads_spec w n requests :
  (forall reason, Weighs w (force_restart cfg os reason) n) ->
  PoolSpec w (restart_threads cfg os requests)
           (List.length requests * n)
           (List.length requests * (2 + launch_sleeps (browser_configs cfg))).
Proof.
  intros Hw; induction requests as [|[wk reason] rest IH];
    cbn [restart_threads map List.length Nat.mul fst snd].
  - constructor.
  - apply PS_cons; [|exact IH].
    apply (@TS_alive w wk (force_restart cfg os reason) n
                    (1 + launch_sleeps (browser_configs cfg)));
      [apply Hw | apply force_restart_slices].
Qed.

End RestartPool.

(** C2 (as amended).  Restart requests are not serialized: every forced
    restart requested runs its own stop, settle sleep and start, whatever
    the state it finds and however the requests overlap in time; so a pool
    of [n] requests, run to the end, stops [n] times, settles [n] times and
    starts [n] times. *)
Theorem C2_every_restart_request_runs
        (cfg : Config) (os : OS) (requests : list (Z * Reason))
        (s : Runtime) (fuel : nat) :
  (List.length requests * (2 + launch_sleeps (browser_configs cfg)) <= fuel)%nat ->
  let st := run_pool fuel (mkPool s (restart_threads cfg os requests) []) in
  all_done st = true
  /\ count is_stop (ps_out st) = List.length requests
  /\ count is_settle (ps_out st) = List.length requests
  /\ count is_start (ps_out st) = List.length requests.
Proof.
  intros Hfuel st.
  assert (Hrun : forall q : Event -> bool,
             (forall e, launch_event e = true -> q e = false) ->
             (forall e, cleanup_event e = true -> q e = false) ->
             q (EvSleep START_DELAY) = false ->
             q (EvSleep RETRY_DELAY) = false ->
             (forall reason,
                 ((if q (LogForceRestart reason) then 1 else 0)
                  + (if q LogStopping then 1 else 0)
                  + (if q (EvSleep STOP_DELAY) then 1 else 0)
                  + (if q (LogStartAll (List.length (browser_configs cfg)))
                     then 1 else 0))%nat = 1%nat) ->
             all_done st = true /\ count q (ps_out st) = List.length requests).
  { intros q Hl Hc Hs Hr Hone.
    destruct (run_pool_spec (indicator q) fuel
                (mkPool s (restart_threads cfg os requests) [])
                (List.length requests * 1)
                (List.length requests * (2 + launch_sleeps (browser_configs cfg))))
      as [Hdone Hcost]; [|exact Hfuel|].
    - apply restart_threads_spec; intros reason.
      assert (Hf := Weighs_force_restart cfg os (indicator q)).
      specialize (Hf ltac:(intros e He; unfold indicator;
                           rewrite (Hl e He); reflexivity)
                     ltac:(intros e He; unfold indicator;
                           rewrite (Hc e He); reflexivity)
                     ltac:(unfold indicator; rewrite Hs; reflexivity)
                     ltac:(unfold indicator; rewrite Hr; reflexivity)
                     reason).
      unfold indicator in Hf; rewrite (Hone reason) in Hf; exact Hf.
    - split; [exact Hdone|].
      unfold count; fold st in Hcost; rewrite Hcost.
      cbn [ps_out]; unfold cost; simpl; lia. }
  split; [|split; [|split]].
  - apply (Hrun is_stop); try reflexivity;
      try (intros [] E; (discriminate E || reflexivity)).
  - apply (Hrun is_stop); try reflexivity;
      try (intros [] E; (discriminate E || reflexivity)).
  - apply (Hrun is_settle); try reflexivity;
      try (intros [] E; (discriminate E || reflexivity)).
  - apply (Hrun is_start); try reflexivity;
      try (intros [] E; (discriminate E || reflexivity)).
Qed.

(** Two requests three seconds apart, the second while the first is
    settling: two stops. *)
Lemma C2_every_restart_request_witness :
  count is_stop
        (ps_out (run_pool 32
                   (mkPool Scenario.started_at_zero
                           (restart_threads
                              (Scenario.config 120 (Some Scenario.chrome_path))
                              Scenario.busy_host
                              [(seconds 134, Scheduled); (seconds 137, CpuTooHigh)])
                           []))) = 2%nat.
Proof.
  refine (proj1 (proj2 (C2_every_restart_request_runs
                          (Scenario.config 120 (Some Scenario.chrome_path))
                          Scenario.busy_host
                          [(seconds 134, Scheduled); (seconds 137, CpuTooHigh)]
                          Scenario.started_at_zero 32 _))).
  unfold launch_sleeps, max_attempts; simpl; lia.
Defined.

(** C2, the claim as stated, fails: with a two-minute restart interval and
    the processor above its threshold from the hundredth second on, the
    deadline is met at second 134 and the CPU breach is seen at second 137,
    while the scheduled restart is settling; the second request stops the
    fleet again, settles on its own and starts the fleet a second time,
    three seconds after the first start. *)
Lemma C2_counterexample_two_overlapping_restarts :
  restart_steps
    (ps_out (run (Scenario.config 120 (Some Scenario.chrome_path))
                 Scenario.busy_host 12 0))
  = [(0, LogStartAll 1);
     (seconds 134, LogForceRestart Scheduled);
     (seconds 134, LogStopping);
     (seconds 134, EvSleep STOP_DELAY);
     (seconds 137, LogForceRestart CpuTooHigh);
     (seconds 137, LogStopping);
     (seconds 137, EvSleep STOP_DELAY);
     (seconds 149, LogStartAll 1);
     (seconds 152, LogStartAll 1)].
Proof.
  vm_compute; reflexivity.
Qed.

(** * Scheduled restart timer *)

Section Monotone.

(** A program whose sleeps are not negative never sets the clock back:
    it ends no earlier than it began and stamps nothing earlier. *)
Lemma run_seq_monotone_bound {A} (p : Prog A) b :
  Costs (indicator is_negative_sleep) p b -> b = 0%nat ->
  forall t s,
    t <= clock (run_seq p t s)
    /\ Forall (fun te => t <= fst te) (out (run_seq p t s)).
Proof.
  intros H.
  induction H as [a b|k b H IH|f k b H IH|k b H IH|e k b b' H IH Hb
                 |d k b b' H IH Hb]; intros Hz t s; subst; simpl.
  - split; [lia | constructor].
  - apply IH; reflexivity.
  - apply IH; reflexivity.
  - apply IH; reflexivity.
  - assert (b = 0%nat) by lia; subst.
    destruct (IH eq_refl t s) as [Hc Hf].
    split; [exact Hc | constructor; [simpl; lia | exact Hf]].
  - assert (b = 0%nat) by lia; subst.
    assert (Hd : 0 <= d).
    { unfold indicator in Hb; simpl in Hb.
      destruct (d <? 0) eqn:E; [lia | apply Z.ltb_ge in E; exact E]. }
    destruct (IH eq_refl (t + d) s) as [Hc Hf].
    split; [lia | constructor; [simpl; lia|]].
    eapply Forall_impl; [|exact Hf]; simpl; intros te Hte; lia.
Qed.

Lemma run_seq_monotone {A} (p : Prog A) :
  Costs (indicator is_negative_sleep) p 0 ->
  forall t s,
    t <= clock (run_seq p t s)
    /\ Forall (fun te => t <= fst te) (out (run_seq p t s)).
Proof.
  intros H; exact (run_seq_monotone_bound p 0 H eq_refl).
Qed.

Variable cfg : Config.
Variable os : OS.

Lemma force_restart_nonneg reason :
  Costs (indicator is_negative_sleep) (force_restart cfg os reason) 0.
Proof.
  eapply Costs_mono;
    [apply Costs_force_restart with (c := 0%nat) | simpl; lia];
    try (intros [] E; (discriminate E || reflexivity)); apply Nat.le_refl.
Qed.

Lemma scheduled_loop_nonneg fuel : forall next_restart,
  Costs (indicator is_negative_sleep) (scheduled_loop cfg os fuel next_restart) 0.
Proof.
  induction fuel as [|n IH]; intros next; cbn [scheduled_loop]; psimpl.
  - constructor.
  - constructor; intros s; destruct (is_running s); psimpl; [|constructor].
    constructor; intros t.
    destruct (next <=? t); psimpl.
    + apply Costs_Emit with (b := 0%nat); [|reflexivity].
      eapply Costs_bind with (a := 0%nat) (b := 0%nat); [| |reflexivity].
      * eapply Costs_bind with (a := 0%nat) (b := 0%nat);
          [apply force_restart_nonneg | | reflexivity].
        intros _; psimpl; constructor; intros t'.
        destruct (next_deadline cfg t'); psimpl; [|constructor].
        apply Costs_Emit with (b := 0%nat); [constructor | reflexivity].
      * intros [next'|]; psimpl; [|constructor].
        apply Costs_Sleep with (b := 0%nat); [apply IH | reflexivity].
    + apply Costs_Sleep with (b := 0%nat); [apply IH | reflexivity].
Qed.

End Monotone.

Section Timer.

Variable cfg : Config.
Variable os : OS.

(** The stop, settle and start of a scheduled restart log the restart
    once, at its start. *)
Lemma force_restart_fires t s :
  scheduled_fires (out (run_seq (force_restart cfg os Scheduled) t s)) = [t].
Proof.
  unfold force_restart, scheduled_fires; prog_simpl.
  unfold times_of; cbn [filter snd is_scheduled_restart map fst].
  f_equal; apply (times_of_none is_scheduled_restart).
  apply Nat.le_0_r, Costs_run_seq.
  eapply Costs_bind with (a := 0%nat) (b := 0%nat); [| |lia].
  - apply Costs_stop_all_browsers with (c := 0%nat);
      try (intros [] E; (discriminate E || reflexivity)); apply Nat.le_refl.
  - intros _; psimpl.
    apply Costs_Sleep with (b := 0%nat); [|reflexivity].
    eapply Costs_mono;
      [apply Costs_start_all_browsers with (c := 0%nat) | simpl; lia];
      try (intros [] E; (discriminate E || reflexivity)); apply Nat.le_refl.
Qed.

Lemma deadline_after_some t n d :
  deadline_after t n = Some d -> d = t + seconds n.
Proof.
  unfold deadline_after, timedelta_seconds, datetime_add.
  destruct (_ && _); [|discriminate].
  destruct (_ && _); [|discriminate].
  intros H; injection H as <-; reflexivity.
Qed.

Lemma next_deadline_some t :
  next_deadline cfg t <> None ->
  next_deadline cfg t = Some (t + seconds (restart_seconds cfg)).
Proof.
  unfold next_deadline; intros H.
  destruct (deadline_after t (restart_seconds cfg)) as [d|] eqn:E;
    [|contradiction].
  rewrite (deadline_after_some _ _ _ E); reflexivity.
Qed.

(** From a poll that is [k] polls short of the deadline the loop stays
    quiet for [k] polls, fires at the next one, plans the following
    deadline from the time the restart completed, and fires again only
    after the window has closed. *)
Lemma scheduled_loop_fires k : forall fuel t next s,
  is_running s = true ->
  (k < fuel)%nat ->
  next <= t + Z.of_nat k * SCHEDULE_CHECK_INTERVAL ->
  t + Z.of_nat k * SCHEDULE_CHECK_INTERVAL < next + SCHEDULE_CHECK_INTERVAL ->
  let fire := t + Z.of_nat k * SCHEDULE_CHECK_INTERVAL in
  let done := clock (run_seq (force_restart cfg os Scheduled) fire s) in
  let tr := out (run_seq (scheduled_loop cfg os fuel next) t s) in
  next_deadline cfg done <> None ->
  (exists later,
      scheduled_fires tr = fire :: later
      /\ Forall (fun x => next + SCHEDULE_CHECK_INTERVAL <= x) later)
  /\ In (done, LogNextPlanned (done + seconds (restart_seconds cfg))) tr
  /\ fire <= done.
Proof.
  induction k as [|k IH]; intros fuel t next s Hrun Hfuel Hlo Hhi;
    (destruct fuel as [|n]; [lia|]); cbn zeta; cbn [scheduled_loop];
    prog_simpl; rewrite Hrun; prog_simpl.
  - (* the deadline is met at this poll *)
    replace (t + Z.of_nat 0 * SCHEDULE_CHECK_INTERVAL) with t in * by lia.
    intros Hdate; apply next_deadline_some in Hdate.
    assert (Hnow : (next <=? t) = true) by (apply Z.leb_le; lia).
    rewrite Hnow; prog_simpl.
    set (fr := run_seq (force_restart cfg os Scheduled) t s) in *.
    rewrite !run_seq_bind; fold fr; prog_simpl.
    rewrite Hdate; prog_simpl.
    destruct (run_seq_monotone (force_restart cfg os Scheduled)
                               (force_restart_nonneg cfg os Scheduled) t s)
      as [Hdone _].
    fold fr in Hdone.
    split; [|split; [|exact Hdone]].
    + unfold scheduled_fires, times_of.
      cbn [filter snd is_scheduled_restart map fst].
      rewrite !filter_app, !map_app.
      fold (times_of is_scheduled_restart (out fr)).
      fold (scheduled_fires (out fr)).
      unfold fr at 1; rewrite force_restart_fires.
      cbn [app filter snd is_scheduled_restart map fst].
      eexists; split; [reflexivity|].
      destruct (run_seq_monotone
                  (scheduled_loop cfg os n
                     (clock fr + seconds (restart_seconds cfg)))
                  (scheduled_loop_nonneg cfg os n _)
                  (clock fr + SCHEDULE_CHECK_INTERVAL) (rt fr))
        as [_ Hlater].
      apply Forall_forall; intros x Hx.
      apply in_map_iff in Hx; destruct Hx as [te [<- Hte]].
      apply filter_In in Hte; destruct Hte as [Hte _].
      rewrite Forall_forall in Hlater; specialize (Hlater te Hte).
      cbv beta in Hlater; lia.
    + right; apply in_or_app; left.
      apply in_or_app; right; left; reflexivity.
  - (* not yet: sleep one poll interval *)
    assert (Hnow : (next <=? t) = false).
    { apply Z.leb_gt.
      rewrite Nat2Z.inj_succ in Hhi.
      unfold SCHEDULE_CHECK_INTERVAL, seconds in *; lia. }
    rewrite Hnow; prog_simpl.
    assert (Hfire : t + Z.of_nat (S k) * SCHEDULE_CHECK_INTERVAL
                    = t + SCHEDULE_CHECK_INTERVAL
                      + Z.of_nat k * SCHEDULE_CHECK_INTERVAL).
    { rewrite Nat2Z.inj_succ; unfold SCHEDULE_CHECK_INTERVAL, seconds; lia. }
    rewrite Hfire in *.
    intros Hdate.
    destruct (IH n (t + SCHEDULE_CHECK_INTERVAL) next s Hrun)
      as [[later [Hf Hl]] [Hin Hd]]; try lia; [exact Hdate|].
    split; [|split; [|exact Hd]].
    + exists later; split; [|exact Hl].
      unfold scheduled_fires, times_of in *.
      cbn [filter snd is_scheduled_restart]; exact Hf.
    + right; exact Hin.
Qed.

End Timer.

(** A forced restart lasts at least its settle delay. *)
Lemma force_restart_duration cfg os reason t s :
  t + STOP_DELAY <= clock (run_seq (force_restart cfg os reason) t s).
Proof.
  unfold force_restart; prog_simpl.
  rewrite clock_bind; prog_simpl.
  destruct (stop_all_browsers_run cfg os t s) as [_ ->].
  apply run_seq_monotone.
  eapply Costs_mono;
    [apply Costs_start_all_browsers with (c := 0%nat) | simpl; lia];
    try (intros [] E; (discriminate E || reflexivity)); apply Nat.le_refl.
Qed.

(** C5 (as amended).  The restart loop, run on its own with only sleeps
    taking time, plans its deadline once, [restart_seconds] after the loop
    starts.  When that deadline is not a date the computation raises, the
    thread ends at once and nothing is ever fired.  When it is a date, and
    the deadline planned after the restart is one too, the loop polls every
    sixty seconds and requests its first scheduled restart at the first
    poll at or after the deadline, which falls in the sixty seconds that
    follow the deadline, and no other scheduled restart falls in that
    window or before it; the next deadline is planned from the time the
    restart completed, at least the settle delay later.  The window is
    counted from the start of the loop, which begins once the launch of the
    fleet has returned, not from the fleet-start time. *)
Theorem C5_scheduled_restart_fires_once
        (cfg : Config) (os : OS) (fuel : nat) (t0 : Z) (s : Runtime) :
  let tr := out (run_seq (scheduled_restart cfg os fuel) t0 s) in
  let deadline := t0 + seconds (restart_seconds cfg) in
  let fire := t0 + Z.of_nat (polls_before_fire (restart_seconds cfg))
                   * SCHEDULE_CHECK_INTERVAL in
  let done := clock (run_seq (force_restart cfg os Scheduled) fire s) in
  (next_deadline cfg t0 = None -> tr = [])
  /\ (0 < restart_seconds cfg ->
      is_running s = true ->
      (polls_before_fire (restart_seconds cfg) < fuel)%nat ->
      next_deadline cfg t0 <> None ->
      next_deadline cfg done <> None ->
      In (t0, LogPlanned deadline) tr
      /\ deadline <= fire < deadline + SCHEDULE_CHECK_INTERVAL
      /\ filter (in_window deadline) (scheduled_fires tr) = [fire]
      /\ (forall x, In x (scheduled_fires tr) -> deadline <= x)
      /\ In (done, LogNextPlanned (done + seconds (restart_seconds cfg))) tr
      /\ fire + STOP_DELAY <= done).
Proof.
  intros tr deadline fire done.
  split.
  { intros Hnone; unfold tr, scheduled_restart; prog_simpl.
    rewrite Hnone; reflexivity. }
  intros HR Hrun Hfuel Hfirst Hnext.
  assert (Hfire : deadline <= fire < deadline + SCHEDULE_CHECK_INTERVAL).
  { unfold fire, deadline, polls_before_fire, SCHEDULE_CHECK_INTERVAL, seconds.
    rewrite Z2Nat.id by (apply Z.div_pos; lia).
    pose proof (Z.div_mod (restart_seconds cfg + 59) 60 ltac:(lia)) as Hdm.
    pose proof (Z.mod_pos_bound (restart_seconds cfg + 59) 60 ltac:(lia)) as Hm.
    lia. }
  assert (Htr : tr = (t0, LogPlanned deadline)
                       :: out (run_seq (scheduled_loop cfg os fuel deadline) t0 s)).
  { unfold tr, scheduled_restart; prog_simpl.
    rewrite (next_deadline_some cfg t0 Hfirst); reflexivity. }
  destruct (scheduled_loop_fires cfg os (polls_before_fire (restart_seconds cfg))
                                 fuel t0 deadline s Hrun Hfuel)
    as [[later [Hfires Hlater]] [Hplanned _]];
    [fold fire; lia | fold fire; lia | exact Hnext |].
  fold fire in Hfires, Hplanned; fold done in Hplanned.
  assert (Hall : scheduled_fires tr = fire :: later).
  { rewrite Htr; unfold scheduled_fires, times_of in *.
    cbn [filter snd is_scheduled_restart]; exact Hfires. }
  assert (Hout : filter (in_window deadline) later = []).
  { clear - Hlater; induction Hlater as [|x l Hx Hl IH]; [reflexivity|].
    simpl; rewrite IH.
    unfold in_window.
    replace (x <? deadline + SCHEDULE_CHECK_INTERVAL) with false
      by (symmetry; apply Z.ltb_ge; exact Hx).
    rewrite andb_false_r; reflexivity. }
  split; [rewrite Htr; left; reflexivity|].
  split; [exact Hfire|].
  split; [|split; [|split]].
  - rewrite Hall; cbn [filter]; rewrite Hout.
    unfold in_window.
    replace (deadline <=? fire) with true by (symmetry; apply Z.leb_le; lia).
    replace (fire <? deadline + SCHEDULE_CHECK_INTERVAL) with true
      by (symmetry; apply Z.ltb_lt; lia).
    reflexivity.
  - rewrite Hall; intros x [<-|Hx]; [lia|].
    rewrite Forall_forall in Hlater; specialize (Hlater x Hx).
    unfold SCHEDULE_CHECK_INTERVAL, seconds in Hlater; lia.
  - rewrite Htr; right; exact Hplanned.
  - apply force_restart_duration.
Qed.

(** With the default hour between restarts and the loop starting at
    second 14, the restart fires at the sixtieth poll, an hour later. *)
Lemma C5_scheduled_restart_witness :
  filter (in_window (seconds 14 + seconds 3600))
         (scheduled_fires
            (out (run_seq (scheduled_restart
                             (Scenario.config 3600 (Some Scenario.chrome_path))
                             Scenario.calm_host 62)
                          (seconds 14) Scenario.started_at_zero)))
  = [seconds 14 + 60 * SCHEDULE_CHECK_INTERVAL].
Proof.
  refine (proj1 (proj2 (proj2 (proj2 (C5_scheduled_restart_fires_once
                                 (Scenario.config 3600 (Some Scenario.chrome_path))
                                 Scenario.calm_host 62 (seconds 14)
                                 Scenario.started_at_zero) _ _ _ _ _)))).
  - reflexivity.
  - reflexivity.
  - vm_compute; lia.
  - vm_compute; discriminate.
  - vm_compute; discriminate.
Defined.

(** C5, the claim as stated, fails twice.  With a restart interval of 61
    seconds the fleet starts at second 0, its launch returns at second 14,
    the deadline is second 75, and the polls at seconds 14 and 74 miss it;
    the only scheduled restart fires at second 134, outside the window
    from second 61 to second 121 after the fleet start.  With an interval
    of 10^12 seconds, which [main] accepts, the deadline lies past the
    year 9999: the loop ends before its first poll, with nothing logged,
    and no scheduled restart is ever fired. *)
Lemma C5_counterexample_no_restart_in_window :
  let st := run (Scenario.config 61 (Some Scenario.chrome_path))
                Scenario.calm_host 12 0 in
  (hd_error (ps_out st) = Some (0, LogStartAll 1)
   /\ In (seconds 14, LogPlanned (seconds 75)) (ps_out st)
   /\ scheduled_fires (ps_out st) = [seconds 134]
   /\ filter (in_window (0 + seconds 61)) (scheduled_fires (ps_out st)) = [])
  /\ st_restart_seconds
       (main_settings (mkArgs 1000000000000 80 85 false 60 None) Unreadable)
     = 1000000000000
  /\ run_seq (scheduled_restart
                (Scenario.config 1000000000000 (Some Scenario.chrome_path))
                Scenario.calm_host 1000)
             (seconds 14) Scenario.started_at_zero
     = mkRes tt (seconds 14) Scenario.started_at_zero [].
Proof.
  vm_compute; repeat split; auto 60.
Qed.

(** * Start-up: detection, construction, settings *)

Lemma path_exists_truthy mc p :
  path_exists mc p = true -> Str.truthy (Some p) = true.
Proof. destruct p; [discriminate | reflexivity]. Qed.

Lemma detect_edge_found mc p :
  detect_edge mc = Some p ->
  path_exists mc p = true
  /\ (In p DEFAULT_EDGE_PATHS \/ mc_reg_msedge mc = Some p).
Proof.
  unfold detect_edge.
  destruct (find (path_exists mc) DEFAULT_EDGE_PATHS) as [q|] eqn:E.
  - intros H; injection H as <-.
    apply find_some in E; destruct E as [Hin He]; auto.
  - destruct (mc_reg_msedge mc) as [q|]; [|discriminate].
    destruct (path_exists mc q) eqn:Eq; [|discriminate].
    intros H; injection H as <-; auto.
Qed.

Lemma detect_chrome_found mc p :
  detect_chrome mc = Some p ->
  path_exists mc p = true
  /\ (In p DEFAULT_CHROME_PATHS \/ mc_reg_chrome mc = Some p).
Proof.
  unfold detect_chrome.
  destruct (find (path_exists mc) DEFAULT_CHROME_PATHS) as [q|] eqn:E.
  - intros H; injection H as <-.
    apply find_some in E; destruct E as [Hin He]; auto.
  - destruct (mc_reg_chrome mc) as [q|]; [|discriminate].
    destruct (path_exists mc q) eqn:Eq; [|discriminate].
    intros H; injection H as <-; auto.
Qed.

Lemma detect_auto_found mc p :
  detect_auto mc = Some p ->
  path_exists mc p = true
  /\ (In p DEFAULT_EDGE_PATHS \/ mc_reg_msedge mc = Some p
      \/ In p DEFAULT_CHROME_PATHS \/ mc_reg_chrome mc = Some p).
Proof.
  unfold detect_auto.
  destruct (detect_edge mc) as [q|] eqn:E.
  - intros H; injection H as <-.
    destruct (detect_edge_found mc q E) as [He [H|H]]; auto.
  - intros H; destruct (detect_chrome_found mc p H) as [He [H'|H']]; auto.
Qed.

Lemma detect_auto_none mc :
  detect_auto mc = None <-> detect_edge mc = None /\ detect_chrome mc = None.
Proof.
  unfold detect_auto; destruct (detect_edge mc); split.
  - discriminate.
  - intros [H _]; discriminate H.
  - auto.
  - intros [_ H]; exact H.
Qed.

Lemma usable_detected mc custom browser_type :
  usable mc custom = true -> detect_browser_path mc custom browser_type = custom.
Proof.
  unfold detect_browser_path, usable; intros ->; reflexivity.
Qed.

Lemma unusable_detected mc custom browser_type :
  usable mc custom = false ->
  detect_browser_path mc custom browser_type =
  if browser_type =? 1 then detect_edge mc
  else if browser_type =? 2 then detect_chrome mc
  else detect_auto mc.
Proof.
  unfold detect_browser_path, usable; intros ->.
  destruct (browser_type =? 0) eqn:E0; [|reflexivity].
  apply Z.eqb_eq in E0; subst; reflexivity.
Qed.

Lemma detected_found mc custom browser_type p :
  detect_browser_path mc custom browser_type = Some p ->
  path_exists mc p = true.
Proof.
  intros H.
  destruct (usable mc custom) eqn:U.
  - rewrite (usable_detected mc custom browser_type U) in H; subst custom.
    unfold usable in U; apply andb_true_iff in U; apply U.
  - rewrite (unusable_detected mc custom browser_type U) in H.
    destruct (browser_type =? 1); [apply (detect_edge_found mc p H)|].
    destruct (browser_type =? 2); [apply (detect_chrome_found mc p H)|].
    apply (detect_auto_found mc p H).
Qed.

Lemma detected_truthy mc custom browser_type :
  Str.truthy (detect_browser_path mc custom browser_type)
  = match detect_browser_path mc custom browser_type with
    | Some _ => true
    | None => false
    end.
Proof.
  destruct (detect_browser_path mc custom browser_type) as [p|] eqn:E;
    [|reflexivity].
  exact (path_exists_truthy mc p (detected_found mc custom browser_type p E)).
Qed.

Lemma usable_truthy mc custom : usable mc custom = true -> Str.truthy custom = true.
Proof. unfold usable; intros H; apply andb_true_iff in H; apply H. Qed.

(** What a successful construction leaves: the platform is win32 and the
    configuration holds the arguments, a detected path and the groups. *)
Lemma BrowserManager_init_some
      mc restart max_cpu max_memory groups interval clean custom settings
      browser_type mg :
  BrowserManager_init mc restart max_cpu max_memory groups interval clean
                      custom settings browser_type = Some mg ->
  exists path,
    mc_win32 mc = true
    /\ Str.truthy path = true
    /\ path_exists mc (Str.or_empty path) = true
    /\ (path = detect_browser_path mc custom browser_type
         /\ mg_browser_type mg = browser_type
        \/ path = detect_browser_path mc custom 0 /\ mg_browser_type mg = 0)
    /\ mg_config mg
       = mkConfig restart (inject_Z max_cpu) (inject_Z max_memory) interval path
                  match settings with
                  | Some ws => or_default (ws_window_offset_x ws) 120
                  | None => 120
                  end
                  match settings with
                  | Some ws => or_default (ws_window_offset_y ws) 75
                  | None => 75
                  end
                  match groups with
                  | Some (g :: rest) => g :: rest
                  | _ => [builtin_group]
                  end.
Proof.
  unfold BrowserManager_init.
  destruct (mc_win32 mc); [|discriminate]; cbn [negb].
  set (first := detect_browser_path mc custom browser_type).
  set (retry := negb (Str.truthy first) && negb (browser_type =? 0)).
  set (path := if retry then detect_browser_path mc custom 0 else first).
  destruct (Str.truthy path) eqn:Et; [|discriminate]; cbn [negb].
  intros H; injection H as <-; cbn [mg_config mg_browser_type].
  exists path.
  split; [reflexivity|]; split; [exact Et|]; split; [|split; [|reflexivity]].
  - destruct path as [q|] eqn:Ep; [|discriminate Et].
    subst path; destruct retry.
    + apply (detected_found mc custom 0 q Ep).
    + apply (detected_found mc custom browser_type q Ep).
  - subst path; destruct retry; auto.
Qed.

(** X1.  A path the detection returns exists on disk, and is not empty. *)
Theorem detect_browser_path_exists mc custom browser_type p :
  detect_browser_path mc custom browser_type = Some p ->
  path_exists mc p = true /\ Str.truthy (Some p) = true.
Proof.
  intros H.
  assert (He := detected_found mc custom browser_type p H).
  split; [exact He | apply (path_exists_truthy mc p He)].
Qed.

Lemma detect_browser_path_exists_witness :
  path_exists Startup.chrome_only
              "C:\Program Files\Google\Chrome\Application\chrome.exe" = true.
Proof.
  refine (proj1 (detect_browser_path_exists Startup.chrome_only None 2 _ _)).
  reflexivity.
Defined.

(** X2.  When the custom path cannot be used, type 1 yields only an Edge
    candidate and type 2 only a Chrome candidate: a default install path
    or the registry value of that browser. *)
Theorem detect_browser_path_honours_type mc custom p :
  usable mc custom = false ->
  (detect_browser_path mc custom 1 = Some p ->
   In p DEFAULT_EDGE_PATHS \/ mc_reg_msedge mc = Some p)
  /\ (detect_browser_path mc custom 2 = Some p ->
      In p DEFAULT_CHROME_PATHS \/ mc_reg_chrome mc = Some p).
Proof.
  intros U; rewrite !(unusable_detected mc custom _ U); simpl; split; intros H.
  - apply (detect_edge_found mc p H).
  - apply (detect_chrome_found mc p H).
Qed.

Lemma detect_browser_path_honours_type_witness :
  In "C:\Program Files\Google\Chrome\Application\chrome.exe" DEFAULT_CHROME_PATHS
  \/ mc_reg_chrome Startup.chrome_only
     = Some "C:\Program Files\Google\Chrome\Application\chrome.exe".
Proof.
  refine (proj2 (detect_browser_path_honours_type
                   Startup.chrome_only None
                   "C:\Program Files\Google\Chrome\Application\chrome.exe" _) _);
    reflexivity.
Defined.

(** X3.  The automatic order prefers Edge to Chrome and a default install
    path to the registry: a path that is not an Edge candidate is returned
    only when no default Edge path exists and the Edge registry value does
    not exist either, and a path that is not a default Chrome path only
    when, besides, no default Chrome path exists. *)
Theorem detect_auto_order mc p :
  detect_auto mc = Some p ->
  ~ In p DEFAULT_EDGE_PATHS ->
  mc_reg_msedge mc <> Some p ->
  (forall q, In q DEFAULT_EDGE_PATHS -> path_exists mc q = false)
  /\ (forall q, mc_reg_msedge mc = Some q -> path_exists mc q = false)
  /\ (In p DEFAULT_CHROME_PATHS \/ mc_reg_chrome mc = Some p)
  /\ (~ In p DEFAULT_CHROME_PATHS ->
      forall q, In q DEFAULT_CHROME_PATHS -> path_exists mc q = false).
Proof.
  intros H Hne Hnr.
  unfold detect_auto in H.
  destruct (detect_edge mc) as [e|] eqn:E.
  { injection H as ->.
    destruct (detect_edge_found mc p E) as [_ [Hin|Hr]]; contradiction. }
  unfold detect_edge in E.
  destruct (find (path_exists mc) DEFAULT_EDGE_PATHS) eqn:Ef; [discriminate|].
  split; [|split; [|split]].
  - intros q Hq; apply (find_none _ _ Ef q Hq).
  - intros q Hq; rewrite Hq in E.
    destruct (path_exists mc q); [discriminate | reflexivity].
  - apply (detect_chrome_found mc p H).
  - intros Hnc q Hq.
    unfold detect_chrome in H.
    destruct (find (path_exists mc) DEFAULT_CHROME_PATHS) as [c|] eqn:Ec.
    + injection H as ->.
      apply find_some in Ec; destruct Ec as [Hin _]; contradiction.
    + apply (find_none _ _ Ec q Hq).
Qed.

Lemma detect_auto_order_witness :
  (forall q, In q DEFAULT_EDGE_PATHS -> path_exists Startup.chrome_only q = false)
  /\ (forall q, mc_reg_msedge Startup.chrome_only = Some q ->
                path_exists Startup.chrome_only q = false)
  /\ (In "C:\Program Files\Google\Chrome\Application\chrome.exe"
          DEFAULT_CHROME_PATHS
      \/ mc_reg_chrome Startup.chrome_only
         = Some "C:\Program Files\Google\Chrome\Application\chrome.exe")
  /\ (~ In "C:\Program Files\Google\Chrome\Application\chrome.exe"
            DEFAULT_CHROME_PATHS ->
      forall q, In q DEFAULT_CHROME_PATHS ->
                path_exists Startup.chrome_only q = false).
Proof.
  refine (detect_auto_order
            Startup.chrome_only
            "C:\Program Files\Google\Chrome\Application\chrome.exe"
            _ _ _).
  - reflexivity.
  - simpl; intros [H|[H|[]]]; discriminate H.
  - discriminate.
Defined.

(** X4.  A constructed manager has a browser path that exists on disk and at
    least one group, and runs on win32; its browser type is the one asked
    for, or 0 after the fallback. *)
Theorem BrowserManager_init_invariants
        mc restart max_cpu max_memory groups interval clean custom settings
        browser_type mg :
  BrowserManager_init mc restart max_cpu max_memory groups interval clean
                      custom settings browser_type = Some mg ->
  mc_win32 mc = true
  /\ Str.truthy (browser_path (mg_config mg)) = true
  /\ path_exists mc (Str.or_empty (browser_path (mg_config mg))) = true
  /\ browser_configs (mg_config mg) <> []
  /\ (mg_browser_type mg = browser_type \/ mg_browser_type mg = 0).
Proof.
  intros H.
  destruct (BrowserManager_init_some _ _ _ _ _ _ _ _ _ _ _ H)
    as [path [Hw [Ht [He [Hb Hc]]]]].
  rewrite Hc; cbn [browser_path browser_configs].
  split; [exact Hw|]; split; [exact Ht|]; split; [exact He|]; split.
  - destruct groups as [[|g rest]|]; discriminate.
  - destruct Hb as [[_ Hb]|[_ Hb]]; auto.
Qed.

Lemma BrowserManager_init_invariants_witness :
  browser_configs (mg_config (Startup.chrome_manager 3600 60 0)) <> []
  /\ (mg_browser_type (Startup.chrome_manager 3600 60 0) = 1
      \/ mg_browser_type (Startup.chrome_manager 3600 60 0) = 0).
Proof.
  refine (proj2 (proj2 (proj2 (BrowserManager_init_invariants
                   Startup.chrome_only 3600 80 85 None 60 false None None 1
                   (Startup.chrome_manager 3600 60 0) _)))).
  reflexivity.
Defined.

Lemma detect_edge_truthy mc :
  Str.truthy (detect_edge mc) = match detect_edge mc with Some _ => true | None => false end.
Proof.
  destruct (detect_edge mc) as [p|] eqn:E; [|reflexivity].
  exact (path_exists_truthy mc p (proj1 (detect_edge_found mc p E))).
Qed.

Lemma detect_chrome_truthy mc :
  Str.truthy (detect_chrome mc) = match detect_chrome mc with Some _ => true | None => false end.
Proof.
  destruct (detect_chrome mc) as [p|] eqn:E; [|reflexivity].
  exact (path_exists_truthy mc p (proj1 (detect_chrome_found mc p E))).
Qed.

Lemma detect_auto_truthy mc :
  Str.truthy (detect_auto mc) = match detect_auto mc with Some _ => true | None => false end.
Proof.
  destruct (detect_auto mc) as [p|] eqn:E; [|reflexivity].
  exact (path_exists_truthy mc p (proj1 (detect_auto_found mc p E))).
Qed.

Lemma BrowserManager_init_none
        mc restart max_cpu max_memory groups interval clean custom settings
        browser_type :
  BrowserManager_init mc restart max_cpu max_memory groups interval clean
                      custom settings browser_type = None
  <-> mc_win32 mc = false
      \/ (usable mc custom = false
          /\ detect_edge mc = None /\ detect_chrome mc = None).
Proof.
  unfold BrowserManager_init.
  destruct (mc_win32 mc); cbn [negb]; [|split; auto].
  destruct (usable mc custom) eqn:U.
  - rewrite !(usable_detected mc custom _ U).
    rewrite (usable_truthy mc custom U); cbn [negb andb].
    rewrite (usable_truthy mc custom U); cbn [negb].
    split; [discriminate | intros [H|[H _]]; discriminate H].
  - rewrite !(unusable_detected mc custom _ U); cbn [Z.eqb].
    pose proof (detect_edge_truthy mc) as Te.
    pose proof (detect_chrome_truthy mc) as Tc.
    unfold detect_auto.
    destruct (browser_type =? 1) eqn:E1;
      [|destruct (browser_type =? 2) eqn:E2];
      destruct (browser_type =? 0) eqn:E0;
      try (apply Z.eqb_eq in E0; subst browser_type; discriminate);
      destruct (detect_edge mc) as [e|]; destruct (detect_chrome mc) as [c|];
      change (Str.truthy None) with false in *;
      rewrite ?Te, ?Tc; cbn [negb andb]; rewrite ?Te, ?Tc;
      cbn [negb andb];
      (split;
       [ first [ discriminate | intros _; right; repeat split; reflexivity ]
       | first [ reflexivity
               | intros [H|[_ [H1 H2]]]; discriminate ] ]).
Qed.

(** X5.  The constructor gives up only off win32 or when no browser at all is
    found: neither a usable custom path, nor Edge, nor Chrome.  The browser
    type asked for plays no part in that. *)
Theorem BrowserManager_init_exits
        mc restart max_cpu max_memory groups interval clean custom settings
        browser_type :
  BrowserManager_init mc restart max_cpu max_memory groups interval clean
                      custom settings browser_type = None
  <-> mc_win32 mc = false
      \/ (usable mc custom = false
          /\ detect_edge mc = None /\ detect_chrome mc = None).
Proof.
  apply BrowserManager_init_none.
Qed.

(** X6.  The browser type asked for is honoured when detection finds it (or a
    usable custom path); otherwise the manager is built on the automatic
    detection and its browser type is reset to 0. *)
Theorem BrowserManager_init_fallback
        mc restart max_cpu max_memory groups interval clean custom settings
        browser_type mg :
  BrowserManager_init mc restart max_cpu max_memory groups interval clean
                      custom settings browser_type = Some mg ->
  (forall p, detect_browser_path mc custom browser_type = Some p ->
             browser_path (mg_config mg) = Some p
             /\ mg_browser_type mg = browser_type)
  /\ (detect_browser_path mc custom browser_type = None ->
      browser_path (mg_config mg) = detect_auto mc
      /\ mg_browser_type mg = 0).
Proof.
  unfold BrowserManager_init.
  destruct (mc_win32 mc); [|discriminate]; cbn [negb].
  rewrite (detected_truthy mc custom browser_type).
  destruct (detect_browser_path mc custom browser_type) as [q|] eqn:E;
    cbn [negb andb].
  - rewrite (path_exists_truthy mc q (detected_found mc custom browser_type q E));
      cbn [negb].
    intros H; injection H as <-; cbn [mg_config mg_browser_type browser_path].
    split; [intros p Hp; injection Hp as <-; auto | discriminate].
  - assert (U : usable mc custom = false).
    { destruct (usable mc custom) eqn:U; [|reflexivity].
      rewrite (usable_detected mc custom browser_type U) in E.
      apply usable_truthy in U; rewrite E in U; discriminate U. }
    destruct (browser_type =? 0) eqn:E0; cbn [negb].
    + discriminate.
    + destruct (Str.truthy (detect_browser_path mc custom 0)); [|discriminate].
      cbn [negb]; intros H; injection H as <-;
        cbn [mg_config mg_browser_type browser_path].
      split; [discriminate | intros _].
      rewrite (unusable_detected mc custom 0 U); auto.
Qed.

Lemma BrowserManager_init_fallback_witness :
  browser_path (mg_config (Startup.chrome_manager 3600 60 0))
  = detect_auto Startup.chrome_only
  /\ mg_browser_type (Startup.chrome_manager 3600 60 0) = 0.
Proof.
  refine (proj2 (BrowserManager_init_fallback
                   Startup.chrome_only 3600 80 85 None 60 false None None 1
                   (Startup.chrome_manager 3600 60 0) _) _);
    reflexivity.
Defined.

(** X7.  A custom path that exists is taken as it is, whatever browser type
    is asked for: the manager is built on it and keeps the type, and no
    test is made that the file is a browser of that type. *)
Theorem custom_path_wins
        mc restart max_cpu max_memory groups interval clean custom settings
        browser_type :
  mc_win32 mc = true ->
  usable mc custom = true ->
  exists mg,
    BrowserManager_init mc restart max_cpu max_memory groups interval clean
                        custom settings browser_type = Some mg
    /\ browser_path (mg_config mg) = custom
    /\ mg_browser_type mg = browser_type.
Proof.
  intros Hw U; unfold BrowserManager_init.
  rewrite Hw; cbn [negb].
  rewrite !(usable_detected mc custom _ U).
  rewrite (usable_truthy mc custom U); cbn [negb andb].
  rewrite (usable_truthy mc custom U); cbn [negb].
  eexists; split; [reflexivity|]; split; reflexivity.
Qed.

Lemma custom_path_wins_witness :
  exists mg,
    BrowserManager_init Startup.chrome_only 3600 80 85 None 60 false
                        (Some "C:\Program Files\Google\Chrome\Application\chrome.exe")
                        None 1
    = Some mg
    /\ browser_path (mg_config mg)
       = Some "C:\Program Files\Google\Chrome\Application\chrome.exe"
    /\ mg_browser_type mg = 1.
Proof.
  refine (custom_path_wins
            Startup.chrome_only 3600 80 85 None 60 false
            (Some "C:\Program Files\Google\Chrome\Application\chrome.exe")
            None 1 _ _);
    reflexivity.
Defined.

(** X8.  For a constructed manager the launch arguments of every URL are the
    browser path, [--new-window] and the URL: the configuration error of
    [create_browser_args] cannot occur. *)
Theorem constructed_manager_launch_args
        mc restart max_cpu max_memory groups interval clean custom settings
        browser_type mg url :
  BrowserManager_init mc restart max_cpu max_memory groups interval clean
                      custom settings browser_type = Some mg ->
  exists path,
    browser_path (mg_config mg) = Some path
    /\ create_browser_args (mg_config mg) url = inr [path; "--new-window"; url].
Proof.
  intros H.
  destruct (BrowserManager_init_some _ _ _ _ _ _ _ _ _ _ _ H)
    as [path [_ [Ht [_ [_ Hc]]]]].
  unfold create_browser_args; rewrite Hc; cbn [browser_path].
  rewrite Ht; cbn [negb].
  destruct path as [p|]; [|discriminate Ht].
  exists p; split; reflexivity.
Qed.

Lemma constructed_manager_launch_args_witness :
  exists path,
    browser_path (mg_config (Startup.chrome_manager 3600 60 2)) = Some path
    /\ create_browser_args (mg_config (Startup.chrome_manager 3600 60 2))
                           "https://www.acfun.cn"
       = inr [path; "--new-window"; "https://www.acfun.cn"].
Proof.
  refine (constructed_manager_launch_args
            Startup.chrome_only 3600 80 85 None 60 false None None 2
            (Startup.chrome_manager 3600 60 2) "https://www.acfun.cn" _).
  reflexivity.
Defined.

(** ** The settings of [main] *)

Lemma validate_in_range st : in_range (validate st).
Proof.
  unfold in_range, validate; cbn.
  unfold DEFAULT_RESTART_SECONDS, DEFAULT_MAX_CPU, DEFAULT_MAX_MEMORY,
    DEFAULT_MONITOR_INTERVAL.
  destruct (st_restart_seconds st <=? 0) eqn:E1;
    destruct (st_max_cpu st <=? 0) eqn:E2;
    destruct (100 <? st_max_cpu st) eqn:E3;
    destruct (st_max_memory st <=? 0) eqn:E4;
    destruct (100 <? st_max_memory st) eqn:E5;
    destruct (st_monitor_interval st <=? 0) eqn:E6; cbn [orb];
    rewrite ?Z.leb_gt, ?Z.ltb_ge in *; lia.
Qed.

Lemma validate_fixes st : in_range st -> validate st = st.
Proof.
  unfold in_range, validate; intros [H1 [[H2 H3] [[H4 H5] H6]]].
  replace (st_restart_seconds st <=? 0) with false by (symmetry; apply Z.leb_gt; lia).
  replace (st_max_cpu st <=? 0) with false by (symmetry; apply Z.leb_gt; lia).
  replace (100 <? st_max_cpu st) with false by (symmetry; apply Z.ltb_ge; lia).
  replace (st_max_memory st <=? 0) with false by (symmetry; apply Z.leb_gt; lia).
  replace (100 <? st_max_memory st) with false by (symmetry; apply Z.ltb_ge; lia).
  replace (st_monitor_interval st <=? 0) with false by (symmetry; apply Z.leb_gt; lia).
  destruct st; reflexivity.
Qed.

(** X9.  Whatever the command line and the file, the settings [main] builds
    the manager from pass its four checks: a positive restart interval and
    monitor interval, and both thresholds above 0 and at most 100; and
    settings that pass them already are left exactly as they are. *)
Theorem main_settings_in_range args source :
  in_range (main_settings args source)
  /\ (forall st, in_range st -> validate st = st)
  /\ validate (main_settings args source) = main_settings args source.
Proof.
  split; [apply validate_in_range|]; split; [apply validate_fixes|].
  apply validate_fixes, validate_in_range.
Qed.

(** X10.  On a first run, where the file is missing and the default one is
    written, the numbers and the cache flag of the command line are
    ignored: the settings are those of the default file, and only the
    browser path of the command line is kept. *)
Theorem main_first_run_ignores_command_line args :
  main_settings args (Missing true)
  = mkSettings 3600 80 85 60 false (arg_browser_path args) 0
               (Some [builtin_group])
               (Some (mkWindowSettings (Some 120) (Some 75))).
Proof. reflexivity. Qed.

(** X11.  Every manager [main] constructs is well formed: positive restart and
    monitor intervals, thresholds above 0 and at most 100, a browser path
    that exists and at least one group. *)
Theorem main_manager_well_formed mc args source mg :
  main_manager mc args source = Some mg ->
  let cfg := mg_config mg in
  0 < restart_seconds cfg
  /\ (0 < max_cpu_percent cfg /\ max_cpu_percent cfg <= 100 # 1)%Q
  /\ (0 < max_memory_percent cfg /\ max_memory_percent cfg <= 100 # 1)%Q
  /\ 0 < monitor_interval cfg
  /\ Str.truthy (browser_path cfg) = true
  /\ browser_configs cfg <> [].
Proof.
  intros H cfg; unfold main_manager in H.
  destruct (BrowserManager_init_some _ _ _ _ _ _ _ _ _ _ _ H)
    as [path [_ [Ht [_ [_ Hc]]]]].
  destruct (validate_in_range
              match source with
              | Missing true => read_config args default_config
              | Missing false => initial_settings args
              | Unreadable => initial_settings args
              | Loaded config => read_config args config
              end) as [H1 [[H2 H3] [[H4 H5] H6]]].
  fold (main_settings args source) in H1, H2, H3, H4, H5, H6.
  subst cfg; rewrite Hc;
    cbn [restart_seconds max_cpu_percent max_memory_percent monitor_interval
         browser_path browser_configs].
  repeat split; try assumption;
    try (unfold Qlt, Qle, inject_Z; cbn [Qnum Qden]; lia).
  destruct (st_browser_configs (main_settings args source)) as [[|g rest]|];
    discriminate.
Qed.

Lemma main_manager_well_formed_witness :
  0 < restart_seconds (mg_config (Startup.chrome_manager 1800 120 0)).
Proof.
  refine (proj1 (main_manager_well_formed
                   Startup.chrome_only default_args (Loaded Startup.three_ways)
                   (Startup.chrome_manager 1800 120 0) _)).
  reflexivity.
Defined.
(** * Frames: what the methods leave alone *)

Lemma Keeps_bind {X A B : Type} (f : Runtime -> X) (p : Prog A) (k : A -> Prog B) :
  Keeps f p -> (forall a, Keeps f (k a)) -> Keeps f (bind p k).
Proof.
  intros H Hk; induction H; cbn [bind]; try (constructor; auto); auto.
Qed.

Lemma Keeps_run_seq {X A : Type} (f : Runtime -> X) (p : Prog A) :
  Keeps f p -> forall t s, f (rt (run_seq p t s)) = f s.
Proof.
  intros H; induction H as [a|k H IH|g k Hg H IH|k H IH|e k H IH|d k H IH];
    intros t s; cbn [run_seq logged rt]; auto.
  rewrite IH; apply Hg.
Qed.

Lemma Keeps_resume {X : Type} (f : Runtime -> X) (p : Prog unit) :
  Keeps f p ->
  forall t s,
    f (sl_rt (resume p t s)) = f s
    /\ match sl_next (resume p t s) with
       | Some (_, k) => Keeps f k
       | None => True
       end.
Proof.
  intros H; induction H as [a|k H IH|g k Hg H IH|k H IH|e k H IH|d k H IH];
    intros t s; cbn [resume sl_rt sl_next]; auto.
  destruct (IH t (g s)) as [E K]; split; [rewrite E; apply Hg | exact K].
Qed.

Lemma pool_keeps_nth {X : Type} (f : Runtime -> X) (threads : list Thread) i w p :
  pool_keeps f threads -> nth i threads None = Some (w, p) -> Keeps f p.
Proof.
  intros H; revert i; induction H as [|th rest Hth H IH]; intros [|i] E;
    cbn [nth] in E; try discriminate E.
  - subst th; exact Hth.
  - exact (IH i E).
Qed.

Lemma pool_keeps_set_nth {X : Type} (f : Runtime -> X) (threads : list Thread) i th :
  pool_keeps f threads ->
  match th with Some (_, p) => Keeps f p | None => True end ->
  pool_keeps f (set_nth i th threads).
Proof.
  intros H Hth; revert i; induction H as [|th' rest Hth' H IH]; intros [|i];
    cbn [set_nth]; constructor; auto.
  apply IH.
Qed.

Lemma pool_step_keeps {X : Type} (f : Runtime -> X) st st' :
  pool_keeps f (ps_threads st) ->
  pool_step st = Some st' ->
  f (ps_rt st') = f (ps_rt st) /\ pool_keeps f (ps_threads st').
Proof.
  unfold pool_step; intros H.
  destruct (earliest (ps_threads st)) as [[i w]|]; [|discriminate].
  destruct (nth i (ps_threads st) None) as [[w' p]|] eqn:E; [|discriminate].
  intros Hst; injection Hst as <-; cbn [ps_rt ps_threads].
  destruct (Keeps_resume f p (pool_keeps_nth f _ i w' p H E) w (ps_rt st))
    as [Hf Hk].
  split; [exact Hf | apply pool_keeps_set_nth; assumption].
Qed.

Lemma run_pool_keeps {X : Type} (f : Runtime -> X) fuel : forall st,
  pool_keeps f (ps_threads st) ->
  f (ps_rt (run_pool fuel st)) = f (ps_rt st).
Proof.
  induction fuel as [|n IH]; intros st H; cbn [run_pool]; [reflexivity|].
  destruct (pool_step st) as [st'|] eqn:E; [|reflexivity].
  destruct (pool_step_keeps f st st' H E) as [Hf Hk].
  rewrite (IH st' Hk); exact Hf.
Qed.

Ltac keeps :=
  repeat match goal with
         | |- Keeps _ (Ret _) => apply Keeps_Ret
         | |- Keeps _ (Emit _ _) => apply Keeps_Emit
         | |- Keeps _ (Sleep _ _) => apply Keeps_Sleep
         | |- Keeps _ (Modify _ _) =>
             apply Keeps_Modify; [intros; cbv beta; solve [auto]|]
         | |- Keeps _ (Get _) => apply Keeps_Get; intros
         | |- Keeps _ (Now _) => apply Keeps_Now; intros
         | |- Keeps _ (emit _) => unfold emit
         | |- Keeps _ (sleep _) => unfold sleep
         | |- Keeps _ (modify _) => unfold modify
         | |- Keeps _ _ => assumption
         end.

(** The locator, the layout and the dump write the window records only. *)
Section LocateFrame.

Variable X : Type.
Variable f : Runtime -> X.
Variable cfg : Config.
Variable os : OS.

Hypothesis Hprofiles : forall l s, f (set_profiles l s) = f s.

Lemma Keeps_locate_loop remaining : forall attempt required found_windows,
  Keeps f (locate_loop os remaining attempt required found_windows).
Proof.
  induction remaining as [|n IH]; intros attempt required found_windows;
    cbn [locate_loop]; psimpl; keeps.
  destruct (_ <=? _)%nat; psimpl; keeps; apply IH.
Qed.

Lemma Keeps_layout_loop profile_idx found_windows started_processes count :
  forall idx,
    Keeps f (layout_loop cfg os profile_idx found_windows started_processes
                         idx count).
Proof.
  induction count as [|n IH]; intros idx; cbn [layout_loop]; [keeps|].
  destruct (nth_error found_windows idx) as [[[hwnd class_name] pid]|];
    [|keeps].
  destruct (nth_error started_processes idx) as [[[window_idx process] url]|];
    [|keeps].
  psimpl; keeps.
  destruct (os_SetWindowPos_ok os t hwnd); psimpl; keeps; apply IH.
Qed.

Lemma Keeps_log_dump entries : Keeps f (log_dump entries).
Proof.
  induction entries as [|[[[hwnd class_name] pid] title] rest IH];
    cbn [log_dump]; psimpl; keeps.
Qed.

Lemma Keeps_dump_browser_windows : Keeps f (dump_browser_windows os).
Proof.
  unfold dump_browser_windows; psimpl; keeps; apply Keeps_log_dump.
Qed.

Lemma Keeps_locate_and_layout profile_idx started_processes :
  Keeps f (locate_and_layout cfg os profile_idx started_processes).
Proof.
  unfold locate_and_layout.
  destruct (os_win32gui os); psimpl; keeps.
  apply Keeps_bind; [apply Keeps_locate_loop|]; intros found_windows.
  apply Keeps_bind.
  - destruct (_ <=? _)%nat; psimpl; keeps; apply Keeps_layout_loop.
  - intros [|]; keeps; apply Keeps_dump_browser_windows.
Qed.

End LocateFrame.

(** Launching a group, stopping the fleet and reconciling write the
    process handles and the window records only. *)
Section FleetFrame.

Variable X : Type.
Variable f : Runtime -> X.
Variable cfg : Config.
Variable os : OS.

Hypothesis Hprocesses : forall l s, f (set_processes l s) = f s.
Hypothesis Hprofiles : forall l s, f (set_profiles l s) = f s.

Lemma Keeps_spawn_loop urls : forall window_idx started_processes,
  Keeps f (spawn_loop cfg os window_idx urls started_processes).
Proof.
  induction urls as [|url rest IH]; intros window_idx started_processes;
    cbn [spawn_loop]; [keeps|].
  destruct (create_browser_args cfg url) as [e|args]; psimpl; keeps;
    [apply IH|].
  destruct (os_popen os t args); psimpl; keeps; apply IH.
Qed.

Lemma Keeps_open_urls_in_tabs profile_idx urls :
  Keeps f (open_urls_in_tabs cfg os profile_idx urls).
Proof.
  unfold open_urls_in_tabs.
  destruct (null urls); psimpl; keeps.
  apply Keeps_bind; [apply Keeps_spawn_loop|]; intros started_processes.
  psimpl; keeps; apply Keeps_locate_and_layout; exact Hprofiles.
Qed.

Lemma Keeps_open_groups configs : forall idx,
  Keeps f (open_groups cfg os idx configs).
Proof.
  induction configs as [|config rest IH]; intros idx; cbn [open_groups];
    psimpl; keeps.
  apply Keeps_bind; [apply Keeps_open_urls_in_tabs|]; intros _.
  psimpl; keeps; apply IH.
Qed.

Lemma Keeps_cleanup_loop procs : Keeps f (cleanup_loop cfg os procs).
Proof.
  induction procs as [|proc rest IH]; cbn [cleanup_loop]; [keeps|].
  apply Keeps_bind; [|intros _; exact IH].
  destruct (to_terminate cfg os proc); psimpl; keeps.
  destruct (os_terminate_ok os t (pi_pid proc)); psimpl; keeps.
Qed.

Lemma Keeps_stop_all_browsers : Keeps f (stop_all_browsers cfg os).
Proof.
  unfold stop_all_browsers, cleanup_chrome_processes; psimpl; keeps.
  apply Keeps_bind; [|intros _; psimpl; keeps].
  destruct (negb _); psimpl; keeps; apply Keeps_cleanup_loop.
Qed.

Lemma Keeps_check_browser_processes : Keeps f (check_browser_processes cfg os).
Proof.
  unfold check_browser_processes.
  destruct (negb _); psimpl; keeps.
  destruct (negb _); psimpl; keeps.
  destruct (null _); psimpl; keeps.
Qed.

End FleetFrame.

(** Every method run by the two threads writes the process handles, the
    window records and the start time only. *)
Section ThreadFrame.

Variable X : Type.
Variable f : Runtime -> X.
Variable cfg : Config.
Variable os : OS.

Hypothesis Hprocesses : forall l s, f (set_processes l s) = f s.
Hypothesis Hprofiles : forall l s, f (set_profiles l s) = f s.
Hypothesis Hstart : forall t s, f (set_last_start_time t s) = f s.

Lemma Keeps_start_all_browsers : Keeps f (start_all_browsers cfg os).
Proof.
  unfold start_all_browsers; psimpl; keeps.
  apply Keeps_open_groups; assumption.
Qed.

Lemma Keeps_force_restart reason : Keeps f (force_restart cfg os reason).
Proof.
  unfold force_restart; psimpl; keeps.
  apply Keeps_bind; [apply Keeps_stop_all_browsers; assumption|]; intros _.
  psimpl; keeps; apply Keeps_start_all_browsers.
Qed.

Lemma Keeps_health_check : Keeps f (health_check cfg os).
Proof.
  unfold health_check.
  apply Keeps_bind; [apply Keeps_check_browser_processes; assumption|]; intros _.
  psimpl; keeps.
  destruct (_ && _); psimpl; keeps.
  apply Keeps_bind; [apply Keeps_stop_all_browsers; assumption|]; intros _.
  psimpl; keeps; apply Keeps_start_all_browsers.
Qed.

Lemma Keeps_check_thresholds cpu mem : Keeps f (check_thresholds cfg os cpu mem).
Proof.
  unfold check_thresholds; psimpl; keeps.
  apply Keeps_bind.
  - destruct (last_start_time s) as [started|]; [|keeps].
    destruct (_ <? _); psimpl; keeps.
  - intros protected; apply Keeps_bind.
    + destruct (_ && _); psimpl; keeps; apply Keeps_force_restart.
    + intros _; destruct (Qgtb _ _); psimpl; keeps; apply Keeps_force_restart.
Qed.

Lemma Keeps_monitor_tick : Keeps f (monitor_tick cfg os).
Proof.
  unfold monitor_tick; psimpl; keeps.
  apply Keeps_bind; [apply Keeps_check_thresholds|]; intros _.
  apply Keeps_bind; [apply Keeps_health_check|]; intros _.
  destruct (sleep_accepts os (monitor_interval cfg)); psimpl; keeps.
Qed.

Lemma Keeps_monitor_resources fuel : Keeps f (monitor_resources cfg os fuel).
Proof.
  induction fuel as [|n IH]; cbn [monitor_resources]; psimpl; keeps.
  destruct (is_running s); [|keeps].
  apply Keeps_bind; [apply Keeps_monitor_tick|].
  intros [|]; [exact IH | keeps].
Qed.

Lemma Keeps_scheduled_loop fuel : forall next_restart,
  Keeps f (scheduled_loop cfg os fuel next_restart).
Proof.
  induction fuel as [|n IH]; intros next_restart; cbn [scheduled_loop];
    psimpl; keeps.
  destruct (is_running s); psimpl; keeps.
  destruct (_ <=? _); psimpl; keeps; [|apply IH].
  apply Keeps_bind.
  - apply Keeps_bind; [apply Keeps_force_restart|]; intros _; psimpl; keeps.
    destruct (next_deadline cfg t0); psimpl; keeps.
  - intros [next|]; psimpl; keeps; apply IH.
Qed.

Lemma Keeps_scheduled_restart fuel : Keeps f (scheduled_restart cfg os fuel).
Proof.
  unfold scheduled_restart; psimpl; keeps.
  destruct (next_deadline cfg t); psimpl; keeps; apply Keeps_scheduled_loop.
Qed.

End ThreadFrame.

(** X12.  Nothing the two threads run writes [is_running]: once [run] has set
    it, it stays set however long the pool runs, and neither the monitor
    loop nor the restart loop changes it, so neither loop ever leaves by
    its own test. *)
Theorem run_never_clears_is_running (cfg : Config) (os : OS) (fuel : nat) (t0 : Z) :
  is_running (ps_rt (run cfg os fuel t0)) = true
  /\ (forall t s,
         is_running (rt (run_seq (monitor_resources cfg os fuel) t s))
         = is_running s)
  /\ (forall t s,
         is_running (rt (run_seq (scheduled_restart cfg os fuel) t s))
         = is_running s).
Proof.
  assert (Km : Keeps is_running (monitor_resources cfg os fuel))
    by (apply Keeps_monitor_resources; reflexivity).
  assert (Ks : Keeps is_running (scheduled_restart cfg os fuel))
    by (apply Keeps_scheduled_restart; reflexivity).
  split; [|split; intros t s; apply Keeps_run_seq; assumption].
  unfold run; rewrite run_pool_keeps; cbn [ps_rt ps_threads].
  - unfold run_startup; prog_simpl.
    rewrite (Keeps_run_seq is_running (start_all_browsers cfg os)
               (Keeps_start_all_browsers _ is_running cfg os
                  (fun _ _ => eq_refl) (fun _ _ => eq_refl) (fun _ _ => eq_refl))).
    reflexivity.
  - apply Forall_cons; [exact Km|]; apply Forall_cons; [exact Ks|].
    apply Forall_nil.
Qed.
(** * Launch: what a start leaves behind *)

Lemma started_pids_app (tr tr' : Trace) :
  started_pids (tr ++ tr') = started_pids tr ++ started_pids tr'.
Proof.
  induction tr as [|[t e] tr IH]; [reflexivity|].
  destruct e; cbn [app started_pids]; rewrite ?IH; reflexivity.
Qed.

Lemma started_pids_none (tr : Trace) :
  (count is_window_started tr <= 0)%nat -> started_pids tr = [].
Proof.
  induction tr as [|[t e] tr IH]; [reflexivity|].
  rewrite count_cons; destruct e; cbn [snd is_window_started started_pids];
    intros H; try (apply IH; lia); lia.
Qed.

Section LaunchEffect.

Variable cfg : Config.
Variable os : OS.

(** The handles added by the spawning loop are those of the processes it
    logs as started. *)
Lemma spawn_loop_tracks urls : forall window_idx started t s,
  browser_processes (rt (run_seq (spawn_loop cfg os window_idx urls started) t s))
  = browser_processes s
    ++ map Popen (started_pids
                    (out (run_seq (spawn_loop cfg os window_idx urls started) t s))).
Proof.
  induction urls as [|url rest IH]; intros window_idx started t s;
    cbn [spawn_loop].
  - prog_simpl; cbn [started_pids map]; rewrite app_nil_r; reflexivity.
  - destruct (create_browser_args cfg url) as [e|args]; prog_simpl;
      cbn [started_pids]; [apply IH|].
    destruct (os_popen os t args); prog_simpl; cbn [started_pids];
      try apply IH.
    rewrite IH; cbn [browser_processes set_processes map].
    rewrite <- app_assoc; reflexivity.
Qed.

Lemma locate_and_layout_starts_nothing profile_idx started t s :
  started_pids (out (run_seq (locate_and_layout cfg os profile_idx started) t s))
  = [].
Proof.
  apply started_pids_none.
  eapply Nat.le_trans; [|apply (Nat.eq_le_incl _ _ (Nat.mul_0_l max_attempts))].
  apply Costs_run_seq, Costs_locate_and_layout.
  - intros [] E; (discriminate E || reflexivity).
  - apply Nat.le_refl.
Qed.

Lemma open_urls_in_tabs_tracks profile_idx urls t s :
  browser_processes (rt (run_seq (open_urls_in_tabs cfg os profile_idx urls) t s))
  = browser_processes s
    ++ map Popen (started_pids
                    (out (run_seq (open_urls_in_tabs cfg os profile_idx urls) t s))).
Proof.
  destruct urls as [|u us].
  - unfold open_urls_in_tabs; cbn [null]; prog_simpl; cbn [started_pids map].
    rewrite app_nil_r; reflexivity.
  - rewrite (open_urls_in_tabs_out cfg os profile_idx (u :: us) t s);
      [|discriminate].
    cbv zeta; cbn [rt out started_pids].
    rewrite started_pids_app; cbn [started_pids].
    rewrite locate_and_layout_starts_nothing, app_nil_r.
    rewrite (Keeps_run_seq browser_processes _
               (Keeps_locate_and_layout _ browser_processes cfg os
                  (fun _ _ => eq_refl) profile_idx _)).
    apply spawn_loop_tracks.
Qed.

Lemma open_urls_in_tabs_nonneg profile_idx urls :
  Costs (indicator is_negative_sleep)
        (open_urls_in_tabs cfg os profile_idx urls) 0.
Proof.
  eapply Costs_mono;
    [apply Costs_open_urls_in_tabs with (c := 0%nat) | simpl; lia];
    try (intros [] E; (discriminate E || reflexivity)); apply Nat.le_refl.
Qed.

Lemma open_groups_tracks configs : forall idx t s,
  let r := run_seq (open_groups cfg os idx configs) t s in
  browser_processes (rt r)
  = browser_processes s ++ map Popen (started_pids (out r))
  /\ t + Z.of_nat (List.length configs) * START_DELAY <= clock r.
Proof.
  induction configs as [|config rest IH]; intros idx t s; cbv zeta;
    cbn [open_groups].
  - prog_simpl; cbn [started_pids map List.length]; rewrite app_nil_r.
    split; [reflexivity | lia].
  - prog_simpl; rewrite run_seq_bind; prog_simpl; cbn [started_pids].
    rewrite started_pids_app; cbn [started_pids].
    set (o := run_seq (open_urls_in_tabs cfg os (S idx) (g_urls config)) t s).
    destruct (IH (S idx) (clock o + START_DELAY) (rt o)) as [Hp Hc].
    split.
    + rewrite Hp; unfold o; rewrite open_urls_in_tabs_tracks.
      rewrite map_app, app_assoc; reflexivity.
    + destruct (run_seq_monotone _ (open_urls_in_tabs_nonneg (S idx) (g_urls config))
                                 t s) as [Ho _].
      fold o in Ho; cbn [List.length]; lia.
Qed.

Lemma start_all_browsers_run t s :
  let r := run_seq (start_all_browsers cfg os) t s in
  last_start_time (rt r) = Some t
  /\ is_running (rt r) = is_running s
  /\ browser_processes (rt r) = map Popen (started_pids (out r))
  /\ t + Z.of_nat (List.length (browser_configs cfg)) * START_DELAY <= clock r.
Proof.
  cbv zeta; unfold start_all_browsers; prog_simpl; cbn [started_pids].
  set (s0 := set_profiles [] (set_processes [] (set_last_start_time t s))).
  destruct (open_groups_tracks (browser_configs cfg) 0%nat t s0) as [Hp Hc].
  split; [|split; [|split; [exact Hp | exact Hc]]].
  - rewrite (Keeps_run_seq last_start_time _
               (Keeps_open_groups _ last_start_time cfg os
                  (fun _ _ => eq_refl) (fun _ _ => eq_refl) _ 0%nat)).
    reflexivity.
  - rewrite (Keeps_run_seq is_running _
               (Keeps_open_groups _ is_running cfg os
                  (fun _ _ => eq_refl) (fun _ _ => eq_refl) _ 0%nat)).
    reflexivity.
Qed.

End LaunchEffect.

(** X13.  The spawning loop makes one spawn attempt for every URL when the
    browser path is set, whatever attempts fail; the records it returns
    extend those it was given by one record per process started, each with
    the position of its URL in the list as window index; the handles of
    exactly these processes are appended to the tracked processes; and the
    loop lasts one inter-launch delay per process started, none for a
    failed attempt. *)
Theorem spawn_loop_effect
        (cfg : Config) (os : OS) (urls : list string) (window_idx : nat)
        (started : list Started) (t : Z) (s : Runtime) :
  let r := run_seq (spawn_loop cfg os window_idx urls started) t s in
  exists launched,
    val r = started ++ launched
    /\ browser_processes (rt r) = browser_processes s ++ map handle_of launched
    /\ started_pids (out r) = map (fun sp => snd (fst sp)) launched
    /\ clock r = t + Z.of_nat (List.length launched) * START_DELAY
    /\ (List.length launched <= List.length urls)%nat
    /\ Forall (fun sp => exists k,
                   fst (fst sp) = (window_idx + k)%nat
                   /\ nth_error urls k = Some (snd sp)) launched
    /\ count is_popen (out r)
       = if Str.truthy (browser_path cfg) then List.length urls else 0%nat.
Proof.
  cbv zeta; revert window_idx started t s.
  assert (Hshift : forall url rest window_idx launched,
    Forall (fun sp : Started => exists k,
                fst (fst sp) = (S window_idx + k)%nat
                /\ nth_error rest k = Some (snd sp)) launched ->
    Forall (fun sp : Started => exists k,
                fst (fst sp) = (window_idx + k)%nat
                /\ nth_error (url :: rest) k = Some (snd sp)) launched).
  { intros url rest window_idx launched H.
    eapply Forall_impl; [|exact H].
    intros sp [k [Hk Hn]]; exists (S k); split; [lia | exact Hn]. }
  destruct (Str.truthy (browser_path cfg)) eqn:Hp.
  - induction urls as [|url rest IH]; intros window_idx started t s;
      cbn [spawn_loop].
    + exists []; prog_simpl; cbn [map List.length started_pids].
      rewrite !app_nil_r.
      repeat split; try reflexivity; try lia; constructor.
    + unfold create_browser_args; rewrite Hp; cbn [negb].
      prog_simpl; cbn [started_pids].
      rewrite !count_cons; cbn [snd is_popen].
      destruct (os_popen os t _) as [pid| |] eqn:Eo; prog_simpl;
        cbn [started_pids]; rewrite ?count_cons; cbn [snd is_popen].
      * destruct (IH (S window_idx) (started ++ [(window_idx, pid, url)])
                     (t + START_DELAY)
                     (set_processes (browser_processes s ++ [Popen pid]) s))
          as [launched [Hv [Hb [Hs [Hc [Hl [Hf Hn]]]]]]].
        exists ((window_idx, pid, url) :: launched).
        rewrite Hv, Hb, Hs, Hc, Hn.
        cbn [browser_processes set_processes map List.length handle_of fst snd].
        rewrite <- !app_assoc; cbn [app].
        repeat split; try reflexivity; try lia.
        constructor; [|apply Hshift; exact Hf].
        exists 0%nat; split; [cbn [fst]; lia | reflexivity].
      * destruct (IH (S window_idx) started t s)
          as [launched [Hv [Hb [Hs [Hc [Hl [Hf Hn]]]]]]].
        exists launched; rewrite Hv, Hb, Hs, Hc, Hn; cbn [List.length].
        repeat split; try reflexivity; try lia.
        apply Hshift; exact Hf.
      * destruct (IH (S window_idx) started t s)
          as [launched [Hv [Hb [Hs [Hc [Hl [Hf Hn]]]]]]].
        exists launched; rewrite Hv, Hb, Hs, Hc, Hn; cbn [List.length].
        repeat split; try reflexivity; try lia.
        apply Hshift; exact Hf.
  - intros window_idx started t s.
    rewrite (spawn_loop_no_path cfg os urls Hp window_idx started t s).
    exists []; cbn [val rt clock out map List.length].
    rewrite !app_nil_r.
    assert (Hq : forall l, started_pids (at_time t (map LogPathMissing l)) = []
                           /\ count is_popen (at_time t (map LogPathMissing l))
                              = 0%nat).
    { induction l as [|u l [IH1 IH2]]; [split; reflexivity|].
      cbn [map at_time started_pids]; rewrite count_cons; cbn [snd is_popen].
      split; [exact IH1 | exact IH2]. }
    destruct (Hq urls) as [-> ->].
    repeat split; try reflexivity; try lia; constructor.
Qed.

(** X14.  A start of the fleet records the time it began, not the time it
    ended, as the start time; it leaves the running flag alone; the
    processes tracked when it returns are exactly those it logged as
    started, in order; and it lasts at least one inter-launch delay per
    group, even for a group whose URL list is empty. *)
Theorem start_all_browsers_effect
        (cfg : Config) (os : OS) (t : Z) (s : Runtime) :
  let r := run_seq (start_all_browsers cfg os) t s in
  last_start_time (rt r) = Some t
  /\ is_running (rt r) = is_running s
  /\ browser_processes (rt r) = map Popen (started_pids (out r))
  /\ t + Z.of_nat (List.length (browser_configs cfg)) * START_DELAY <= clock r.
Proof. exact (start_all_browsers_run cfg os t s). Qed.

(** X15.  A forced restart leaves the start time alone while it stops the
    fleet and settles, and sets it when its relaunch begins, fifteen
    seconds after the request, not when the relaunch ends.  So on the
    state the restart leaves when it returns, a comparison made at time
    [t'] is protected exactly when [t'] is less than 105 s after the
    request, however long the relaunch took, and it asks for a CPU restart
    exactly when it is not protected and the sample is over the
    threshold. *)
Theorem force_restart_rearms_protection
        (cfg : Config) (os : OS) (reason : Reason) (t : Z) (s : Runtime)
        (cpu mem : Q) (t' : Z) :
  let stopped := run_seq (stop_all_browsers cfg os) t s in
  let r := run_seq (force_restart cfg os reason) t s in
  last_start_time (rt stopped) = last_start_time s
  /\ last_start_time (rt r) = Some (t + STOP_DELAY)
  /\ t + STOP_DELAY <= clock r
  /\ in_startup_protection t' (rt r)
     = (t' <? t + STOP_DELAY + STARTUP_PROTECTION_PERIOD)
  /\ (In CpuTooHigh
         (restart_reasons
            (out (run_seq (check_thresholds cfg os cpu mem) t' (rt r))))
      <-> t + STOP_DELAY + STARTUP_PROTECTION_PERIOD <= t'
          /\ (max_cpu_percent cfg < cpu)%Q).
Proof.
  cbv zeta.
  assert (Hl : last_start_time (rt (run_seq (force_restart cfg os reason) t s))
               = Some (t + STOP_DELAY)).
  { unfold force_restart; prog_simpl.
    rewrite rt_bind; prog_simpl.
    destruct (stop_all_browsers_run cfg os t s) as [_ ->].
    apply (start_all_browsers_run cfg os). }
  assert (Hp : forall x,
             in_startup_protection x (rt (run_seq (force_restart cfg os reason) t s))
             = (x <? t + STOP_DELAY + STARTUP_PROTECTION_PERIOD)).
  { intros x; unfold in_startup_protection; rewrite Hl.
    destruct (x <? t + STOP_DELAY + STARTUP_PROTECTION_PERIOD) eqn:E.
    - apply Z.ltb_lt; apply Z.ltb_lt in E; lia.
    - apply Z.ltb_ge; apply Z.ltb_ge in E; lia. }
  split; [|split; [exact Hl|split; [apply force_restart_duration|split; [apply Hp|]]]].
  - destruct (stop_all_browsers_run cfg os t s) as [-> _]; reflexivity.
  - rewrite check_thresholds_reasons, Hp.
    destruct (t' <? t + STOP_DELAY + STARTUP_PROTECTION_PERIOD) eqn:E;
      cbn [negb andb app].
    + apply Z.ltb_lt in E.
      split; [|intros [H _]; lia].
      destruct (Qgtb mem _); cbn [In]; intros H;
        [destruct H as [H|H]; [discriminate H | contradiction] | contradiction].
    + apply Z.ltb_ge in E.
      destruct (Qgtb cpu (max_cpu_percent cfg)) eqn:Ec.
      * split; [intros _; split; [exact E | apply Qgtb_lt; exact Ec]|].
        intros _; left; reflexivity.
      * split.
        -- destruct (Qgtb mem _); cbn [In app]; intros H;
             [destruct H as [H|H]; [discriminate H | contradiction]
             | contradiction].
        -- intros [_ H]; apply Qgtb_lt in H; rewrite H in Ec; discriminate Ec.
Qed.

Lemma layout_loop_records
      (cfg : Config) (os : OS) (profile_idx : nat) (found_windows : list Found)
      (started_processes : list Started) (t : Z) (count : nat) :
  forall idx s,
    (idx + count <= List.length found_windows)%nat ->
    (idx + count <= List.length started_processes)%nat ->
    browser_profiles
      (rt (run_seq (layout_loop cfg os profile_idx found_windows
                                started_processes idx count) t s))
    = browser_profiles s
      ++ map (placed_profile profile_idx found_windows started_processes t)
             (seq idx (placed (os_SetWindowPos_ok os t)
                              (map (hwnd_at found_windows) (seq idx count)))).
Proof.
  induction count as [|n IH]; intros idx s Hf Hs; cbn [layout_loop seq map placed].
  - prog_simpl; rewrite app_nil_r; reflexivity.
  - destruct (nth_error found_windows idx) as [[[hwnd cl] pid]|] eqn:Ef;
      [|apply nth_error_None in Ef; lia].
    destruct (nth_error started_processes idx) as [[[wi p] url]|] eqn:Es;
      [|apply nth_error_None in Es; lia].
    assert (Hh : hwnd_at found_windows idx = hwnd).
    { unfold hwnd_at; rewrite (nth_error_nth _ _ _ Ef); reflexivity. }
    rewrite Hh; prog_simpl.
    destruct (os_SetWindowPos_ok os t hwnd) eqn:Eok; prog_simpl.
    + rewrite IH by lia.
      cbn [browser_profiles set_profiles seq map].
      rewrite <- app_assoc; cbn [app].
      unfold placed_profile at 2.
      rewrite Hh, (nth_error_nth _ _ _ Ef), (nth_error_nth _ _ _ Es).
      reflexivity.
    + cbn [seq map]; rewrite app_nil_r; reflexivity.
Qed.

(** X16.  The layout records one window for every call that succeeds before the
    first one that fails, and writes nothing else.  The record at index
    [idx] pairs by position: it holds the handle and the owner of the
    window found at [idx] and the URL of the process started at [idx],
    whether or not that process owns that window. *)
Theorem layout_records_by_position
        (cfg : Config) (os : OS) (profile_idx : nat)
        (found_windows : list Found) (started_processes : list Started)
        (t : Z) (s : Runtime) :
  (List.length started_processes <= List.length found_windows)%nat ->
  let required := List.length started_processes in
  let r := run_seq (layout_loop cfg os profile_idx found_windows
                                started_processes 0 required) t s in
  let hwnds := map (hwnd_at found_windows) (seq 0 required) in
  browser_profiles (rt r)
  = browser_profiles s
    ++ map (placed_profile profile_idx found_windows started_processes t)
           (seq 0 (placed (os_SetWindowPos_ok os t) hwnds))
  /\ browser_processes (rt r) = browser_processes s
  /\ last_start_time (rt r) = last_start_time s
  /\ (forall idx hwnd class_name pid window_idx process url,
         nth_error found_windows idx = Some (hwnd, class_name, pid) ->
         nth_error started_processes idx = Some (window_idx, process, url) ->
         placed_profile profile_idx found_windows started_processes t idx
         = mkProfile pid hwnd idx profile_idx url t).
Proof.
  intros Hlen; cbv zeta.
  split; [apply layout_loop_records; cbn [Nat.add]; [exact Hlen | apply Nat.le_refl]|].
  split; [|split].
  - apply (Keeps_run_seq browser_processes).
    apply Keeps_layout_loop; reflexivity.
  - apply (Keeps_run_seq last_start_time).
    apply Keeps_layout_loop; reflexivity.
  - intros idx hwnd class_name pid window_idx process url Ef Es.
    unfold placed_profile, hwnd_at.
    rewrite (nth_error_nth _ _ _ Ef), (nth_error_nth _ _ _ Es); reflexivity.
Qed.

Lemma layout_records_by_position_witness :
  browser_profiles
    (rt (run_seq (layout_loop (Scenario.config 3600 (Some Scenario.chrome_path))
                              Scenario.stuck_host 1
                              [(1, "Chrome_WidgetWin_1", 1001);
                               (2, "Chrome_WidgetWin_1", 1002)]
                              [(0%nat, 2000, "https://a.example");
                               (1%nat, 2003, "https://b.example")]
                              0 2)
                 0 initial_runtime))
  = [mkProfile 1001 1 0 1 "https://a.example" 0].
Proof.
  refine (proj1 (layout_records_by_position
                   (Scenario.config 3600 (Some Scenario.chrome_path))
                   Scenario.stuck_host 1
                   [(1, "Chrome_WidgetWin_1", 1001);
                    (2, "Chrome_WidgetWin_1", 1002)]
                   [(0%nat, 2000, "https://a.example");
                    (1%nat, 2003, "https://b.example")]
                   0 initial_runtime _)).
  cbn [List.length]; lia.
Defined.
(** * Monitor: what a tick costs and when it relaunches *)

Section TickDuration.

Variable cfg : Config.
Variable os : OS.

Lemma health_check_nonneg :
  Costs (indicator is_negative_sleep) (health_check cfg os) 0.
Proof.
  eapply Costs_mono;
    [apply Costs_health_check with (c := 0%nat) | simpl; lia];
    try (intros [] E; (discriminate E || reflexivity)); apply Nat.le_refl.
Qed.

(** Each restart the comparisons ask for lasts at least its settle
    delay, and they run one after the other. *)
Lemma check_thresholds_duration cpu mem t s :
  t + Z.of_nat (List.length
                  (restart_reasons
                     (out (run_seq (check_thresholds cfg os cpu mem) t s))))
      * STOP_DELAY
  <= clock (run_seq (check_thresholds cfg os cpu mem) t s).
Proof.
  unfold check_thresholds.
  assert (Hmem : forall t s,
    t + Z.of_nat (List.length
                    (restart_reasons
                       (out (run_seq (if Qgtb mem (max_memory_percent cfg)
                                      then emit (LogMemoryHigh mem);;
                                           force_restart cfg os MemoryTooHigh
                                      else Ret tt) t s))))
        * STOP_DELAY
    <= clock (run_seq (if Qgtb mem (max_memory_percent cfg)
                       then emit (LogMemoryHigh mem);;
                            force_restart cfg os MemoryTooHigh
                       else Ret tt) t s)).
  { intros t1 s1; destruct (Qgtb mem _); prog_simpl; cbn [restart_reasons].
    - rewrite force_restart_reasons; cbn [List.length].
      pose proof (force_restart_duration cfg os MemoryTooHigh t1 s1).
      unfold STOP_DELAY, seconds in *; lia.
    - cbn [List.length]; unfold STOP_DELAY, seconds; lia. }
  assert (Hboth : forall (b : bool) t s,
    t + Z.of_nat (List.length
                    (restart_reasons
                       (out (run_seq
                               ((if negb b && Qgtb cpu (max_cpu_percent cfg)
                                 then emit (LogCpuHigh cpu);;
                                      force_restart cfg os CpuTooHigh
                                 else Ret tt);;
                                (if Qgtb mem (max_memory_percent cfg)
                                 then emit (LogMemoryHigh mem);;
                                      force_restart cfg os MemoryTooHigh
                                 else Ret tt)) t s))))
        * STOP_DELAY
    <= clock (run_seq
                ((if negb b && Qgtb cpu (max_cpu_percent cfg)
                  then emit (LogCpuHigh cpu);;
                       force_restart cfg os CpuTooHigh
                  else Ret tt);;
                 (if Qgtb mem (max_memory_percent cfg)
                  then emit (LogMemoryHigh mem);;
                       force_restart cfg os MemoryTooHigh
                  else Ret tt)) t s)).
  { intros b t1 s1; destruct (negb b && Qgtb cpu _).
    - prog_simpl; cbn [restart_reasons].
      rewrite out_bind, clock_bind, restart_reasons_app, force_restart_reasons.
      rewrite length_app; cbn [List.length].
      pose proof (force_restart_duration cfg os CpuTooHigh t1 s1) as Hd.
      pose proof (Hmem (clock (run_seq (force_restart cfg os CpuTooHigh) t1 s1))
                       (rt (run_seq (force_restart cfg os CpuTooHigh) t1 s1)))
        as Hm.
      cbn [bind emit] in Hm; unfold STOP_DELAY, seconds in *; lia.
    - cbn [bind]; apply Hmem. }
  prog_simpl; cbn [restart_reasons].
  destruct (last_start_time s) as [started|];
    [destruct (t - started <? STARTUP_PROTECTION_PERIOD)|];
    prog_simpl; cbn [restart_reasons].
  - exact (Hboth true t s).
  - exact (Hboth false t s).
  - exact (Hboth false t s).
Qed.

(** A tick after its comparisons and its health check: the sleep that
    ends it, or the two lines of the handler. *)
Lemma monitor_tick_run t s :
  let checked := run_seq (check_thresholds cfg os
                            (os_cpu_percent os (t + CPU_SAMPLE_WINDOW))
                            (os_memory_percent os (t + CPU_SAMPLE_WINDOW)))
                         (t + CPU_SAMPLE_WINDOW) s in
  let healed := run_seq (health_check cfg os) (clock checked) (rt checked) in
  let before := (t, EvSleep CPU_SAMPLE_WINDOW) :: out checked ++ out healed in
  clock checked <= clock healed
  /\ run_seq (monitor_tick cfg os) t s
     = if sleep_accepts os (monitor_interval cfg)
       then mkRes true (clock healed + seconds (monitor_interval cfg)) (rt healed)
                  (before ++ [(clock healed,
                               EvSleep (seconds (monitor_interval cfg)))])
       else mkRes false (clock healed) (rt healed)
                  (before ++ [(clock healed, LogMonitorError);
                              (clock healed, LogMonitorStack)]).
Proof.
  cbv zeta; split.
  - apply (run_seq_monotone _ health_check_nonneg).
  - unfold monitor_tick; prog_simpl.
    rewrite run_seq_bind; cbv zeta; rewrite run_seq_bind; cbv zeta.
    destruct (sleep_accepts os (monitor_interval cfg)); prog_simpl;
      unfold logged; cbn [val clock rt out app];
      rewrite <- app_assoc; reflexivity.
Qed.

End TickDuration.

(** X17.  Counting only sleeps, a tick lasts at least the sampling second
    and fifteen seconds for every restart it asks for.  When the monitor
    interval is one [time.sleep] accepts, the tick ends with that sleep
    and the loop goes on.  When it is not, the sleep raises: the tick ends
    with the two lines of the handler, whose own sleep raises again, and
    the monitor loop ends with that tick.  Outside the protection period a
    tick whose two samples are both over their thresholds asks for two
    restarts, one after the other: the memory comparison is made on the
    sample taken before the first restart, and the protection the first
    restart has just started does not apply to it. *)
Theorem monitor_tick_restarts_back_to_back
        (cfg : Config) (os : OS) (t : Z) (s : Runtime) :
  let sampled := t + CPU_SAMPLE_WINDOW in
  let r := run_seq (monitor_tick cfg os) t s in
  let restarts := Z.of_nat (List.length (restart_reasons (out r))) in
  (sleep_accepts os (monitor_interval cfg) = true ->
   val r = true
   /\ sampled + restarts * STOP_DELAY + seconds (monitor_interval cfg)
      <= clock r)
  /\ (sleep_accepts os (monitor_interval cfg) = false ->
      val r = false
      /\ sampled + restarts * STOP_DELAY <= clock r
      /\ (exists before,
             out r = before ++ [(clock r, LogMonitorError);
                                (clock r, LogMonitorStack)])
      /\ (forall fuel,
             is_running s = true ->
             run_seq (monitor_resources cfg os (S fuel)) t s
             = mkRes tt (clock r) (rt r) (out r)))
  /\ (in_startup_protection sampled s = false ->
      (max_cpu_percent cfg < os_cpu_percent os sampled)%Q ->
      (max_memory_percent cfg < os_memory_percent os sampled)%Q ->
      restart_reasons (out r) = [CpuTooHigh; MemoryTooHigh]).
Proof.
  cbv zeta.
  destruct (monitor_tick_run cfg os t s) as [Hmono Hrun]; cbv zeta in Hmono, Hrun.
  pose proof (check_thresholds_duration cfg os
                (os_cpu_percent os (t + CPU_SAMPLE_WINDOW))
                (os_memory_percent os (t + CPU_SAMPLE_WINDOW))
                (t + CPU_SAMPLE_WINDOW) s) as Hd.
  rewrite <- (monitor_tick_reasons cfg os t s) in Hd.
  split; [|split].
  - intros Hok; rewrite Hok in Hrun.
    split; [rewrite Hrun; reflexivity|].
    rewrite Hrun at 2; cbn [clock].
    unfold STOP_DELAY, seconds in *; lia.
  - intros Hbad; rewrite Hbad in Hrun.
    split; [rewrite Hrun; reflexivity|].
    split; [rewrite Hrun at 2; cbn [clock]; unfold STOP_DELAY, seconds in *; lia|].
    split.
    + rewrite Hrun; cbn [out clock]; eexists; reflexivity.
    + intros fuel Hs; cbn [monitor_resources]; prog_simpl.
      rewrite Hs, run_seq_bind; cbv zeta.
      rewrite Hrun; cbn [val clock rt out]; prog_simpl.
      rewrite app_nil_r; reflexivity.
  - intros Hp Hcpu Hmem.
    rewrite monitor_tick_reasons, check_thresholds_reasons, Hp.
    rewrite (proj2 (Qgtb_lt _ _) Hcpu), (proj2 (Qgtb_lt _ _) Hmem).
    reflexivity.
Qed.

Lemma monitor_tick_restarts_back_to_back_witness :
  restart_reasons
    (out (run_seq (monitor_tick (Scenario.config 3600 (Some Scenario.chrome_path))
                                Fleet.overloaded_host)
                  0 initial_runtime))
  = [CpuTooHigh; MemoryTooHigh].
Proof.
  refine (proj2 (proj2 (monitor_tick_restarts_back_to_back
                          (Scenario.config 3600 (Some Scenario.chrome_path))
                          Fleet.overloaded_host 0 initial_runtime)) _ _ _);
    reflexivity.
Defined.
(** * A browser that is neither Chrome nor Edge *)

Section LaunchOnly.

Variable cfg : Config.
Variable os : OS.

Lemma open_urls_in_tabs_terminates_nothing profile_idx urls :
  Costs (indicator is_terminate) (open_urls_in_tabs cfg os profile_idx urls) 0.
Proof.
  unfold open_urls_in_tabs.
  destruct (null urls); psimpl.
  - apply Costs_Emit with (b := 0%nat); [constructor | reflexivity].
  - apply Costs_Emit with (b := 0%nat); [|reflexivity].
    apply Costs_bind with (a := 0%nat) (b := 0%nat); [| |reflexivity].
    + eapply Costs_mono;
        [apply Costs_spawn_loop with (c := 0%nat) | simpl; lia];
        try (intros [] E; (discriminate E || reflexivity)); apply Nat.le_refl.
    + intros started; psimpl.
      apply Costs_Emit with (b := 0%nat); [|reflexivity].
      eapply Costs_mono;
        [apply Costs_locate_and_layout with (c := 0%nat) | simpl; lia];
        try (intros [] E; (discriminate E || reflexivity)); apply Nat.le_refl.
Qed.

Lemma open_groups_terminates_nothing configs : forall idx,
  Costs (indicator is_terminate) (open_groups cfg os idx configs) 0.
Proof.
  induction configs as [|config rest IH]; intros idx; cbn [open_groups];
    psimpl; [constructor|].
  apply Costs_Emit with (b := 0%nat); [|reflexivity].
  apply Costs_bind with (a := 0%nat) (b := 0%nat);
    [apply open_urls_in_tabs_terminates_nothing | | reflexivity].
  intros _; psimpl.
  apply Costs_Sleep with (b := 0%nat); [apply IH | reflexivity].
Qed.

Lemma start_all_browsers_terminates_nothing t s :
  count is_terminate (out (run_seq (start_all_browsers cfg os) t s)) = 0%nat.
Proof.
  apply Nat.le_0_r, Costs_run_seq.
  unfold start_all_browsers; psimpl.
  apply Costs_Emit with (b := 0%nat); [|reflexivity].
  constructor; intros t'; repeat constructor.
  apply open_groups_terminates_nothing.
Qed.

End LaunchOnly.

Section Unsupported.

Variable cfg : Config.
Variable os : OS.

Hypothesis Hchrome : Str.contains "chrome" (lower_path cfg) = false.
Hypothesis Hmsedge : Str.contains "msedge" (lower_path cfg) = false.

Lemma family_running_unsupported proc : family_running cfg proc = false.
Proof.
  unfold family_running, lower_path in *; cbv zeta.
  rewrite Hchrome, Hmsedge; reflexivity.
Qed.

Lemma to_terminate_unsupported proc : to_terminate cfg os proc = false.
Proof.
  unfold to_terminate, is_browser, lower_path in *; cbv zeta.
  destruct (pi_pid proc =? os_getpid os); [reflexivity|].
  destruct (Str.contains "msedgewebview2.exe" _); [reflexivity|].
  rewrite Hchrome, Hmsedge; reflexivity.
Qed.

Lemma cleanup_loop_idle procs t s :
  out (run_seq (cleanup_loop cfg os procs) t s) = [].
Proof.
  induction procs as [|proc rest IH]; cbn [cleanup_loop]; [reflexivity|].
  rewrite to_terminate_unsupported; prog_simpl; exact IH.
Qed.

Lemma stop_all_browsers_idle t s :
  out (run_seq (stop_all_browsers cfg os) t s)
  = (t, LogStopping)
      :: (if Str.truthy (browser_path cfg) then [] else [(t, LogSkipCleanup)]).
Proof.
  unfold stop_all_browsers, cleanup_chrome_processes; prog_simpl.
  rewrite out_bind; prog_simpl; rewrite app_nil_r.
  destruct (Str.truthy _); cbn [negb]; prog_simpl; [|reflexivity].
  rewrite cleanup_loop_idle; reflexivity.
Qed.

End Unsupported.

(** X18.  With a browser path that names neither Chrome nor Edge (a custom
    path is taken as it is) the family test never passes and no process is
    ever selected for termination: whatever the state and the processes
    running, every health check of a fleet with at least one group empties
    the tracked processes, logs that all browsers have exited, terminates
    nothing, waits five seconds and launches the whole fleet again. *)
Theorem unsupported_browser_relaunches_every_check
        (cfg : Config) (os : OS) (t : Z) (s : Runtime) :
  Str.contains "chrome" (lower_path cfg) = false ->
  Str.contains "msedge" (lower_path cfg) = false ->
  browser_configs cfg <> [] ->
  let r := run_seq (health_check cfg os) t s in
  (forall proc, family_running cfg proc = false
                /\ to_terminate cfg os proc = false)
  /\ count is_all_exited (out r) = 1%nat
  /\ count is_terminate (out r) = 0%nat
  /\ count is_start (out r) = 1%nat
  /\ last_start_time (rt r) = Some (t + RECOVERY_DELAY)
  /\ browser_processes (rt r) = map Popen (started_pids (out r)).
Proof.
  intros Hc He Hg; cbv zeta.
  split.
  { intros proc; split;
      [apply family_running_unsupported | apply to_terminate_unsupported];
      assumption. }
  assert (Hrun :
    run_seq (health_check cfg os) t s =
    let stopped := run_seq (stop_all_browsers cfg os) t (set_processes [] s) in
    let started := run_seq (start_all_browsers cfg os) (t + RECOVERY_DELAY)
                           (rt stopped) in
    mkRes tt (clock started) (rt started)
          ((t, LogAllExited)
             :: out stopped ++ (t, EvSleep RECOVERY_DELAY) :: out started)).
  { unfold health_check.
    rewrite run_seq_bind, check_browser_processes_run.
    assert (Hf : existsb (family_running cfg) (os_process_iter os t) = false).
    { induction (os_process_iter os t) as [|proc rest IH]; [reflexivity|].
      cbn [existsb]; rewrite (family_running_unsupported cfg Hc He proc).
      exact IH. }
    rewrite Hf, andb_false_r; cbn [val clock rt out app].
    prog_simpl; cbn [browser_processes set_processes null andb].
    destruct (browser_configs cfg) as [|g gs] eqn:Eg; [contradiction|].
    cbn [null negb]; prog_simpl.
    rewrite run_seq_bind; prog_simpl.
    destruct (stop_all_browsers_run cfg os t (set_processes [] s)) as [_ ->].
    destruct (run_seq (start_all_browsers cfg os) _ _) as [[] c' s' o'].
    reflexivity. }
  rewrite Hrun; cbv zeta; cbn [out rt].
  set (stopped := run_seq (stop_all_browsers cfg os) t (set_processes [] s)).
  set (started := run_seq (start_all_browsers cfg os) (t + RECOVERY_DELAY)
                          (rt stopped)).
  assert (Hno : forall q, q LogStopping = false ->
                          (forall e, launch_event e = true -> q e = false) ->
                          (forall e, cleanup_event e = true -> q e = false) ->
                          (forall d, q (EvSleep d) = false) ->
                          count q (out stopped) = 0%nat
                          /\ count q (out started)
                             = indicator q (LogStartAll
                                              (List.length (browser_configs cfg)))).
  { intros q Hs Hl Hk Hd; split.
    - apply Nat.le_0_r.
      replace 0%nat with (indicator q LogStopping)
        by (unfold indicator; rewrite Hs; reflexivity).
      apply Costs_run_seq, Costs_stop_all_browsers with (c := 0%nat);
        unfold indicator; intros; rewrite ?Hl, ?Hk, ?Hd by assumption;
        auto.
    - apply Weighs_run_seq, Weighs_start_all_browsers;
        unfold indicator; intros; rewrite ?Hl, ?Hk, ?Hd by assumption;
        reflexivity. }
  rewrite !count_cons, !count_app, !count_cons; cbn [snd].
  destruct (Hno is_all_exited) as [-> ->];
    try (intros [] E; (discriminate E || reflexivity)); try reflexivity.
  destruct (Hno is_start) as [-> ->];
    try (intros [] E; (discriminate E || reflexivity)); try reflexivity.
  assert (Hq : count is_terminate (out stopped) = 0%nat
               /\ started_pids (out stopped) = []).
  { unfold stopped; rewrite (stop_all_browsers_idle cfg os Hc He).
    destruct (Str.truthy _); split; reflexivity. }
  destruct Hq as [-> Hq].
  unfold started at 1; rewrite start_all_browsers_terminates_nothing.
  cbn [is_all_exited is_terminate is_start indicator].
  destruct (start_all_browsers_run cfg os (t + RECOVERY_DELAY) (rt stopped))
    as [Hl [_ [Hp _]]].
  fold started in Hl, Hp.
  cbn [started_pids]; rewrite started_pids_app; cbn [started_pids].
  rewrite Hq; cbn [app].
  repeat split; try reflexivity; assumption.
Qed.

Lemma unsupported_browser_relaunches_every_check_witness :
  count is_all_exited
        (out (run_seq (health_check (Scenario.config 3600 (Some Fleet.qq_path))
                                    Fleet.qq_host)
                      0 Scenario.one_window)) = 1%nat.
Proof.
  refine (proj1 (proj2 (unsupported_browser_relaunches_every_check
                          (Scenario.config 3600 (Some Fleet.qq_path))
                          Fleet.qq_host 0 Scenario.one_window _ _ _)));
    [reflexivity | reflexivity | discriminate].
Defined.
(** * The unset browser path *)

(** C3.  An unset browser path is a configuration error that ends the
    program before any spawn.  When neither the custom path nor the
    detection gives a path, the constructor logs the error and exits: no
    manager exists, [main] never reaches [run], and no launch operation
    runs.  Every manager that is constructed has its path set, and no
    method assigns it afterwards, so in every launch operation that runs
    argument construction succeeds for every URL.  And the launch
    operation itself spawns nothing without a path. *)
Theorem C3_unset_path_fails_before_any_spawn
        (mc : Machine) (args : Args) (source : ConfigSource)
        (os : OS) (fuel : nat) (t0 : Z) :
  let custom := st_custom_browser_path (main_settings args source) in
  (usable mc custom = false /\ detect_edge mc = None /\ detect_chrome mc = None ->
   main_manager mc args source = None
   /\ main_run mc args source os fuel t0 = None)
  /\ (forall mg,
         main_manager mc args source = Some mg ->
         Str.truthy (browser_path (mg_config mg)) = true
         /\ forall url,
              create_browser_args (mg_config mg) url
              = inr [Str.or_empty (browser_path (mg_config mg));
                     "--new-window"; url])
  /\ (forall restart max_cpu max_memory groups interval clean custom' settings
             browser_type,
         usable mc custom' = false ->
         detect_edge mc = None ->
         detect_chrome mc = None ->
         BrowserManager_init mc restart max_cpu max_memory groups interval clean
                             custom' settings browser_type = None)
  /\ (forall cfg profile_idx urls t s,
         Str.truthy (browser_path cfg) = false ->
         count is_popen
               (out (run_seq (open_urls_in_tabs cfg os profile_idx urls) t s))
         = 0%nat).
Proof.
  cbv zeta.
  assert (Hexit : forall restart max_cpu max_memory groups interval clean custom'
                         settings browser_type,
             usable mc custom' = false ->
             detect_edge mc = None ->
             detect_chrome mc = None ->
             BrowserManager_init mc restart max_cpu max_memory groups interval
                                 clean custom' settings browser_type = None).
  { intros restart max_cpu max_memory groups interval clean custom' settings
           browser_type U E C.
    apply BrowserManager_init_none; right; auto. }
  split; [|split; [|split; [exact Hexit|]]].
  - intros [U [E C]].
    assert (Hm : main_manager mc args source = None)
      by (unfold main_manager; apply Hexit; assumption).
    split; [exact Hm | unfold main_run; rewrite Hm; reflexivity].
  - intros mg Hmg; unfold main_manager in Hmg.
    destruct (BrowserManager_init_some _ _ _ _ _ _ _ _ _ _ _ Hmg)
      as [path [_ [Ht [_ [_ Hc]]]]].
    rewrite Hc; cbn [browser_path].
    split; [exact Ht|].
    intros url; unfold create_browser_args; cbn [browser_path].
    rewrite Ht; reflexivity.
  - intros cfg profile_idx urls t s Hp.
    destruct urls as [|u us].
    + unfold open_urls_in_tabs; cbn [null]; prog_simpl.
      rewrite count_cons; reflexivity.
    + apply (open_urls_in_tabs_no_path cfg os profile_idx (u :: us) t s Hp).
      discriminate.
Qed.

(** On a machine with no browser the default command line gives no
    manager, and nothing is run. *)
Lemma C3_unset_path_witness :
  main_manager Startup.bare default_args Unreadable = None
  /\ main_run Startup.bare default_args Unreadable Scenario.calm_host 12 0 = None.
Proof.
  refine (proj1 (C3_unset_path_fails_before_any_spawn
                   Startup.bare default_args Unreadable Scenario.calm_host 12 0) _).
  repeat split.
Defined.
